(** * SafeNav: route-proximity filtering, dashboard modes and review gateway

    A shallow embedding of the SafetyMap client ([class SafetyMapApp]) and of
    the review API ([backend/index.js]).

    JavaScript numbers are IEEE 754 binary64 values; they are modelled by
    Rocq's primitive floats, whose operations are the same binary64
    operations (round to nearest, ties to even).  [Math.cos] is the one
    numeric builtin that ECMAScript leaves implementation-approximated, so
    the geometry takes it as a parameter [cos]; the only fact ever assumed
    about it is [cos 0 = 1], which the language standard fixes. *)

From Stdlib Require Uint63.
From Stdlib Require Import Floats ZArith QArith Qpower Bool List String Ascii Lia.
From Stdlib Require Import DecimalString.
Import ListNotations.

Set Warnings "-inexact-float".

Open Scope float_scope.

(** ** JavaScript numbers *)

Module Js.

(** [Math.PI], the binary64 number nearest to pi. *)
Definition Math_PI : float := 0x1.921fb54442d18p+1.

(** [Math.min(x, y)]: NaN if either argument is NaN, and [-0] is smaller
    than [+0]. *)
Definition Math_min (x y : float) : float :=
  if is_nan x || is_nan y then nan
  else if x <? y then x
  else if y <? x then y
  else if get_sign x then x else y.

(** [Math.max(x, y)]: NaN if either argument is NaN, and [+0] is larger
    than [-0]. *)
Definition Math_max (x y : float) : float :=
  if is_nan x || is_nan y then nan
  else if x <? y then y
  else if y <? x then x
  else if get_sign x then y else x.

(** A [length] or a count as a number. *)
Definition of_nat (n : nat) : float := of_uint63 (Uint63.of_Z (Z.of_nat n)).

(** [String(n)] and [n.toString()] for a non-negative integer. *)
Definition String_of_nat (n : nat) : string :=
  NilEmpty.string_of_uint (Nat.to_uint n).

(** A cosine on binary64 by its Maclaurin polynomial of degree 40, evaluated
    by Horner's rule in [x * x].  It stands in for [Math.cos] wherever a
    concrete engine is needed: it returns exactly [1] at [0] and is accurate
    on the arguments the projection uses ([|x| <= 2 * Math_PI]). *)
Fixpoint cos_horner (k : nat) (n : float) (x2 acc : float) : float :=
  match k with
  | O => acc
  | S k' => cos_horner k' (n - 2) x2 (1 - x2 / (n * (n - 1)) * acc)
  end.

Definition cos_taylor (x : float) : float := cos_horner 20 40 (x * x) 1.

(** The builtins of the engine that the client calls and that the language
    does not determine: [Math.cos], [Number.prototype.toFixed] with one
    digit, and the time value of [new Date(text)] (NaN for an invalid
    date). *)
Record Builtins : Type := mkBuiltins {
  Math_cos : float -> float;
  toFixed1 : float -> string;
  Date_parse : string -> float
}.

End Js.

(** ** Geometry helpers *)

Module LatLng.
Record t : Set := mk { lat : float; lng : float }.
End LatLng.

Section Geometry.

Variable cos : float -> float.

Definition toRad (x : float) : float := x * Js.Math_PI / 180.

(** The two scale factors of the local projection at latitude [lat0]
    (radians); [distPointToSegmentMeters] binds them as local constants. *)
Definition mPerDegLat (lat0 : float) : float :=
  111132.92 - 559.82 * cos (2 * lat0) + 1.175 * cos (4 * lat0).

Definition mPerDegLng (lat0 : float) : float :=
  111412.84 * cos lat0 - 93.5 * cos (3 * lat0).

(** Distance from point P to segment VW (meters) using the local
    equirectangular projection. *)
Definition distPointToSegmentMeters (p v w : LatLng.t) : float :=
  let lat0 := toRad ((LatLng.lat v + LatLng.lat w) / 2) in
  let vx := (LatLng.lng w - LatLng.lng v) * mPerDegLng lat0 in
  let vy := (LatLng.lat w - LatLng.lat v) * mPerDegLat lat0 in
  let px := (LatLng.lng p - LatLng.lng v) * mPerDegLng lat0 in
  let py := (LatLng.lat p - LatLng.lat v) * mPerDegLat lat0 in
  let segLen2 := vx * vx + vy * vy in
  if segLen2 =? 0 then sqrt (px * px + py * py)
  else
    let t := (px * vx + py * vy) / segLen2 in
    let t := Js.Math_max 0 (Js.Math_min 1 t) in
    let projx := vx * t in
    let projy := vy * t in
    let dx := px - projx in
    let dy := py - projy in
    sqrt (dx * dx + dy * dy).

Variable routeBufferMeters : float.

(** The loop of [minDistanceToPolylineMeters], from the segment that starts
    at the head of [path], with running minimum [min]. *)
Fixpoint minDistanceLoop (p : LatLng.t) (path : list LatLng.t) (min : float)
  : float :=
  match path with
  | [] => min
  | v :: rest =>
      match rest with
      | [] => min
      | w :: _ =>
          let d := distPointToSegmentMeters p v w in
          let min := if d <? min then d else min in
          if min <=? routeBufferMeters then min (* quick exit *)
          else minDistanceLoop p rest min
      end
  end.

(** Minimum distance from point to polyline (meters). *)
Definition minDistanceToPolylineMeters (p : LatLng.t) (path : list LatLng.t)
  : float :=
  minDistanceLoop p path infinity.

(** The reference the early exit is compared with: the same loop without the
    quick exit, so that every segment is scanned. *)
Fixpoint minDistanceScanAll (p : LatLng.t) (path : list LatLng.t) (min : float)
  : float :=
  match path with
  | [] => min
  | v :: rest =>
      match rest with
      | [] => min
      | w :: _ =>
          let d := distPointToSegmentMeters p v w in
          let min := if d <? min then d else min in
          minDistanceScanAll p rest min
      end
  end.

Definition minDistanceFullScan (p : LatLng.t) (path : list LatLng.t) : float :=
  minDistanceScanAll p path infinity.

(** The latitude, in radians, at which the projection of the segment
    [v]-[w] is anchored. *)
Definition midLatitude (v w : LatLng.t) : float :=
  toRad ((LatLng.lat v + LatLng.lat w) / 2).

(** The projected offsets of [p] from [v], for the segment [v]-[w]. *)
Definition projectedOffset (p v w : LatLng.t) : float * float :=
  let lat0 := midLatitude v w in
  ((LatLng.lng p - LatLng.lng v) * mPerDegLng lat0,
   (LatLng.lat p - LatLng.lat v) * mPerDegLat lat0).

(** The projected vector from [v] to [w]. *)
Definition segmentVector (v w : LatLng.t) : float * float :=
  projectedOffset w v w.

(** Straight-line distance from [p] to [v] in the plane of the projection
    anchored at the midpoint latitude of [v]-[w]. *)
Definition planarDistance (p v w : LatLng.t) : float :=
  let '(px, py) := projectedOffset p v w in sqrt (px * px + py * py).

(** The squared length of the projected segment, [segLen2]. *)
Definition segmentLength2 (v w : LatLng.t) : float :=
  fst (segmentVector v w) * fst (segmentVector v w)
  + snd (segmentVector v w) * snd (segmentVector v w).

(** The parameter [t] of the closest point, after
    [Math.max(0, Math.min(1, t))]. *)
Definition closestParameter (p v w : LatLng.t) : float :=
  let '(px, py) := projectedOffset p v w in
  let '(vx, vy) := segmentVector v w in
  Js.Math_max 0 (Js.Math_min 1 ((px * vx + py * vy) / segmentLength2 v w)).

(** The offset [(dx, dy)] whose length the function returns: from the
    closest point of the segment to P, and from V to P when [segLen2] is
    zero. *)
Definition closestOffset (p v w : LatLng.t) : float * float :=
  let '(px, py) := projectedOffset p v w in
  let '(vx, vy) := segmentVector v w in
  if segmentLength2 v w =? 0 then (px, py)
  else
    let t := closestParameter p v w in
    (px - vx * t, py - vy * t).





End Geometry.


(** ** Reviews and the state of the application *)

Module Review.
(** A review as the API returns it (the DTO of the backend). *)
Record t : Set := mk {
  id : string;
  lat : float;
  lng : float;
  safetyRating : float;
  infrastructureRating : float;
  description : string;
  address : option string;
  timestamp : string
}.
End Review.

(** A highlight circle ([google.maps.Circle]) by its centre and radius; the
    other options are constants. *)
Record Circle : Set := mkCircle { center : LatLng.t; radius : float }.

(** The four stat tiles of the page, by element id. *)
Record Dashboard : Set := mkDashboard {
  totalReviews : string;
  avgSafety : string;
  avgInfra : string;
  recentReviews : string
}.

(** Four blank tiles. *)
Definition blank : Dashboard := mkDashboard "" "" "" "".

(** No tile reads "0". *)
Definition noZeroTile (d : Dashboard) : Prop :=
  totalReviews d <> "0"%string /\ avgSafety d <> "0"%string
  /\ avgInfra d <> "0"%string /\ recentReviews d <> "0"%string.

(** A notification, by message and type. *)
Record Notification : Set := mkNotification { message : string; kind : string }.

(** Dashboard (3 modes). *)
Inductive DashboardMode : Set := Overall | RouteOnly | Empty.

(** The fields of [SafetyMapApp] that the data, route and dashboard code
    reads or writes, with the parts of the page it writes.
    - [mapReady]: [this.map] is set (by [initMap]);
    - [reviewMarkers]: the reviews that have a marker on the map, in the
      order of the array;
    - [routeOverlays]: highlight circles for on-route reviews; a circle is
      detached from the map only when the array is emptied, so the circles
      of the array are the ones on the map;
    - [routeCountBadge]: the text of the badge in the route control, [None]
      until the control is built;
    - [routeFiltered]: cache of on-route reviews;
    - [notifications]: the notifications shown so far, oldest first;
    - [dashboardMode]: which of the three dashboard renderers wrote the
      tiles last (not a field of the class: the source keeps the mode only
      as the content of the tiles). *)
Record App : Set := mkApp {
  mapReady : bool;
  reviewMarkers : list Review.t;
  reviews : list Review.t;
  isReviewMode : bool;
  selectedLocation : option LatLng.t;
  currentReviewId : option string;
  routePath : list LatLng.t;
  routeActive : bool;
  routeBufferMeters : float;
  routeOverlays : list Circle;
  routeCountBadge : option string;
  routeFiltered : list Review.t;
  dashboard : Dashboard;
  notifications : list Notification;
  dashboardMode : DashboardMode
}.

(** Assignments to one field. *)
Definition set_mapReady (x : bool) (s : App) : App :=
  mkApp x (reviewMarkers s) (reviews s) (isReviewMode s) (selectedLocation s)
    (currentReviewId s) (routePath s) (routeActive s) (routeBufferMeters s)
    (routeOverlays s) (routeCountBadge s) (routeFiltered s) (dashboard s)
    (notifications s) (dashboardMode s).
Definition set_reviewMarkers (x : list Review.t) (s : App) : App :=
  mkApp (mapReady s) x (reviews s) (isReviewMode s) (selectedLocation s)
    (currentReviewId s) (routePath s) (routeActive s) (routeBufferMeters s)
    (routeOverlays s) (routeCountBadge s) (routeFiltered s) (dashboard s)
    (notifications s) (dashboardMode s).
Definition set_reviews (x : list Review.t) (s : App) : App :=
  mkApp (mapReady s) (reviewMarkers s) x (isReviewMode s)
    (selectedLocation s) (currentReviewId s) (routePath s) (routeActive s)
    (routeBufferMeters s) (routeOverlays s) (routeCountBadge s)
    (routeFiltered s) (dashboard s) (notifications s) (dashboardMode s).
Definition set_isReviewMode (x : bool) (s : App) : App :=
  mkApp (mapReady s) (reviewMarkers s) (reviews s) x (selectedLocation s)
    (currentReviewId s) (routePath s) (routeActive s) (routeBufferMeters s)
    (routeOverlays s) (routeCountBadge s) (routeFiltered s) (dashboard s)
    (notifications s) (dashboardMode s).
Definition set_selectedLocation (x : option LatLng.t) (s : App) : App :=
  mkApp (mapReady s) (reviewMarkers s) (reviews s) (isReviewMode s) x
    (currentReviewId s) (routePath s) (routeActive s) (routeBufferMeters s)
    (routeOverlays s) (routeCountBadge s) (routeFiltered s) (dashboard s)
    (notifications s) (dashboardMode s).
Definition set_currentReviewId (x : option string) (s : App) : App :=
  mkApp (mapReady s) (reviewMarkers s) (reviews s) (isReviewMode s)
    (selectedLocation s) x (routePath s) (routeActive s)
    (routeBufferMeters s) (routeOverlays s) (routeCountBadge s)
    (routeFiltered s) (dashboard s) (notifications s) (dashboardMode s).
Definition set_routePath (x : list LatLng.t) (s : App) : App :=
  mkApp (mapReady s) (reviewMarkers s) (reviews s) (isReviewMode s)
    (selectedLocation s) (currentReviewId s) x (routeActive s)
    (routeBufferMeters s) (routeOverlays s) (routeCountBadge s)
    (routeFiltered s) (dashboard s) (notifications s) (dashboardMode s).
Definition set_routeActive (x : bool) (s : App) : App :=
  mkApp (mapReady s) (reviewMarkers s) (reviews s) (isReviewMode s)
    (selectedLocation s) (currentReviewId s) (routePath s) x
    (routeBufferMeters s) (routeOverlays s) (routeCountBadge s)
    (routeFiltered s) (dashboard s) (notifications s) (dashboardMode s).
Definition set_routeOverlays (x : list Circle) (s : App) : App :=
  mkApp (mapReady s) (reviewMarkers s) (reviews s) (isReviewMode s)
    (selectedLocation s) (currentReviewId s) (routePath s) (routeActive s)
    (routeBufferMeters s) x (routeCountBadge s) (routeFiltered s)
    (dashboard s) (notifications s) (dashboardMode s).
Definition set_routeCountBadge (x : option string) (s : App) : App :=
  mkApp (mapReady s) (reviewMarkers s) (reviews s) (isReviewMode s)
    (selectedLocation s) (currentReviewId s) (routePath s) (routeActive s)
    (routeBufferMeters s) (routeOverlays s) x (routeFiltered s) (dashboard s)
    (notifications s) (dashboardMode s).
Definition set_routeFiltered (x : list Review.t) (s : App) : App :=
  mkApp (mapReady s) (reviewMarkers s) (reviews s) (isReviewMode s)
    (selectedLocation s) (currentReviewId s) (routePath s) (routeActive s)
    (routeBufferMeters s) (routeOverlays s) (routeCountBadge s) x
    (dashboard s) (notifications s) (dashboardMode s).
Definition set_dashboard (x : Dashboard) (s : App) : App :=
  mkApp (mapReady s) (reviewMarkers s) (reviews s) (isReviewMode s)
    (selectedLocation s) (currentReviewId s) (routePath s) (routeActive s)
    (routeBufferMeters s) (routeOverlays s) (routeCountBadge s)
    (routeFiltered s) x (notifications s) (dashboardMode s).
Definition set_notifications (x : list Notification) (s : App) : App :=
  mkApp (mapReady s) (reviewMarkers s) (reviews s) (isReviewMode s)
    (selectedLocation s) (currentReviewId s) (routePath s) (routeActive s)
    (routeBufferMeters s) (routeOverlays s) (routeCountBadge s)
    (routeFiltered s) (dashboard s) x (dashboardMode s).
Definition set_dashboardMode (x : DashboardMode) (s : App) : App :=
  mkApp (mapReady s) (reviewMarkers s) (reviews s) (isReviewMode s)
    (selectedLocation s) (currentReviewId s) (routePath s) (routeActive s)
    (routeBufferMeters s) (routeOverlays s) (routeCountBadge s)
    (routeFiltered s) (dashboard s) (notifications s) x.

(** The outcome of a [fetch]: the promise rejects, or a response arrives
    with its status and its JSON body ([None] when [res.json()] rejects). *)
Inductive FetchResult (A : Type) : Type :=
  | NetworkError
  | Response (status : nat) (body : option A).
Arguments NetworkError {A}.
Arguments Response {A} status body.

(** [res.ok]: a status in the range 200-299. *)
Definition res_ok (status : nat) : bool :=
  (200 <=? status)%nat && (status <=? 299)%nat.

(** The value a handler gets from [await fetch(...)], the check of [res.ok]
    and [await res.json()]; [None] when one of the three throws. *)
Definition fetched {A : Type} (res : FetchResult A) : option A :=
  match res with
  | NetworkError => None
  | Response st body => if res_ok st then body else None
  end.

(** The try block of [deleteReview] gets past its check: the DELETE was
    answered, with status 204. *)
Definition deleted {A : Type} (res : FetchResult A) : bool :=
  match res with
  | NetworkError => false
  | Response st _ => (st =? 204)%nat
  end.

(** The store call failed: a network error or a non-OK response. *)
Definition storeFailed {A : Type} (res : FetchResult A) : bool :=
  match res with
  | NetworkError => true
  | Response st _ => negb (res_ok st)
  end.

(** What the directions callback receives: the status and
    [result.routes[0].overview_path]. *)
Record DirectionsReply : Set := mkDirectionsReply {
  status : string;
  overview_path : option (list LatLng.t)
}.

Section Client.

(** The engine the page runs on. *)
Variable engine : Js.Builtins.

Local Abbreviation cos := (Js.Math_cos engine).
Local Abbreviation toFixed1 := (Js.toFixed1 engine).
Local Abbreviation Date_parse := (Js.Date_parse engine).

(** [new SafetyMapApp()] on a page whose tiles read [page]. *)
Definition constructor (page : Dashboard) : App :=
  {| mapReady := false;
     reviewMarkers := [];
     reviews := [];
     isReviewMode := false;
     selectedLocation := None;
     currentReviewId := None;
     routePath := [];
     routeActive := false;
     routeBufferMeters := 1000;
     routeOverlays := [];
     routeCountBadge := None;
     routeFiltered := [];
     dashboard := page;
     notifications := [];
     dashboardMode := Overall |}.

Definition showNotification (message kind : string) (s : App) : App :=
  set_notifications (notifications s ++ [mkNotification message kind]) s.

Section Handlers.

(** The time value of [weekAgo], seven calendar days before the clock reading
    of the call. *)
Variable weekAgo : float.

(** *** Dashboard (3 modes) *)

(** [setStat(id, value)]: writes the tile with that id, if there is one. *)
Definition setStat (id value : string) (s : App) : App :=
  let d := dashboard s in
  if String.eqb id "totalReviews" then
    set_dashboard (mkDashboard value (avgSafety d) (avgInfra d) (recentReviews d)) s
  else if String.eqb id "avgSafety" then
    set_dashboard (mkDashboard (totalReviews d) value (avgInfra d) (recentReviews d)) s
  else if String.eqb id "avgInfra" then
    set_dashboard (mkDashboard (totalReviews d) (avgSafety d) value (recentReviews d)) s
  else if String.eqb id "recentReviews" then
    set_dashboard (mkDashboard (totalReviews d) (avgSafety d) (avgInfra d) value) s
  else s.

(** [list.reduce((s, r) => s + r.field, 0)]. *)
Definition sumOf (field : Review.t -> float) (subset : list Review.t) : float :=
  fold_left (fun s r => s + field r) subset 0.

(** [list.filter(r => new Date(r.timestamp) > weekAgo).length]. *)
Definition recentCount (subset : list Review.t) : nat :=
  List.length (filter (fun r => weekAgo <? Date_parse (Review.timestamp r)) subset).

Definition updateDashboardOverall (s : App) : App :=
  let total := List.length (reviews s) in
  (* totals/averages from ALL reviews *)
  let avgSafety :=
    match total with
    | O => ""%string
    | _ => toFixed1 (sumOf Review.safetyRating (reviews s) / Js.of_nat total)
    end in
  let avgInfra :=
    match total with
    | O => ""%string
    | _ => toFixed1 (sumOf Review.infrastructureRating (reviews s) / Js.of_nat total)
    end in
  let recent :=
    match total with
    | O => ""%string
    | _ => Js.String_of_nat (recentCount (reviews s))
    end in
  let s := setStat "totalReviews"
             (match total with O => ""%string | _ => Js.String_of_nat total end) s in
  let s := setStat "avgSafety" avgSafety s in
  let s := setStat "avgInfra" avgInfra s in
  let s := setStat "recentReviews" recent s in
  set_dashboardMode Overall s.

Definition updateDashboardEmpty (s : App) : App :=
  (* clear the four tiles (show nothing) *)
  let s := setStat "totalReviews" "" s in
  let s := setStat "avgSafety" "" s in
  let s := setStat "avgInfra" "" s in
  let s := setStat "recentReviews" "" s in
  set_dashboardMode Empty s.

Definition updateDashboardRouteOnly (s : App) : App :=
  (* uses cached this.routeFiltered; if empty -> Empty mode *)
  match routeFiltered s with
  | [] =>
      let s := updateDashboardEmpty s in
      match routeCountBadge s with
      | Some _ => set_routeCountBadge (Some "Route reviews: 0"%string) s
      | None => s
      end
  | _ :: _ =>
      let subset := routeFiltered s in
      let total := List.length subset in
      let avgSafety := toFixed1 (sumOf Review.safetyRating subset / Js.of_nat total) in
      let avgInfra :=
        toFixed1 (sumOf Review.infrastructureRating subset / Js.of_nat total) in
      let recent := Js.String_of_nat (recentCount subset) in
      let s := setStat "totalReviews" (Js.String_of_nat total) s in
      let s := setStat "avgSafety" avgSafety s in
      let s := setStat "avgInfra" avgInfra s in
      let s := setStat "recentReviews" recent s in
      set_dashboardMode RouteOnly s
  end.

(** *** Route actions *)

(** The body of the loop of [countReviewsAlongRoute] for one review. *)
Definition countStep (s : App) (r : Review.t) : App :=
  let p := LatLng.mk (Review.lat r) (Review.lng r) in
  let dMeters :=
    minDistanceToPolylineMeters cos (routeBufferMeters s) p (routePath s) in
  if dMeters <=? routeBufferMeters s then
    let s := set_routeFiltered (routeFiltered s ++ [r]) s in
    (* subtle halo (visual only) *)
    let circle := mkCircle p (Js.Math_max 30 (routeBufferMeters s / 6)) in
    set_routeOverlays (routeOverlays s ++ [circle]) s
  else s.

(** The test of the loop for one review, and the halo of a review. *)
Definition onRoute (s : App) (r : Review.t) : bool :=
  minDistanceToPolylineMeters cos (routeBufferMeters s)
    (LatLng.mk (Review.lat r) (Review.lng r)) (routePath s)
  <=? routeBufferMeters s.

Definition halo (s : App) (r : Review.t) : Circle :=
  mkCircle (LatLng.mk (Review.lat r) (Review.lng r))
    (Js.Math_max 30 (routeBufferMeters s / 6)).

(** Build cache + draw halos + return count. *)
Definition countReviewsAlongRoute (s : App) : App * nat :=
  let s := set_routeFiltered [] s in
  if (List.length (routePath s) <? 2)%nat then (s, O)
  else
    (* clear old halos *)
    let s := set_routeOverlays [] s in
    let s := fold_left countStep (reviews s) s in
    (s, List.length (routeFiltered s)).

(** The recurring tail of the handlers: with an active route, re-run the
    filter and show route-only (or empty); otherwise show overall. *)
Definition routeIsSet (s : App) : bool :=
  routeActive s && negb (List.length (routePath s) =? 0)%nat.

(** The mode the invariant prescribes: overall without a route, route-only
    with a route and on-route reviews, empty with a route and none. *)
Definition expectedMode (s : App) : DashboardMode :=
  if routeIsSet s then
    match routeFiltered s with
    | [] => Empty
    | _ :: _ => RouteOnly
    end
  else Overall.

(** The mode invariant, as the three equivalences. *)
Definition modeInvariant (s : App) : Prop :=
  (dashboardMode s = RouteOnly <-> routeIsSet s = true /\ routeFiltered s <> [])
  /\ (dashboardMode s = Empty <-> routeIsSet s = true /\ routeFiltered s = [])
  /\ (dashboardMode s = Overall <-> routeIsSet s = false).

(** The route and the map are the same in both states. *)
Definition sameRoute (s s' : App) : Prop :=
  routeActive s' = routeActive s /\ routePath s' = routePath s
  /\ mapReady s' = mapReady s.

(** The invariant of the reachable states: the mode is the expected one,
    and a route is only ever active on a page whose map exists. *)
Definition stateInv (s : App) : Prop :=
  dashboardMode s = expectedMode s /\ (routeActive s = true -> mapReady s = true).

Definition refreshDashboard (s : App) : App :=
  if routeIsSet s then updateDashboardRouteOnly (fst (countReviewsAlongRoute s))
  else updateDashboardOverall s.

(** [findRoute], with the trimmed texts of the two inputs and what the
    directions service hands to the callback.  Before [initMap] the route
    control and its inputs do not exist: the first line throws and nothing
    is written. *)
Definition findRoute (origin destination : string) (reply : DirectionsReply)
    (s : App) : App :=
  if negb (mapReady s) then s
  else if String.eqb origin "" || String.eqb destination "" then
    showNotification "Please enter both origin and destination." "warning" s
  else if negb (String.eqb (status reply) "OK") then
    showNotification ("Route failed: " ++ status reply)%string "error" s
  else
    let s := set_routePath (match overview_path reply with
                            | Some path => path
                            | None => []
                            end) s in
    let s := set_routeActive true s in
    let '(s, count) := countReviewsAlongRoute s in
    let s := match routeCountBadge s with
             | Some _ =>
                 set_routeCountBadge
                   (Some ("Route reviews: " ++ Js.String_of_nat count)%string) s
             | None => s
             end in
    (* Switch dashboard to route-only (or empty) *)
    updateDashboardRouteOnly s.

(** [clearRoute]; before [initMap] there is no directions renderer, and the
    first line throws. *)
Definition clearRoute (s : App) : App :=
  if negb (mapReady s) then s else
  let s := set_routePath [] s in
  let s := set_routeActive false s in
  let s := set_routeFiltered [] s in
  let s := match routeCountBadge s with
           | Some _ => set_routeCountBadge (Some "Route reviews: 0"%string) s
           | None => s
           end in
  (* remove halos *)
  let s := set_routeOverlays [] s in
  (* Back to overall dashboard *)
  updateDashboardOverall s.

(** *** Markers *)

Definition addReviewMarker (s : App) (review : Review.t) : App :=
  set_reviewMarkers (reviewMarkers s ++ [review]) s.

Definition loadMarkers (s : App) : App :=
  fold_left addReviewMarker (reviews s) (set_reviewMarkers [] s).

(** [initMap]: creates the map and the route control with its badge, and
    draws the markers. *)
Definition initMap (s : App) : App :=
  let s := set_mapReady true s in
  let s := set_routeCountBadge (Some "Route reviews: 0"%string) s in
  loadMarkers s.

(** *** Data I/O *)

Definition loadReviews (res : FetchResult (list Review.t)) (s : App) : App :=
  match fetched res with
  | Some body =>
      let s := set_reviews body s in
      (* Dashboard defaults to overall until a route is set *)
      let s := updateDashboardOverall s in
      if mapReady s then
        let s := loadMarkers s in
        if routeIsSet s then
          updateDashboardRouteOnly (fst (countReviewsAlongRoute s))
        else s
      else s
  | None =>
      let s := set_reviews [] s in
      let s := updateDashboardOverall s in
      showNotification "Failed to load reviews from server." "error" s
  end.

Definition closeReviewModal (s : App) : App := set_selectedLocation None s.

Definition closeViewModal (s : App) : App := set_currentReviewId None s.

(** [saveReview], with the outcome of the POST.  The request body is built
    from [selectedLocation] and the form; the state only depends on what the
    store answers. *)
Definition saveReview (res : FetchResult Review.t) (s : App) : App :=
  match selectedLocation s with
  | None => s
  | Some _ =>
      match fetched res with
      | Some saved =>
          let s := set_reviews (saved :: reviews s) s in
          let s := if mapReady s then addReviewMarker s saved else s in
          let s := refreshDashboard s in
          let s := closeReviewModal s in
          let s := set_isReviewMode false s in
          showNotification "Review saved successfully!" "success" s
      | None => showNotification "Failed to save review." "error" s
      end
  end.

(** [deleteReview], with the answer to the confirmation dialog and the
    outcome of the DELETE.  The guard [!this.currentReviewId] also returns
    for the empty identifier, which is falsy. *)
Definition deleteReview (confirmed : bool) (res : FetchResult unit) (s : App)
  : App :=
  match currentReviewId s with
  | None => s
  | Some current =>
      if String.eqb current "" then s
      else if negb confirmed then s
      else if deleted res then
        let s := set_reviews
                   (filter (fun r => negb (String.eqb (Review.id r) current))
                      (reviews s)) s in
        let s := loadMarkers s in
        let s := closeViewModal s in
        let s := refreshDashboard s in
        showNotification "Review deleted successfully" "info" s
      else showNotification "Failed to delete review." "error" s
  end.

(** *** Filters *)

(** [applyFilters], with the two minima and the cutoff of the time filter
    ([None] for "all"). *)
Definition applyFilters (safetyMin infraMin : float) (cutoff : option float)
    (s : App) : App :=
  let filtered :=
    filter (fun r => (safetyMin <=? Review.safetyRating r)
                     && (infraMin <=? Review.infrastructureRating r))
      (reviews s) in
  let filtered :=
    match cutoff with
    | Some c => filter (fun r => c <? Date_parse (Review.timestamp r)) filtered
    | None => filtered
    end in
  (* reset markers to filtered set *)
  let s := fold_left addReviewMarker filtered (set_reviewMarkers [] s) in
  let s := showNotification
             ("Applied filters. Showing "
              ++ Js.String_of_nat (List.length filtered) ++ " reviews.") "info" s in
  (* Dashboard mode stays the same *)
  refreshDashboard s.

Definition resetFilters (s : App) : App :=
  let s := loadMarkers s in
  let s := showNotification "Filters reset. Showing all reviews." "info" s in
  refreshDashboard s.

(** *** Modals *)

Definition openReviewModal (lat lng : float) (s : App) : App :=
  set_selectedLocation (Some (LatLng.mk lat lng)) s.

Definition showReviewDetails (review : Review.t) (s : App) : App :=
  set_currentReviewId (Some (Review.id review)) s.

End Handlers.

(** *** The events of the page *)

Inductive Event : Type :=
  | InitMap
  | ReviewsLoaded (res : FetchResult (list Review.t))
  | MapClickedInReviewMode (lat lng : float)
  | ReviewSubmitted (res : FetchResult Review.t)
  | MarkerClicked (review : Review.t)
  | DeleteClicked (confirmed : bool) (res : FetchResult unit)
  | RouteSearched (origin destination : string) (reply : DirectionsReply)
  | RouteCleared
  | FiltersApplied (safetyMin infraMin : float) (cutoff : option float)
  | FiltersReset.

(** The events after which the mode invariant is kept: every event but a
    failed load of the reviews while a route is set, and a successful route
    search that yields no point at all. *)
Definition keepsMode (s : App) (e : Event) : Prop :=
  match e with
  | ReviewsLoaded res => fetched res <> None \/ routeIsSet s = false
  | RouteSearched _ _ reply =>
      status reply = "OK"%string ->
      exists v path, overview_path reply = Some (v :: path)
  | _ => True
  end.

(** One event, handled at the clock reading whose [weekAgo] is given. *)
Definition handle (s : App) (timed : float * Event) : App :=
  let (weekAgo, e) := timed in
  match e with
  | InitMap => initMap s
  | ReviewsLoaded res => loadReviews weekAgo res s
  | MapClickedInReviewMode lat lng => openReviewModal lat lng s
  | ReviewSubmitted res => saveReview weekAgo res s
  | MarkerClicked review => showReviewDetails review s
  | DeleteClicked confirmed res => deleteReview weekAgo confirmed res s
  | RouteSearched origin destination reply =>
      findRoute weekAgo origin destination reply s
  | RouteCleared => clearRoute weekAgo s
  | FiltersApplied safetyMin infraMin cutoff =>
      applyFilters weekAgo safetyMin infraMin cutoff s
  | FiltersReset => resetFilters weekAgo s
  end.

(** All events of a run keep the mode. *)
Fixpoint allKeepMode (s : App) (events : list (float * Event)) : Prop :=
  match events with
  | [] => True
  | timed :: rest =>
      keepsMode s (snd timed) /\ allKeepMode (handle s timed) rest
  end.

(** The page after a sequence of events. *)
Definition run (page : Dashboard) (events : list (float * Event)) : App :=
  fold_left handle events (constructor page).

End Client.

(** ** The review API ([backend/index.js]) *)

Module Backend.

(** The values a field of a JSON request body can take; [JsObject] stands
    for any object or array. *)
Inductive JsValue : Set :=
  | JsUndefined
  | JsNull
  | JsBoolean (b : bool)
  | JsNumber (x : float)
  | JsString (s : string)
  | JsObject.

Definition typeof (v : JsValue) : string :=
  match v with
  | JsUndefined => "undefined"
  | JsNull => "object"
  | JsBoolean _ => "boolean"
  | JsNumber _ => "number"
  | JsString _ => "string"
  | JsObject => "object"
  end.

(** The fields that [POST /reviews] reads from [req.body || {}]. *)
Record Body : Set := mkBody {
  lat : JsValue;
  lng : JsValue;
  safetyRating : JsValue;
  infrastructureRating : JsValue;
  description : JsValue;
  address : JsValue;
  timestamp : JsValue
}.

(** [v || null], as a query parameter. *)
Definition orNull (v : JsValue) : JsValue :=
  match v with
  | JsUndefined => JsNull
  | JsBoolean false => JsNull
  | JsString EmptyString => JsNull
  | JsNumber x => if (x =? 0) || is_nan x then JsNull else v
  | _ => v
  end.

(** A row of the table [reviews], as the queries return it. *)
Record Row : Set := mkRow {
  row_id : Z;
  row_lat : float;
  row_lng : float;
  safety_rating : float;
  infrastructure_rating : float;
  row_description : string;
  row_address : option string;
  row_timestamp : string
}.

(** The parameters [$1 .. $7] of the INSERT. *)
Record InsertParams : Set := mkInsertParams {
  p_lat : float;
  p_lng : float;
  p_safety_rating : float;
  p_infrastructure_rating : float;
  p_description : string;
  p_address : JsValue;
  p_timestamp : JsValue
}.

(** Normalize DB row -> frontend shape. *)
Definition toReviewDTO (row : Row) : Review.t :=
  Review.mk (DecimalString.NilZero.string_of_int (Z.to_int (row_id row)))
    (row_lat row) (row_lng row) (safety_rating row)
    (infrastructure_rating row) (row_description row) (row_address row)
    (row_timestamp row).

(** What the handler sends: a status, and a review or an error message. *)
Inductive Reply : Set :=
  | ReplyReview (status : nat) (saved : Review.t)
  | ReplyError (status : nat) (error : string).

Definition replyStatus (r : Reply) : nat :=
  match r with
  | ReplyReview st _ => st
  | ReplyError st _ => st
  end.

(** The check of the handler passes: the four numeric fields are numbers and
    the description is a string. *)
Definition validPayload (body : Body) : bool :=
  String.eqb (typeof (lat body)) "number"
  && String.eqb (typeof (lng body)) "number"
  && String.eqb (typeof (safetyRating body)) "number"
  && String.eqb (typeof (infrastructureRating body)) "number"
  && String.eqb (typeof (description body)) "string".

Section Handlers.

(** The database: its state, and the INSERT ... RETURNING of the handler,
    which yields the new state and the inserted row, or throws ([None]). *)
Variable DB : Type.
Variable insertReview : DB -> InsertParams -> option (DB * Row).

(** [app.post("/reviews", ...)]: the reply, the database afterwards, and the
    payload handed to the alerts sidecar, if any. *)
Definition postReviews (db : DB) (body : Body)
  : Reply * DB * option (float * float * option string * string) :=
  match lat body, lng body, safetyRating body, infrastructureRating body,
        description body with
  | JsNumber lat, JsNumber lng, JsNumber safetyRating,
    JsNumber infrastructureRating, JsString description =>
      match insertReview db
              (mkInsertParams lat lng safetyRating infrastructureRating
                 description (orNull (address body)) (orNull (timestamp body)))
      with
      | Some (db', row) =>
          let saved := toReviewDTO row in
          (ReplyReview 201 saved, db',
           Some (Review.lat saved, Review.lng saved, Review.address saved,
                 Review.description saved))
      | None => (ReplyError 500 "Server error", db, None)
      end
  | _, _, _, _, _ => (ReplyError 400 "Invalid payload", db, None)
  end.

(** The reply alone. *)
Definition postReply (db : DB) (body : Body) : Reply :=
  fst (fst (postReviews db body)).

End Handlers.

Arguments postReviews {DB} insertReview db body.
Arguments postReply {DB} insertReview db body.

(** Modelled from the spec: the table [reviews] and its INSERT, which are
    not part of the sources.  The store assigns the identifier and defaults
    the timestamp to [now] if absent; it has no other business logic. *)
Record Table : Set := mkTable { rows : list Row; nextId : Z; now : string }.

Definition tableInsert (db : Table) (q : InsertParams) : option (Table * Row) :=
  let row :=
    mkRow (nextId db) (p_lat q) (p_lng q) (p_safety_rating q)
      (p_infrastructure_rating q) (p_description q)
      (match p_address q with JsString a => Some a | _ => None end)
      (match p_timestamp q with JsString t => t | _ => now db end) in
  Some (mkTable (rows db ++ [row]) (nextId db + 1) (now db), row).

End Backend.

(** * Properties *)

(** ** A reference engine

    Concrete versions of the builtins that the client takes as parameters.
    They instantiate the parameters in examples; every property below is
    proved for all engines. *)

Module Engine.


Definition digitChar (d : Z) : string :=
  String (ascii_of_nat (48 + Z.to_nat d)) EmptyString.

(** [x.toFixed(1)]: the integer [n] nearest to [10 * x], the larger one on a
    tie, written with a point before its last digit.  Below 10^21 this is the
    text the standard prescribes; beyond, where the standard switches to the
    exponent notation, the positional text is kept. *)
Definition toFixed1 (x : float) : string :=
  match Prim2SF x with
  | S754_nan => "NaN"
  | S754_infinity false => "Infinity"
  | S754_infinity true => "-Infinity"
  | S754_zero _ => "0.0"
  | S754_finite s m e =>
      let n :=
        match e with
        | Zneg k => ((20 * Zpos m + 2 ^ Zpos k) / (2 * 2 ^ Zpos k))%Z
        | _ => (10 * Zpos m * 2 ^ e)%Z
        end in
      ((if s then "-" else "")
       ++ NilEmpty.string_of_uint (N.to_uint (Z.to_N (n / 10)))
       ++ "." ++ digitChar (n mod 10))%string
  end.

Definition digitValue (c : ascii) : option Z :=
  let n := nat_of_ascii c in
  if ((48 <=? n) && (n <=? 57))%nat then Some (Z.of_nat (n - 48)) else None.

(** The number written by the [len] digits of [s] from position [start]. *)
Fixpoint digitsAt (s : string) (start len : nat) (acc : Z) : option Z :=
  match len with
  | O => Some acc
  | S len' =>
      match String.get start s with
      | Some c =>
          match digitValue c with
          | Some d => digitsAt s (S start) len' (10 * acc + d)%Z
          | None => None
          end
      | None => None
      end
  end.

(** Days from 1970-01-01 to the civil date [y]-[m]-[d]. *)
Definition daysFromCivil (y m d : Z) : Z :=
  let y := (if m <=? 2 then y - 1 else y)%Z in
  let era := (y / 400)%Z in
  let yoe := (y - era * 400)%Z in
  let doy := ((153 * (if m >? 2 then m - 3 else m + 9) + 2) / 5 + d - 1)%Z in
  let doe := (yoe * 365 + yoe / 4 - yoe / 100 + doy)%Z in
  (era * 146097 + doe - 719468)%Z.

Definition of_Z (z : Z) : float :=
  match z with
  | Zneg p => - of_uint63 (Uint63.of_Z (Zpos p))
  | _ => of_uint63 (Uint63.of_Z z)
  end.

(** The time value of a text in the format of [toISOString],
    [YYYY-MM-DDTHH:mm:ss.sssZ]; NaN for any other text. *)
Definition Date_parse (text : string) : float :=
  match digitsAt text 0 4 0, digitsAt text 5 2 0, digitsAt text 8 2 0,
        digitsAt text 11 2 0, digitsAt text 14 2 0, digitsAt text 17 2 0,
        digitsAt text 20 3 0 with
  | Some y, Some mo, Some d, Some h, Some mi, Some sec, Some ms =>
      if ((String.length text =? 24)%nat
          && (1 <=? mo)%Z && (mo <=? 12)%Z && (1 <=? d)%Z && (d <=? 31)%Z
          && (h <=? 23)%Z && (mi <=? 59)%Z && (sec <=? 59)%Z)%bool
      then
        of_Z ((((daysFromCivil y mo d * 24 + h) * 60 + mi) * 60 + sec) * 1000
              + ms)%Z
      else nan
  | _, _, _, _, _, _, _ => nan
  end.

Definition builtins : Js.Builtins :=
  Js.mkBuiltins Js.cos_taylor toFixed1 Date_parse.

End Engine.

(** ** Sample data

    A page on the reference engine, used in the examples. *)

Module Sample.

(** Seven days before 2025-09-30T00:00:00.000Z. *)
Definition weekAgo : float := 1758585600000.

(** A review 55 m from the route of the scenarios, and one 2.2 km away. *)
Definition nearReview : Review.t :=
  Review.mk "1" 0.0005 0.005 4 2 "Dim street lights" (Some "Main road"%string)
    "2025-09-27T12:34:56.789Z".

Definition farReview : Review.t :=
  Review.mk "2" 0.02 0.005 2 4 "Broken pavement" None
    "2025-08-01T08:00:00.000Z".

Definition route : list LatLng.t := [LatLng.mk 0 0; LatLng.mk 0 0.01].

Definition routeFound : DirectionsReply := mkDirectionsReply "OK" (Some route).

(** A reply with a polyline of one point. *)
Definition shortRouteFound : DirectionsReply :=
  mkDirectionsReply "OK" (Some [LatLng.mk 0 0]).

(** The page whose tiles still read the figures of an earlier visit. *)
Definition page : Dashboard := mkDashboard "12" "3.4" "2.9" "5".

Definition at_ (e : Event) : float * Event := (weekAgo, e).

(** The map is drawn and both reviews are loaded. *)
Definition loaded : App :=
  run Engine.builtins page
    [at_ InitMap;
     at_ (ReviewsLoaded (Response 200 (Some [nearReview; farReview])))].

(** Then a route is found. *)
Definition routed : App :=
  handle Engine.builtins loaded (at_ (RouteSearched "A" "B" routeFound)).

(** Then a review is opened and a place for a new one is picked. *)
Definition editing : App :=
  handle Engine.builtins
    (handle Engine.builtins routed (at_ (MarkerClicked nearReview)))
    (at_ (MapClickedInReviewMode 0.001 0.002)).

(** A submission with an empty description, and an empty table. *)
Definition emptyDescription : Backend.Body :=
  Backend.mkBody (Backend.JsNumber 17.385) (Backend.JsNumber 78.4867)
    (Backend.JsNumber 3) (Backend.JsNumber 3) (Backend.JsString "")
    (Backend.JsString "Charminar Rd") Backend.JsUndefined.

Definition emptyTable : Backend.Table :=
  Backend.mkTable [] 1 "2025-09-30T00:00:00.000Z".

End Sample.

(** ** Segments of a polyline, and further handlers *)

(** The consecutive pairs of points that the loop of
    [minDistanceToPolylineMeters] visits, in order. *)
Fixpoint segments (path : list LatLng.t) : list (LatLng.t * LatLng.t) :=
  match path with
  | [] => []
  | v :: rest =>
      match rest with
      | [] => []
      | w :: _ => (v, w) :: segments rest
      end
  end.

(** The distances from [p] to the segments of [path], in order. *)
Definition segmentDistances (cos : float -> float) (p : LatLng.t)
    (path : list LatLng.t) : list float :=
  map (fun vw => distPointToSegmentMeters cos p (fst vw) (snd vw))
    (segments path).

Section Aggregates.

Variable engine : Js.Builtins.
Variable weekAgo : float.

(** The four aggregates of a subset of the reviews, as both renderers of the
    dashboard write them: blank for the empty subset, otherwise the count,
    the two averages with one decimal, and the count of the reviews younger
    than [weekAgo]. *)
Definition statistics (subset : list Review.t) : Dashboard :=
  match subset with
  | [] => blank
  | _ :: _ =>
      mkDashboard
        (Js.String_of_nat (List.length subset))
        (Js.toFixed1 engine
           (sumOf Review.safetyRating subset / Js.of_nat (List.length subset)))
        (Js.toFixed1 engine
           (sumOf Review.infrastructureRating subset
            / Js.of_nat (List.length subset)))
        (Js.String_of_nat (recentCount engine weekAgo subset))
  end.

(** The outcome of the proximity filter on a state: the on-route reviews and
    the halos on the map afterwards. *)
Definition filteredAlongRoute (s : App) : list Review.t :=
  if (List.length (routePath s) <? 2)%nat then []
  else filter (onRoute engine s) (reviews s).

Definition halosAlongRoute (s : App) : list Circle :=
  if (List.length (routePath s) <? 2)%nat then routeOverlays s
  else map (halo s) (filter (onRoute engine s) (reviews s)).

(** The subset that feeds the dashboard after a refresh: the on-route
    reviews with a route, all reviews without. *)
Definition activeSubset (s : App) : list Review.t :=
  if routeIsSet s then filteredAlongRoute s else reviews s.

End Aggregates.

(** The mode and the badge that [updateDashboardRouteOnly] leaves, by the
    cache it finds. *)
Definition routeModeOf (cache : list Review.t) : DashboardMode :=
  match cache with [] => Empty | _ :: _ => RouteOnly end.

Definition badgeAfterRouteOnly (cache : list Review.t) (badge : option string)
  : option string :=
  match cache, badge with
  | [], Some _ => Some "Route reviews: 0"%string
  | _, _ => badge
  end.

(** The reviews that pass the two minima and the cutoff of [applyFilters]. *)
Definition passesFilters (engine : Js.Builtins) (safetyMin infraMin : float)
    (cutoff : option float) (r : Review.t) : bool :=
  (safetyMin <=? Review.safetyRating r)
  && (infraMin <=? Review.infrastructureRating r)
  && match cutoff with
     | Some c => c <? Js.Date_parse engine (Review.timestamp r)
     | None => true
     end.

(** The polyline a directions reply carries: [route.overview_path || []]. *)
Definition replyPath (reply : DirectionsReply) : list LatLng.t :=
  match overview_path reply with
  | Some path => path
  | None => []
  end.

(** The state in which [findRoute] calls the proximity filter. *)
Definition withRoute (path : list LatLng.t) (s : App) : App :=
  set_routeActive true (set_routePath path s).

(** The text of the badge for a number of on-route reviews. *)
Definition badgeText (count : nat) : string :=
  ("Route reviews: " ++ Js.String_of_nat count)%string.

(** *** Invariants of the reachable states *)

(** The cache is what the proximity filter gives on the current reviews
    while a route is set, and empty otherwise. *)
Definition cacheCoherent (engine : Js.Builtins) (s : App) : Prop :=
  routeFiltered s
  = if routeIsSet s then filter (onRoute engine s) (reviews s) else [].

(** Every cached review has its halo on the map, and there is no other. *)
Definition halosCoherent (s : App) : Prop :=
  routeOverlays s = map (halo s) (routeFiltered s).

Definition cacheInv (engine : Js.Builtins) (s : App) : Prop :=
  routeBufferMeters s = 1000
  /\ (routeActive s = true -> mapReady s = true)
  /\ cacheCoherent engine s.

Definition halosInv (s : App) : Prop :=
  halosCoherent s
  /\ ((List.length (routePath s) <? 2)%nat = true -> routeOverlays s = []).

(** The events after which the cache is still the filter of the reviews:
    every event but a failed load of the reviews while a route is set. *)
Definition keepsCache (s : App) (e : Event) : bool :=
  match e with
  | ReviewsLoaded res =>
      match fetched res with
      | Some _ => true
      | None => negb (routeIsSet s)
      end
  | _ => true
  end.

(** The events after which the halos are still those of the cache: every
    event but a successful route search that yields fewer than two points
    while halos are on the map. *)
Definition keepsHalos (s : App) (e : Event) : bool :=
  match e with
  | RouteSearched _ _ reply =>
      negb (String.eqb (status reply) "OK")
      || (2 <=? List.length (replyPath reply))%nat
      || match routeOverlays s with [] => true | _ :: _ => false end
  | _ => true
  end.

(** All events of a run satisfy a condition on the state they meet. *)
Fixpoint allEvents (engine : Js.Builtins) (keeps : App -> Event -> bool)
    (s : App) (events : list (float * Event)) : bool :=
  match events with
  | [] => true
  | timed :: rest =>
      keeps s (snd timed) && allEvents engine keeps (handle engine s timed) rest
  end.

(** ** Colours and classes of a rating *)

(** The fill colour that [addReviewMarker] gives the marker of a review. *)
Definition markerColor (review : Review.t) : string :=
  let avg :=
    (Review.safetyRating review + Review.infrastructureRating review) / 2 in
  if 4 <=? avg then "#4CAF50"
  else if 3 <=? avg then "#FF9800"
  else if 2 <=? avg then "#FFC107"
  else "#F44336".

Definition getRatingClass (rating : float) : string :=
  if rating <=? 2 then "danger"
  else if rating <=? 3 then "warning"
  else "success".

(** ** The other routes of the review API, and the round trip *)

Module Routes.

Section Store.

(** The database, with the SELECT of [GET /reviews] and the DELETE of
    [DELETE /reviews/:id] as [pool.query] runs them: the rows, respectively
    the new state and [rowCount]; [None] when the query throws. *)
Variable DB : Type.
Variable selectReviews : DB -> option (list Backend.Row).
Variable deleteById : DB -> string -> option (DB * nat).

(** [app.get("/reviews", ...)]: the status and the JSON body. *)
Definition getReviews (db : DB) : nat * option (list Review.t) :=
  match selectReviews db with
  | Some rows => (200%nat, Some (map Backend.toReviewDTO rows))
  | None => (500%nat, None)
  end.

(** [app.delete("/reviews/:id", ...)]: the status and the database
    afterwards. *)
Definition deleteReviews (db : DB) (id : string) : nat * DB :=
  match deleteById db id with
  | Some (db', rowCount) =>
      if (rowCount =? 0)%nat then (404%nat, db') else (204%nat, db')
  | None => (500%nat, db)
  end.

End Store.

Arguments getReviews {DB} selectReviews db.
Arguments deleteReviews {DB} deleteById db id.

(** The parameters of the INSERT for a body that passes the check of
    [POST /reviews]; [None] for a body that does not. *)
Definition insertParams (body : Backend.Body) : option Backend.InsertParams :=
  match Backend.lat body, Backend.lng body, Backend.safetyRating body,
        Backend.infrastructureRating body, Backend.description body with
  | Backend.JsNumber lat, Backend.JsNumber lng, Backend.JsNumber safetyRating,
    Backend.JsNumber infrastructureRating, Backend.JsString description =>
      Some (Backend.mkInsertParams lat lng safetyRating infrastructureRating
              description (Backend.orNull (Backend.address body))
              (Backend.orNull (Backend.timestamp body)))
  | _, _, _, _, _ => None
  end.

(** A number that the JSON of a reply carries unchanged: [JSON.stringify]
    writes [null] for NaN and the infinities and [0] for the negative
    zero. *)
Definition jsonNumber (x : float) : bool :=
  is_finite x && negb ((x =? 0) && get_sign x).

(** A review whose four numbers the JSON of a reply carries unchanged. *)
Definition jsonExact (r : Review.t) : bool :=
  jsonNumber (Review.lat r) && jsonNumber (Review.lng r)
  && jsonNumber (Review.safetyRating r)
  && jsonNumber (Review.infrastructureRating r).

(** What [fetch] hands to the page for an answer of the API with status
    [st] and JSON body [body]: a response with that status, whose parsed
    body is the value sent whenever the JSON carries it unchanged.  Nothing
    is said of the parsed body otherwise (an error object, or a review in
    which a number became [null] or lost its sign). *)
Definition delivers {A : Type} (exact : A -> bool) (st : nat)
    (body : option A) (res : FetchResult A) : Prop :=
  exists parsed,
    res = Response st parsed
    /\ forall sent, body = Some sent -> exact sent = true -> parsed = Some sent.

(** The status and the JSON body of a reply of [POST /reviews]. *)
Definition replyBody (reply : Backend.Reply) : option Review.t :=
  match reply with
  | Backend.ReplyReview _ saved => Some saved
  | Backend.ReplyError _ _ => None
  end.

(** An identifier that the path [/reviews/<id>] carries unchanged to
    [req.params.id]: a string of decimal digits that is not empty, as
    [String(row.id)] is for a serial key. *)
Definition isDigit (c : ascii) : bool :=
  (48 <=? nat_of_ascii c)%nat && (nat_of_ascii c <=? 57)%nat.

Fixpoint allDigits (text : string) : bool :=
  match text with
  | EmptyString => true
  | String c rest => isDigit c && allDigits rest
  end.

Definition plainId (id : string) : bool :=
  negb (String.eqb id "") && allDigits id.

End Routes.
(** ** Facts about binary64 arithmetic

    Each operation is read through its specification on [spec_float]. *)

Module FloatFacts.

Ltac cmp_cases :=
  repeat match goal with
    | H : context [Pos.compare_cont Eq ?a ?b] |- _ =>
        change (Pos.compare_cont Eq a b) with (Pos.compare a b) in H
    | |- context [Pos.compare_cont Eq ?a ?b] =>
        change (Pos.compare_cont Eq a b) with (Pos.compare a b)
    end;
  repeat match goal with
    | H : context [Z.compare ?a ?b] |- _ => destruct (Z.compare_spec a b)
    | |- context [Z.compare ?a ?b] => destruct (Z.compare_spec a b)
    | H : context [Pos.compare ?a ?b] |- _ => destruct (Pos.compare_spec a b)
    | |- context [Pos.compare ?a ?b] => destruct (Pos.compare_spec a b)
    end;
  simpl in *; try discriminate; try reflexivity; try lia.

Lemma SFlt_le_trans (a b c : spec_float) :
  SFltb a b = true -> SFleb b c = true -> SFleb a c = true.
Proof.
  unfold SFltb, SFleb.
  destruct a as [sa|sa| |sa ma ea], b as [sb|sb| |sb mb eb],
           c as [sc|sc| |sc mc ec]; simpl;
    try discriminate; try reflexivity;
    repeat match goal with s : bool |- _ => destruct s end; simpl;
    try discriminate; try reflexivity; cmp_cases.
Qed.

(** [d < min] and [min <= buffer] give [d <= buffer], also around NaN and
    the infinities. *)
Lemma ltb_leb_trans (d m b : float) :
  (d <? m) = true -> (m <=? b) = true -> (d <=? b) = true.
Proof.
  rewrite FloatAxioms.ltb_spec, !FloatAxioms.leb_spec. apply SFlt_le_trans.
Qed.

(** A finite number is a zero or a signed mantissa with an exponent. *)
Variant finite_shape (x : float) : Prop :=
  | shape_zero (s : bool) : Prim2SF x = S754_zero s -> finite_shape x
  | shape_finite (s : bool) (m : positive) (e : Z) :
      Prim2SF x = S754_finite s m e -> finite_shape x.

Lemma is_finite_shape (x : float) : is_finite x = true -> finite_shape x.
Proof.
  unfold is_finite, is_nan, is_infinity.
  rewrite !FloatAxioms.eqb_spec, FloatAxioms.abs_spec.
  change (Prim2SF infinity) with (S754_infinity false).
  destruct (Prim2SF x) as [s|s| |s m e] eqn:E; simpl.
  - intros _. now apply shape_zero with s.
  - destruct s; discriminate.
  - discriminate.
  - intros _. now apply shape_finite with s m e.
Qed.

(** A zero of either sign. *)
Definition zeroF (x : float) : Prop := exists s, Prim2SF x = S754_zero s.

Lemma zeroF_cases (x : float) : zeroF x -> x = 0 \/ x = (-0).
Proof.
  intros [s E]. destruct s; [right | left]; apply Prim2SF_inj; rewrite E;
    reflexivity.
Qed.

Lemma sub_diag_finite (x : float) : is_finite x = true -> x - x = 0.
Proof.
  intros H. apply Prim2SF_inj. rewrite FloatAxioms.sub_spec.
  destruct (is_finite_shape x H) as [s E | s m e E]; rewrite E.
  - destruct s; reflexivity.
  - unfold SF64sub, SFsub. rewrite Z.sub_diag. reflexivity.
Qed.

Lemma mul_zero_finite (z x : float) :
  zeroF z -> is_finite x = true -> zeroF (z * x).
Proof.
  intros [sz Ez] H. unfold zeroF. rewrite FloatAxioms.mul_spec, Ez.
  destruct (is_finite_shape x H) as [s E | s m e E]; rewrite E; simpl; eauto.
Qed.


Lemma zeroF_is_finite (z : float) : zeroF z -> is_finite z = true.
Proof. intros H. destruct (zeroF_cases _ H) as [-> | ->]; reflexivity. Qed.

Lemma square_zero (z : float) : zeroF z -> z * z = 0.
Proof. intros H. destruct (zeroF_cases _ H) as [-> | ->]; reflexivity. Qed.






Lemma SFeqb_refl (x : spec_float) : x <> S754_nan -> SFeqb x x = true.
Proof.
  unfold SFeqb. destruct x as [s|s| |s m e]; simpl; try congruence.
  - destruct s; reflexivity.
  - intros _. rewrite Z.compare_refl.
    change (Pos.compare_cont Eq m m) with (Pos.compare m m).
    rewrite Pos.compare_refl. destruct s; reflexivity.
Qed.

Lemma is_nan_spec (x : float) :
  is_nan x = match Prim2SF x with S754_nan => true | _ => false end.
Proof.
  unfold is_nan. rewrite FloatAxioms.eqb_spec.
  destruct (Prim2SF x) as [s|s| |s m e] eqn:E; try reflexivity;
    rewrite SFeqb_refl; try reflexivity; discriminate.
Qed.
















End FloatFacts.

(** ** Rounding: when a result is zero, and when it is exact *)

Module FloatRound.

Open Scope Z_scope.








Close Scope Z_scope.

End FloatRound.

Module FloatExact.







End FloatExact.

Module FloatUnit.










End FloatUnit.

Module FloatTiny.



End FloatTiny.

Module FloatNan.

Lemma shape (x : float) : is_nan x = true -> Prim2SF x = S754_nan.
Proof. rewrite FloatFacts.is_nan_spec. now destruct (Prim2SF x). Qed.

Lemma mul_r (x y : float) : is_nan y = true -> is_nan (x * y) = true.
Proof.
  intros H. rewrite FloatFacts.is_nan_spec, FloatAxioms.mul_spec, (shape y H).
  unfold SF64mul, SFmul. now destruct (Prim2SF x).
Qed.

Lemma sub_r (x y : float) : is_nan y = true -> is_nan (x - y) = true.
Proof.
  intros H. rewrite FloatFacts.is_nan_spec, FloatAxioms.sub_spec, (shape y H).
  unfold SF64sub, SFsub. now destruct (Prim2SF x) as [[|] | [|] | | ? ? ?].
Qed.

Lemma mul_l (x y : float) : is_nan x = true -> is_nan (x * y) = true.
Proof.
  intros H. rewrite FloatFacts.is_nan_spec, FloatAxioms.mul_spec, (shape x H).
  reflexivity.
Qed.

Lemma add_l (x y : float) : is_nan x = true -> is_nan (x + y) = true.
Proof.
  intros H. rewrite FloatFacts.is_nan_spec, FloatAxioms.add_spec, (shape x H).
  reflexivity.
Qed.

Lemma sqrt_nan (x : float) : is_nan x = true -> is_nan (sqrt x) = true.
Proof.
  intros H. rewrite FloatFacts.is_nan_spec, FloatAxioms.sqrt_spec, (shape x H).
  reflexivity.
Qed.

End FloatNan.

(** ** The order of binary64 numbers *)

Module FloatOrder.

Ltac sf_cases :=
  intros;
  repeat match goal with
    | x : spec_float |- _ => destruct x as [[|]|[|]| |[|] ? ?]
    end;
  simpl in *; try discriminate; try reflexivity; FloatFacts.cmp_cases.

Lemma SFltb_not_nan (a b : spec_float) :
  SFltb a b = true -> a <> S754_nan /\ b <> S754_nan.
Proof. unfold SFltb. destruct a, b; simpl; intros H; split; congruence. Qed.

Lemma SFleb_not_nan (a b : spec_float) :
  SFleb a b = true -> a <> S754_nan /\ b <> S754_nan.
Proof. unfold SFleb. destruct a, b; simpl; intros H; split; congruence. Qed.

Lemma SFnot_ltb_leb (a b : spec_float) :
  SFltb a b = false -> a <> S754_nan -> b <> S754_nan -> SFleb b a = true.
Proof.
  unfold SFltb, SFleb. intros H Ha Hb.
  destruct a as [[|]|[|]| |[|] ma ea], b as [[|]|[|]| |[|] mb eb];
    simpl in *; try congruence; FloatFacts.cmp_cases.
Qed.

Lemma SFleb_trans (a b c : spec_float) :
  SFleb a b = true -> SFleb b c = true -> SFleb a c = true.
Proof.
  unfold SFleb.
  destruct a as [[|]|[|]| |[|] ma ea], b as [[|]|[|]| |[|] mb eb],
           c as [[|]|[|]| |[|] mc ec];
    simpl; try discriminate; try reflexivity; FloatFacts.cmp_cases.
Qed.

Lemma SFleb_not_gtb (a b : spec_float) :
  SFleb a b = true -> SFltb b a = false.
Proof.
  unfold SFltb, SFleb.
  destruct a as [[|]|[|]| |[|] ma ea], b as [[|]|[|]| |[|] mb eb];
    simpl; try discriminate; try reflexivity; FloatFacts.cmp_cases.
Qed.

Lemma SFleb_refl (a : spec_float) : a <> S754_nan -> SFleb a a = true.
Proof.
  unfold SFleb.
  destruct a as [[|]|[|]| |[|] ma ea]; simpl; try congruence; intros _;
    rewrite Z.compare_refl;
    change (Pos.compare_cont Eq ma ma) with (Pos.compare ma ma);
    now rewrite Pos.compare_refl.
Qed.

Lemma SFltb_leb (a b : spec_float) : SFltb a b = true -> SFleb a b = true.
Proof.
  unfold SFltb, SFleb. destruct (SFcompare a b) as [[| |]|]; congruence.
Qed.

Lemma nan_iff (x : float) : is_nan x = false <-> Prim2SF x <> S754_nan.
Proof.
  rewrite FloatFacts.is_nan_spec. destruct (Prim2SF x); split; congruence.
Qed.

Lemma ltb_not_nan (a b : float) :
  (a <? b) = true -> is_nan a = false /\ is_nan b = false.
Proof.
  rewrite FloatAxioms.ltb_spec, !nan_iff. apply SFltb_not_nan.
Qed.

Lemma leb_not_nan (a b : float) :
  (a <=? b) = true -> is_nan a = false /\ is_nan b = false.
Proof.
  rewrite FloatAxioms.leb_spec, !nan_iff. apply SFleb_not_nan.
Qed.

Lemma not_ltb_leb (a b : float) :
  (a <? b) = false -> is_nan a = false -> is_nan b = false ->
  (b <=? a) = true.
Proof.
  rewrite FloatAxioms.ltb_spec, FloatAxioms.leb_spec, !nan_iff.
  apply SFnot_ltb_leb.
Qed.

Lemma leb_trans (a b c : float) :
  (a <=? b) = true -> (b <=? c) = true -> (a <=? c) = true.
Proof. rewrite !FloatAxioms.leb_spec. apply SFleb_trans. Qed.

Lemma leb_not_gtb (a b : float) : (a <=? b) = true -> (b <? a) = false.
Proof.
  rewrite FloatAxioms.leb_spec, FloatAxioms.ltb_spec. apply SFleb_not_gtb.
Qed.

Lemma leb_refl (a : float) : is_nan a = false -> (a <=? a) = true.
Proof. rewrite FloatAxioms.leb_spec, nan_iff. apply SFleb_refl. Qed.

Lemma ltb_leb (a b : float) : (a <? b) = true -> (a <=? b) = true.
Proof.
  rewrite FloatAxioms.ltb_spec, FloatAxioms.leb_spec. apply SFltb_leb.
Qed.

End FloatOrder.

(** ** The polyline proximity filter *)

Section ProximityFilter.

Variable cos : float -> float.
Variable buffer : float.

(** Once the running minimum is within the buffer, scanning the remaining
    segments keeps it there. *)
Lemma scanAll_stays_within (p : LatLng.t) (path : list LatLng.t) :
  forall min, (min <=? buffer) = true ->
    (minDistanceScanAll cos p path min <=? buffer) = true.
Proof.
  induction path as [|v rest IH]; intros min H; simpl; trivial.
  destruct rest as [|w rest']; trivial.
  apply IH.
  destruct (distPointToSegmentMeters cos p v w <? min) eqn:E; trivial.
  now apply FloatFacts.ltb_leb_trans with min.
Qed.

Lemma loop_agrees_with_scanAll (p : LatLng.t) (path : list LatLng.t) :
  forall min,
    (minDistanceLoop cos buffer p path min <=? buffer)
    = (minDistanceScanAll cos p path min <=? buffer).
Proof.
  induction path as [|v rest IH]; intros min; simpl; trivial.
  destruct rest as [|w rest']; trivial.
  set (min' := if distPointToSegmentMeters cos p v w <? min
               then distPointToSegmentMeters cos p v w else min).
  destruct (min' <=? buffer) eqn:E.
  - rewrite E. symmetry. now apply scanAll_stays_within.
  - apply IH.
Qed.

(** C1. Early-exit equivalence: for every route polyline, buffer and review
    point, the verdict "minimum distance <= buffer" computed by
    [minDistanceToPolylineMeters], which returns at the first running
    minimum within the buffer, is the verdict computed by the reference that
    scans every segment. *)
Theorem early_exit_preserves_classification (p : LatLng.t)
    (path : list LatLng.t) :
  (minDistanceToPolylineMeters cos buffer p path <=? buffer)
  = (minDistanceFullScan cos p path <=? buffer).
Proof.
  unfold minDistanceToPolylineMeters, minDistanceFullScan.
  apply loop_agrees_with_scanAll.
Qed.

End ProximityFilter.

(** ** Point-to-segment distance *)

Section SegmentDistance.

Variable cos : float -> float.

Lemma zero_offset (x m : float) :
  is_finite x = true -> is_finite m = true -> FloatFacts.zeroF ((x - x) * m).
Proof.
  intros Hx Hm. rewrite (FloatFacts.sub_diag_finite x Hx).
  apply FloatFacts.mul_zero_finite; trivial. now exists false.
Qed.

Lemma sum_squares_zero (a b : float) :
  FloatFacts.zeroF a -> FloatFacts.zeroF b -> a * a + b * b = 0.
Proof.
  intros Ha Hb.
  now rewrite (FloatFacts.square_zero _ Ha), (FloatFacts.square_zero _ Hb).
Qed.

(** C3. Degenerate segment: when the endpoints V and W coincide (finite
    coordinates, finite scale factors at the latitude of V), the
    point-to-segment distance of every query point P is the straight-line
    distance from P to V in the projected plane. *)
Theorem degenerate_segment_distance (p v w : LatLng.t) :
  w = v ->
  is_finite (LatLng.lat v) = true ->
  is_finite (LatLng.lng v) = true ->
  is_finite (mPerDegLat cos (midLatitude v v)) = true ->
  is_finite (mPerDegLng cos (midLatitude v v)) = true ->
  distPointToSegmentMeters cos p v w = planarDistance cos p v w.
Proof.
  intros -> Hlat Hlng HmLat HmLng.
  unfold distPointToSegmentMeters, planarDistance, projectedOffset.
  cbv zeta. fold (midLatitude v v).
  rewrite (sum_squares_zero _ _ (zero_offset _ _ Hlng HmLng)
             (zero_offset _ _ Hlat HmLat)).
  reflexivity.
Qed.


(** At a midpoint latitude of zero the projection reads the cosine only at
    zero, where every engine returns one. *)
Lemma distance_at_equator (p v w : LatLng.t) :
  midLatitude v w = 0 -> cos 0 = 1 ->
  distPointToSegmentMeters cos p v w
  = distPointToSegmentMeters (fun _ => 1) p v w.
Proof.
  intros E H.
  unfold distPointToSegmentMeters, mPerDegLat, mPerDegLng. cbv zeta.
  change (toRad ((LatLng.lat v + LatLng.lat w) / 2)) with (midLatitude v w).
  rewrite E.
  change (2 * 0) with 0. change (3 * 0) with 0. change (4 * 0) with 0.
  rewrite H. reflexivity.
Qed.

(** The route of the two scenarios: from (0, 0) to (0, 0.01), as (lat, lng). *)
Definition scenarioRoute : list LatLng.t := [LatLng.mk 0 0; LatLng.mk 0 0.01].

(** C6. Concrete classification scenarios: for the route polyline
    [(0,0),(0,0.01)] and a buffer of 1000 m, the review at (0.0005, 0.005)
    is on-route (minimum distance <= 1000 m) and the review at (0.02, 0.005)
    is off-route, with any [Math.cos] that returns 1 at 0. *)
Theorem scenario_classification :
  cos 0 = 1 ->
  (minDistanceToPolylineMeters cos 1000 (LatLng.mk 0.0005 0.005) scenarioRoute
   <=? 1000) = true
  /\ (minDistanceToPolylineMeters cos 1000 (LatLng.mk 0.02 0.005) scenarioRoute
      <=? 1000) = false.
Proof.
  intros H.
  unfold minDistanceToPolylineMeters, scenarioRoute, minDistanceLoop.
  rewrite !distance_at_equator by (trivial; reflexivity).
  split; vm_compute; reflexivity.
Qed.

(** The two distances of the scenarios, in meters. *)
Lemma scenario_distances :
  cos 0 = 1 ->
  minDistanceToPolylineMeters cos 1000 (LatLng.mk 0.0005 0.005) scenarioRoute
  = 55.2871375
  /\ minDistanceToPolylineMeters cos 1000 (LatLng.mk 0.02 0.005) scenarioRoute
     = 2211.4854999999998.
Proof.
  intros H.
  unfold minDistanceToPolylineMeters, scenarioRoute, minDistanceLoop.
  rewrite !distance_at_equator by (trivial; reflexivity).
  split; vm_compute; reflexivity.
Qed.

(** *** Sign and zeros of the distance *)


Lemma distance_of_offset (p v w : LatLng.t) :
  distPointToSegmentMeters cos p v w
  = sqrt (fst (closestOffset cos p v w) * fst (closestOffset cos p v w)
          + snd (closestOffset cos p v w) * snd (closestOffset cos p v w)).
Proof.
  unfold distPointToSegmentMeters, closestOffset, closestParameter,
    segmentLength2, segmentVector, projectedOffset, midLatitude.
  cbv zeta. cbn [fst snd].
  match goal with |- context [if ?c then _ else _] => destruct c end;
    reflexivity.
Qed.








End SegmentDistance.

(** ** The client *)

Section ClientProperties.

Variable engine : Js.Builtins.

(** *** The proximity filter over the reviews *)

Lemma countLoop_spec (rs : list Review.t) :
  forall s,
    fold_left (countStep engine) rs s
    = set_routeOverlays
        (routeOverlays s ++ map (halo s) (filter (onRoute engine s) rs))
        (set_routeFiltered (routeFiltered s ++ filter (onRoute engine s) rs) s).
Proof.
  induction rs as [|r rs IH]; intros s; simpl.
  - rewrite !app_nil_r. now destruct s.
  - rewrite IH. unfold countStep. fold (onRoute engine s r).
    destruct (onRoute engine s r) eqn:E; simpl.
    + unfold set_routeOverlays, set_routeFiltered; simpl.
      rewrite <- !app_assoc. reflexivity.
    + reflexivity.
Qed.

(** With a polyline of two points or more, the filter keeps exactly the
    reviews within the buffer, in their order, and draws one halo for each. *)
Lemma countReviewsAlongRoute_spec (s : App) :
  (2 <= List.length (routePath s))%nat ->
  countReviewsAlongRoute engine s
  = (set_routeOverlays (map (halo s) (filter (onRoute engine s) (reviews s)))
       (set_routeFiltered (filter (onRoute engine s) (reviews s)) s),
     List.length (filter (onRoute engine s) (reviews s))).
Proof.
  intros H. unfold countReviewsAlongRoute. simpl.
  destruct (Nat.ltb_spec (List.length (routePath s)) 2) as [Hlt | _];
    [lia |].
  rewrite countLoop_spec. reflexivity.
Qed.

(** C5. Degenerate polyline policy: if the active route polyline has fewer
    than 2 points, the proximity filter returns normally with an empty
    on-route set and the count 0, whatever the reviews. *)
Theorem degenerate_polyline_no_review_on_route (s : App) :
  (List.length (routePath s) < 2)%nat ->
  routeFiltered (fst (countReviewsAlongRoute engine s)) = []
  /\ snd (countReviewsAlongRoute engine s) = O
  /\ forall r, In r (reviews s) ->
       ~ In r (routeFiltered (fst (countReviewsAlongRoute engine s))).
Proof.
  intros H. unfold countReviewsAlongRoute. simpl.
  destruct (Nat.ltb_spec (List.length (routePath s)) 2) as [_ | Hge];
    [| lia].
  simpl. repeat split. intros r _ [].
Qed.

(** C8, at the failing input. When the polyline has fewer than 2 points the
    filter returns before it clears the old halos: the highlight markers of
    the previous invocation all stay, while the on-route set is emptied. *)
Theorem short_path_keeps_old_halos (s : App) :
  (List.length (routePath s) < 2)%nat ->
  routeOverlays (fst (countReviewsAlongRoute engine s)) = routeOverlays s
  /\ routeFiltered (fst (countReviewsAlongRoute engine s)) = [].
Proof.
  intros H. unfold countReviewsAlongRoute. simpl.
  destruct (Nat.ltb_spec (List.length (routePath s)) 2) as [_ | Hge];
    [| lia].
  split; reflexivity.
Qed.

(** With two points or more the old halos are dropped and the halos are
    those of the current on-route reviews. *)
Lemma halos_match_on_route_reviews (s : App) :
  (2 <= List.length (routePath s))%nat ->
  routeOverlays (fst (countReviewsAlongRoute engine s))
  = map (halo s) (routeFiltered (fst (countReviewsAlongRoute engine s))).
Proof.
  intros H. rewrite (countReviewsAlongRoute_spec s H). reflexivity.
Qed.

(** *** The dashboard *)

Lemma blank_noZeroTile : noZeroTile blank.
Proof. repeat split; discriminate. Qed.

(** C7. Blank-not-zero aggregates: when the subset that feeds the dashboard
    is empty (no review at all in Overall mode, no on-route review in the
    route modes), the four tiles (count, average safety, average
    infrastructure, recent count) are written blank, and none reads "0". *)
Theorem empty_subset_blank_tiles (weekAgo : float) (s : App) :
  (reviews s = [] ->
   dashboard (updateDashboardOverall engine weekAgo s) = blank
   /\ dashboardMode (updateDashboardOverall engine weekAgo s) = Overall)
  /\ (routeFiltered s = [] ->
      dashboard (updateDashboardRouteOnly engine weekAgo s) = blank
      /\ dashboardMode (updateDashboardRouteOnly engine weekAgo s) = Empty)
  /\ dashboard (updateDashboardEmpty s) = blank
  /\ noZeroTile blank.
Proof.
  repeat split; try discriminate.
  - unfold updateDashboardOverall. rewrite H. reflexivity.
  - unfold updateDashboardRouteOnly. rewrite H. simpl.
    destruct (routeCountBadge s); reflexivity.
  - unfold updateDashboardRouteOnly. rewrite H. simpl.
    destruct (routeCountBadge s); reflexivity.
Qed.

(** *** Store failures *)

Lemma storeFailed_fetched (A : Type) (res : FetchResult A) :
  storeFailed res = true -> fetched res = None.
Proof.
  destruct res as [|st body]; simpl; trivial.
  now destruct (res_ok st).
Qed.

Lemma storeFailed_not_deleted (A : Type) (res : FetchResult A) :
  storeFailed res = true -> deleted res = false.
Proof.
  destruct res as [|st body]; simpl; trivial.
  destruct (Nat.eqb_spec st 204) as [-> | _]; trivial. discriminate.
Qed.

(** C10. Atomicity of client state on store failure: if the store call of a
    creation or of a deletion fails (network error or non-OK response), the
    handler leaves the review list, the on-route cache and the dashboard (as
    every other field) as they were, and only shows an error notification:
    the state afterwards is the state before with that notification added,
    or the state before when the handler returned without calling the
    store (no selected location; no open review, or one with the empty
    identifier; the confirmation declined). *)
Theorem store_failure_keeps_client_state (weekAgo : float) (s : App)
    (post : FetchResult Review.t) (confirmed : bool)
    (del : FetchResult unit) :
  storeFailed post = true ->
  storeFailed del = true ->
  let saved := saveReview engine weekAgo post s in
  let removed := deleteReview engine weekAgo confirmed del s in
  saved = match selectedLocation s with
          | Some _ => showNotification "Failed to save review." "error" s
          | None => s
          end
  /\ removed = match currentReviewId s with
               | Some current =>
                   if String.eqb current "" then s
                   else if confirmed
                   then showNotification "Failed to delete review." "error" s
                   else s
               | None => s
               end
  /\ (reviews saved = reviews s /\ routeFiltered saved = routeFiltered s
      /\ dashboard saved = dashboard s)
  /\ (reviews removed = reviews s /\ routeFiltered removed = routeFiltered s
      /\ dashboard removed = dashboard s).
Proof.
  intros Hpost Hdel saved removed. subst saved removed.
  unfold saveReview, deleteReview.
  rewrite (storeFailed_fetched _ _ Hpost), (storeFailed_not_deleted _ _ Hdel).
  destruct (selectedLocation s), (currentReviewId s) as [current |],
    confirmed; simpl;
    try destruct (String.eqb current ""); repeat split; reflexivity.
Qed.

(** *** The mode of the dashboard *)

Lemma modeInvariant_expected (s : App) :
  modeInvariant s <-> dashboardMode s = expectedMode s.
Proof.
  unfold modeInvariant, expectedMode. split.
  - intros (H1 & H2 & H3).
    destruct (routeIsSet s); [destruct (routeFiltered s) |].
    + now apply H2.
    + apply H1. split; [reflexivity | discriminate].
    + now apply H3.
  - intros ->.
    destruct (routeIsSet s); [destruct (routeFiltered s) |];
      repeat split; intros; try discriminate; intuition congruence.
Qed.

Lemma sameRoute_routeIsSet (s s' : App) :
  sameRoute s s' -> routeIsSet s' = routeIsSet s.
Proof. intros (Ha & Hp & _). unfold routeIsSet. now rewrite Ha, Hp. Qed.

Lemma updateDashboardOverall_frame (weekAgo : float) (s : App) :
  sameRoute s (updateDashboardOverall engine weekAgo s)
  /\ routeFiltered (updateDashboardOverall engine weekAgo s) = routeFiltered s
  /\ routeOverlays (updateDashboardOverall engine weekAgo s) = routeOverlays s
  /\ dashboardMode (updateDashboardOverall engine weekAgo s) = Overall.
Proof. repeat split. Qed.

Lemma updateDashboardRouteOnly_frame (weekAgo : float) (s : App) :
  sameRoute s (updateDashboardRouteOnly engine weekAgo s)
  /\ routeFiltered (updateDashboardRouteOnly engine weekAgo s) = routeFiltered s
  /\ dashboardMode (updateDashboardRouteOnly engine weekAgo s)
     = match routeFiltered s with [] => Empty | _ :: _ => RouteOnly end.
Proof.
  unfold updateDashboardRouteOnly, sameRoute.
  destruct (routeFiltered s) eqn:E; simpl.
  - destruct (routeCountBadge s); simpl; rewrite ?E; repeat split.
  - rewrite ?E. repeat split.
Qed.

Lemma countReviewsAlongRoute_frame (s : App) :
  sameRoute s (fst (countReviewsAlongRoute engine s)).
Proof.
  unfold countReviewsAlongRoute. simpl.
  destruct (List.length (routePath s) <? 2)%nat; simpl.
  - repeat split.
  - rewrite countLoop_spec. repeat split.
Qed.

Lemma refreshDashboard_mode (weekAgo : float) (s : App) :
  sameRoute s (refreshDashboard engine weekAgo s)
  /\ dashboardMode (refreshDashboard engine weekAgo s)
     = expectedMode (refreshDashboard engine weekAgo s).
Proof.
  unfold refreshDashboard, expectedMode.
  destruct (routeIsSet s) eqn:E.
  - pose proof (countReviewsAlongRoute_frame s) as Hc.
    set (s1 := fst (countReviewsAlongRoute engine s)) in *.
    destruct (updateDashboardRouteOnly_frame weekAgo s1) as (Hu & Hf & Hm).
    assert (Hs : sameRoute s (updateDashboardRouteOnly engine weekAgo s1)).
    { destruct Hc as (? & ? & ?), Hu as (? & ? & ?). repeat split; congruence. }
    split; trivial.
    rewrite (sameRoute_routeIsSet _ _ Hs), E, Hf. exact Hm.
  - destruct (updateDashboardOverall_frame weekAgo s) as (Hs & _ & _ & Hm).
    split; trivial.
    now rewrite (sameRoute_routeIsSet _ _ Hs), E.
Qed.

(** C2, at the failing input. A load of the reviews that fails while a route
    is set empties the review list and renders the overall dashboard: the
    mode is Overall although a route is set, the on-route cache and the halos
    keep their old content, and the mode invariant does not hold. *)
Theorem failed_load_shows_overall_with_route (weekAgo : float) (s : App)
    (res : FetchResult (list Review.t)) :
  routeIsSet s = true ->
  fetched res = None ->
  let s' := loadReviews engine weekAgo res s in
  routeIsSet s' = true
  /\ dashboardMode s' = Overall
  /\ reviews s' = []
  /\ routeFiltered s' = routeFiltered s
  /\ routeOverlays s' = routeOverlays s
  /\ ~ modeInvariant s'.
Proof.
  intros Hset Hres s'. subst s'. unfold loadReviews. rewrite Hres.
  assert (H1 : routeIsSet
                 (showNotification "Failed to load reviews from server." "error"
                    (updateDashboardOverall engine weekAgo (set_reviews [] s)))
               = true) by exact Hset.
  repeat split; trivial.
  intros (_ & _ & H3). destruct H3 as [H3 _].
  rewrite H1 in H3. discriminate H3. reflexivity.
Qed.

(** *** The events that keep the mode invariant *)

Lemma addMarkers_eq (rs : list Review.t) :
  forall s,
    fold_left addReviewMarker rs s = set_reviewMarkers (reviewMarkers s ++ rs) s.
Proof.
  induction rs as [|r rs IH]; intros s; simpl.
  - rewrite app_nil_r. now destruct s.
  - rewrite IH. unfold addReviewMarker, set_reviewMarkers. simpl.
    now rewrite <- app_assoc.
Qed.

Lemma loadMarkers_eq (s : App) :
  loadMarkers s = set_reviewMarkers (reviews s) s.
Proof. unfold loadMarkers. rewrite addMarkers_eq. reflexivity. Qed.

Lemma countReviewsAlongRoute_shape (s : App) :
  exists F O n,
    countReviewsAlongRoute engine s
    = (set_routeOverlays O (set_routeFiltered F s), n).
Proof.
  unfold countReviewsAlongRoute. simpl.
  destruct (List.length (routePath s) <? 2)%nat.
  - exists [], (routeOverlays s), O. now destruct s.
  - rewrite countLoop_spec. simpl.
    eexists _, _, _. f_equal. now destruct s.
Qed.

Ltac mode_cases :=
  unfold stateInv, expectedMode, routeIsSet in *; simpl in *;
  repeat match goal with
    | |- context [match ?l with [] => _ | _ :: _ => _ end] =>
        destruct l eqn:?; simpl in *
    | |- context [if ?b then _ else _] => destruct b eqn:?; simpl in *
    | |- context [match ?o with Some _ => _ | None => _ end] =>
        destruct o eqn:?; simpl in *
    end;
  rewrite ?andb_true_iff, ?andb_false_iff in *;
  try (intuition congruence).

Lemma refreshDashboard_stateInv (weekAgo : float) (s : App) :
  (routeActive s = true -> mapReady s = true) ->
  stateInv (refreshDashboard engine weekAgo s).
Proof.
  intros Hmap.
  destruct (refreshDashboard_mode weekAgo s) as ((Ha & Hp & Hm) & Hmode).
  split; trivial. rewrite Ha, Hm. exact Hmap.
Qed.

Lemma updateDashboardRouteOnly_stateInv (weekAgo : float) (s : App) :
  (routeActive s = true -> mapReady s = true) -> routeIsSet s = true ->
  stateInv (updateDashboardRouteOnly engine weekAgo s).
Proof.
  intros Hmap Hset.
  destruct (updateDashboardRouteOnly_frame weekAgo s) as (Hs & Hf & Hd).
  unfold stateInv, expectedMode.
  rewrite (sameRoute_routeIsSet _ _ Hs), Hset, Hf, Hd.
  destruct Hs as (Ha & _ & Hm). rewrite Ha, Hm. now split.
Qed.

Lemma stateInv_transfer (s s' : App) :
  sameRoute s s' -> routeFiltered s' = routeFiltered s ->
  dashboardMode s' = dashboardMode s -> stateInv s -> stateInv s'.
Proof.
  intros (Ha & Hp & Hm) Hf Hd [H1 H2].
  unfold stateInv, expectedMode, routeIsSet in *.
  rewrite Ha, Hp, Hm, Hf, Hd. now split.
Qed.

Lemma initMap_stateInv (s : App) : stateInv s -> stateInv (initMap s).
Proof.
  unfold initMap. rewrite loadMarkers_eq. intros [H1 H2].
  unfold stateInv, expectedMode, routeIsSet in *. simpl. now split.
Qed.

(** The tail of a successful load, from the state that
    [updateDashboardOverall] leaves. *)
Lemma loadReviews_tail_stateInv (weekAgo : float) (s2 : App) :
  dashboardMode s2 = Overall ->
  (routeActive s2 = true -> mapReady s2 = true) ->
  stateInv
    (if mapReady s2 then
       if routeIsSet (loadMarkers s2) then
         updateDashboardRouteOnly engine weekAgo
           (fst (countReviewsAlongRoute engine (loadMarkers s2)))
       else loadMarkers s2
     else s2).
Proof.
  intros Hd Hmap2.
  destruct (mapReady s2) eqn:Em.
  - rewrite loadMarkers_eq.
    assert (Hs3 : sameRoute s2 (set_reviewMarkers (reviews s2) s2))
      by (repeat split).
    assert (Hd3 : dashboardMode (set_reviewMarkers (reviews s2) s2) = Overall)
      by exact Hd.
    revert Hs3 Hd3. generalize (set_reviewMarkers (reviews s2) s2).
    intros s3 (Ha3 & Hp3 & Hm3) Hd3.
    destruct (routeIsSet s3) eqn:Er.
    + destruct (countReviewsAlongRoute_frame s3) as (Ha4 & Hp4 & Hm4).
      apply updateDashboardRouteOnly_stateInv.
      * rewrite Ha4, Hm4, Hm3, Em. trivial.
      * unfold routeIsSet in *. now rewrite Ha4, Hp4.
    + split; [unfold expectedMode; now rewrite Er, Hd3 |].
      now rewrite Ha3, Hm3, Em.
  - split; [| now rewrite Em].
    unfold expectedMode, routeIsSet.
    destruct (routeActive s2); [specialize (Hmap2 eq_refl); discriminate |].
    exact Hd.
Qed.

Lemma loadReviews_stateInv (weekAgo : float)
    (res : FetchResult (list Review.t)) (s : App) :
  stateInv s -> fetched res <> None \/ routeIsSet s = false ->
  stateInv (loadReviews engine weekAgo res s).
Proof.
  intros [H1 H2] Hok. unfold loadReviews.
  destruct (fetched res) as [body|] eqn:F.
  - destruct (updateDashboardOverall_frame weekAgo (set_reviews body s))
      as ((Ha & _ & Hm) & _ & _ & Hd).
    apply (loadReviews_tail_stateInv weekAgo
             (updateDashboardOverall engine weekAgo (set_reviews body s)) Hd).
    rewrite Ha, Hm. exact H2.
  - destruct Hok as [Hok | Hok]; [congruence |].
    destruct (updateDashboardOverall_frame weekAgo (set_reviews [] s))
      as ((Ha & Hp & Hm) & _ & _ & Hd).
    revert Ha Hp Hm Hd.
    generalize (updateDashboardOverall engine weekAgo (set_reviews [] s)).
    intros s2 Ha Hp Hm Hd.
    apply stateInv_transfer with s2; try (repeat split; fail).
    split.
    + unfold expectedMode, routeIsSet in *. rewrite Ha, Hp. simpl.
      now rewrite Hok, Hd.
    + rewrite Ha, Hm. exact H2.
Qed.

Lemma saveReview_stateInv (weekAgo : float) (res : FetchResult Review.t)
    (s : App) :
  stateInv s -> stateInv (saveReview engine weekAgo res s).
Proof.
  intros Hinv. unfold saveReview.
  destruct (selectedLocation s); trivial.
  destruct (fetched res) as [saved|].
  - set (s2 := if mapReady _ then _ else _).
    apply stateInv_transfer with (refreshDashboard engine weekAgo s2);
      try (repeat split; fail).
    apply refreshDashboard_stateInv. subst s2. destruct Hinv as [_ H2].
    simpl. destruct (mapReady s) eqn:Em; simpl; rewrite Em; exact H2.
  - revert Hinv. apply stateInv_transfer; repeat split.
Qed.

Lemma deleteReview_stateInv (weekAgo : float) (confirmed : bool)
    (res : FetchResult unit) (s : App) :
  stateInv s -> stateInv (deleteReview engine weekAgo confirmed res s).
Proof.
  intros Hinv. unfold deleteReview.
  destruct (currentReviewId s) as [current|]; trivial.
  destruct (String.eqb current ""); trivial.
  destruct confirmed; trivial. simpl.
  destruct (deleted res).
  - rewrite loadMarkers_eq.
    set (s2 := closeViewModal _).
    apply stateInv_transfer with (refreshDashboard engine weekAgo s2);
      try (repeat split; fail).
    apply refreshDashboard_stateInv. subst s2. destruct Hinv as [_ H2].
    exact H2.
  - revert Hinv. apply stateInv_transfer; repeat split.
Qed.

Lemma findRoute_stateInv (weekAgo : float) (origin destination : string)
    (reply : DirectionsReply) (s : App) :
  stateInv s ->
  (status reply = "OK"%string ->
   exists v path, overview_path reply = Some (v :: path)) ->
  stateInv (findRoute engine weekAgo origin destination reply s).
Proof.
  intros Hinv Hpath. unfold findRoute.
  destruct (mapReady s) eqn:Em; trivial. simpl.
  destruct (String.eqb origin "" || String.eqb destination "").
  { revert Hinv. apply stateInv_transfer; repeat split. }
  destruct (String.eqb_spec (status reply) "OK") as [Hok | _]; simpl.
  2: { revert Hinv. apply stateInv_transfer; repeat split. }
  destruct (Hpath Hok) as (v & path & ->).
  destruct (countReviewsAlongRoute_shape
              (set_routeActive true (set_routePath (v :: path) s)))
    as (F & O & n & ->).
  apply updateDashboardRouteOnly_stateInv.
  - intros _. simpl. destruct (routeCountBadge s); exact Em.
  - simpl. destruct (routeCountBadge s); reflexivity.
Qed.

Lemma clearRoute_stateInv (weekAgo : float) (s : App) :
  stateInv s -> stateInv (clearRoute engine weekAgo s).
Proof.
  intros Hinv. unfold clearRoute.
  destruct (mapReady s) eqn:Em; trivial. simpl.
  destruct (routeCountBadge s); split; try reflexivity; discriminate.
Qed.

Lemma applyFilters_stateInv (weekAgo safetyMin infraMin : float)
    (cutoff : option float) (s : App) :
  stateInv s ->
  stateInv (applyFilters engine weekAgo safetyMin infraMin cutoff s).
Proof.
  intros [_ H2]. unfold applyFilters. rewrite addMarkers_eq.
  apply refreshDashboard_stateInv. exact H2.
Qed.

Lemma resetFilters_stateInv (weekAgo : float) (s : App) :
  stateInv s -> stateInv (resetFilters engine weekAgo s).
Proof.
  intros [_ H2]. unfold resetFilters. rewrite loadMarkers_eq.
  apply refreshDashboard_stateInv. exact H2.
Qed.

(** Every event that [keepsMode] admits keeps the invariant of the
    reachable states. *)
Lemma handle_stateInv (s : App) (weekAgo : float) (e : Event) :
  stateInv s -> keepsMode s e -> stateInv (handle engine s (weekAgo, e)).
Proof.
  intros Hinv Hkeeps. destruct e; simpl in *.
  - now apply initMap_stateInv.
  - now apply loadReviews_stateInv.
  - revert Hinv. apply stateInv_transfer; repeat split.
  - now apply saveReview_stateInv.
  - revert Hinv. apply stateInv_transfer; repeat split.
  - now apply deleteReview_stateInv.
  - now apply findRoute_stateInv.
  - now apply clearRoute_stateInv.
  - now apply applyFilters_stateInv.
  - now apply resetFilters_stateInv.
Qed.

(** The mode invariant holds after every run whose events keep the mode:
    route searches, route clears, review creations and deletions, filters,
    and loads of the reviews that succeed or meet no route. *)
Lemma run_modeInvariant (page : Dashboard) (events : list (float * Event)) :
  allKeepMode engine (constructor page) events ->
  modeInvariant (run engine page events).
Proof.
  unfold run. intros Hall. apply modeInvariant_expected.
  assert (Hinv : stateInv (constructor page)) by (split; [reflexivity | discriminate]).
  revert Hinv Hall. generalize (constructor page).
  induction events as [|[w e] rest IH]; intros s Hinv Hall; simpl.
  - exact (proj1 Hinv).
  - destruct Hall as [Hk Hrest]. apply IH; trivial.
    now apply handle_stateInv.
Qed.

End ClientProperties.

(** ** The review API *)

Section BackendProperties.

Variable DB : Type.
Variable insertReview : DB -> Backend.InsertParams -> option (DB * Backend.Row).

(** C9, as amended. [POST /reviews] answers 400 exactly when lat, lng,
    safetyRating or infrastructureRating is not a number or the description
    is not a string.  A submission whose description is the empty string
    passes the check: its description goes to the INSERT as it is, and the
    reply is 201 with the created review, or 500 when the store throws. *)
Theorem post_reviews_checks_types_only (db : DB) (body : Backend.Body) :
  (Backend.replyStatus (Backend.postReply insertReview db body) = 400%nat
   <-> Backend.validPayload body = false)
  /\ forall lat lng safetyRating infrastructureRating address timestamp,
       body = Backend.mkBody (Backend.JsNumber lat) (Backend.JsNumber lng)
                (Backend.JsNumber safetyRating)
                (Backend.JsNumber infrastructureRating)
                (Backend.JsString "") address timestamp ->
       Backend.postReviews insertReview db body
       = match insertReview db
                 (Backend.mkInsertParams lat lng safetyRating
                    infrastructureRating "" (Backend.orNull address)
                    (Backend.orNull timestamp))
         with
         | Some (db', row) =>
             let saved := Backend.toReviewDTO row in
             (Backend.ReplyReview 201 saved, db',
              Some (Review.lat saved, Review.lng saved, Review.address saved,
                    Review.description saved))
         | None => (Backend.ReplyError 500 "Server error", db, None)
         end.
Proof.
  split.
  - unfold Backend.postReply, Backend.postReviews, Backend.validPayload.
    destruct body as [lat lng sr ir descr addr ts]. simpl.
    destruct lat; simpl; try (split; reflexivity).
    destruct lng; simpl; try (split; reflexivity).
    destruct sr; simpl; try (split; reflexivity).
    destruct ir; simpl; try (split; reflexivity).
    destruct descr; simpl; try (split; reflexivity).
    destruct (insertReview db _) as [[db' row]|]; simpl;
      split; discriminate.
  - intros lat lng sr ir addr ts ->. reflexivity.
Qed.

End BackendProperties.

(** ** Instances on the reference engine *)

(** The early exit changes the value that is returned, not the verdict: on
    a route whose first segment is 55 m away and whose third point is the
    review itself, the routine returns 55.28... and the full scan 0. *)
Example early_exit_returns_first_minimum_within_buffer :
  let p := LatLng.mk 0.0005 0.005 in
  let path := [LatLng.mk 0 0; LatLng.mk 0 0.01; p] in
  minDistanceToPolylineMeters Js.cos_taylor 1000 p path = 55.2871375
  /\ minDistanceFullScan Js.cos_taylor p path = 0.
Proof. split; vm_compute; reflexivity. Qed.

(** C3, at a point of Hyderabad and a segment collapsed to one point. *)
Lemma degenerate_segment_distance_witness :
  let p := LatLng.mk 17.4 78.5 in
  let v := LatLng.mk 17.385 78.4867 in
  (is_finite (LatLng.lat v) = true /\ is_finite (LatLng.lng v) = true
   /\ is_finite (mPerDegLat Js.cos_taylor (midLatitude v v)) = true
   /\ is_finite (mPerDegLng Js.cos_taylor (midLatitude v v)) = true)
  /\ distPointToSegmentMeters Js.cos_taylor p v v
     = planarDistance Js.cos_taylor p v v.
Proof.
  intros p v. split.
  - repeat split; reflexivity.
  - apply (degenerate_segment_distance Js.cos_taylor p v v); reflexivity.
Defined.

(** C6, on the reference cosine. *)
Lemma scenario_classification_witness :
  Js.cos_taylor 0 = 1
  /\ (minDistanceToPolylineMeters Js.cos_taylor 1000
        (LatLng.mk 0.0005 0.005) scenarioRoute <=? 1000) = true
  /\ (minDistanceToPolylineMeters Js.cos_taylor 1000
        (LatLng.mk 0.02 0.005) scenarioRoute <=? 1000) = false.
Proof.
  split; [reflexivity |].
  apply (scenario_classification Js.cos_taylor). reflexivity.
Defined.



(** C5, on the loaded page with a polyline of one point. *)
Lemma degenerate_polyline_no_review_on_route_witness :
  let s := set_routePath [LatLng.mk 0 0] Sample.loaded in
  (List.length (routePath s) < 2)%nat
  /\ routeFiltered (fst (countReviewsAlongRoute Engine.builtins s)) = []
  /\ snd (countReviewsAlongRoute Engine.builtins s) = O.
Proof.
  intros s.
  assert (H : (List.length (routePath s) < 2)%nat) by (apply Nat.lt_succ_diag_r).
  destruct (degenerate_polyline_no_review_on_route Engine.builtins s H)
    as (H1 & H2 & _).
  split; [exact H | split; assumption].
Defined.

(** C7, on a page that is not blank yet. *)
Lemma empty_subset_blank_tiles_witness :
  let s := constructor Sample.page in
  (reviews s = [] /\ routeFiltered s = [])
  /\ dashboard (updateDashboardOverall Engine.builtins Sample.weekAgo s) = blank
  /\ dashboard (updateDashboardRouteOnly Engine.builtins Sample.weekAgo s)
     = blank.
Proof.
  intros s.
  destruct (empty_subset_blank_tiles Engine.builtins Sample.weekAgo s)
    as (H1 & H2 & _).
  split; [split; reflexivity |].
  split; [apply H1 | apply H2]; reflexivity.
Defined.

(** C8, on the state in which [findRoute] calls the filter when a second
    search yields a polyline of one point: the halo of the first route
    stays. *)
Lemma short_path_keeps_old_halos_witness :
  let s := set_routePath [LatLng.mk 0 0] Sample.routed in
  (List.length (routePath s) < 2)%nat
  /\ routeOverlays (fst (countReviewsAlongRoute Engine.builtins s))
     = routeOverlays s
  /\ routeFiltered (fst (countReviewsAlongRoute Engine.builtins s)) = [].
Proof.
  intros s.
  assert (H : (List.length (routePath s) < 2)%nat) by (apply Nat.lt_succ_diag_r).
  split; [exact H |].
  exact (short_path_keeps_old_halos Engine.builtins s H).
Defined.

(** The same through the handlers: after a route with one on-route review, a
    second search that yields one point leaves the halo of that review on
    the map, with no on-route review and an empty dashboard. *)
Example stale_halo_after_short_route :
  let s := handle Engine.builtins Sample.routed
             (Sample.at_ (RouteSearched "A" "B" Sample.shortRouteFound)) in
  routeOverlays s = [halo Sample.routed Sample.nearReview]
  /\ routeFiltered s = []
  /\ dashboardMode s = Empty.
Proof. vm_compute. repeat split. Qed.

(** C10, on a page with a review open and a place picked, a network error
    for the POST and a 500 for the DELETE. *)
Lemma store_failure_keeps_client_state_witness :
  let s := Sample.editing in
  let post : FetchResult Review.t := NetworkError in
  let del : FetchResult unit := Response 500 None in
  (storeFailed post = true /\ storeFailed del = true)
  /\ saveReview Engine.builtins Sample.weekAgo post s
     = showNotification "Failed to save review." "error" s
  /\ deleteReview Engine.builtins Sample.weekAgo true del s
     = showNotification "Failed to delete review." "error" s.
Proof.
  intros s post del. split; [split; reflexivity |].
  destruct (store_failure_keeps_client_state Engine.builtins Sample.weekAgo s
              post true del eq_refl eq_refl) as (H1 & H2 & _).
  split; [exact H1 | exact H2].
Defined.

(** C2, on the page with a route and one on-route review: the load fails,
    and the dashboard is the overall one, blank, beside a route, a cache and
    a halo that still hold the on-route review. *)
Lemma failed_load_shows_overall_with_route_witness :
  let s := Sample.routed in
  let s' := loadReviews Engine.builtins Sample.weekAgo NetworkError s in
  (routeIsSet s = true /\ fetched (@NetworkError (list Review.t)) = None)
  /\ routeIsSet s' = true
  /\ dashboardMode s' = Overall
  /\ routeFiltered s' = [Sample.nearReview]
  /\ ~ modeInvariant s'.
Proof.
  intros s s'. split; [split; reflexivity |].
  destruct (failed_load_shows_overall_with_route Engine.builtins
              Sample.weekAgo s NetworkError eq_refl eq_refl)
    as (H1 & H2 & _ & H4 & _ & H6).
  split; [exact H1 |]. split; [exact H2 |]. split; [| exact H6].
  transitivity (routeFiltered s); [exact H4 | reflexivity].
Defined.

(** The events before the failed load all keep the mode, and the invariant
    holds until then. *)
Example mode_invariant_until_failed_load :
  modeInvariant
    (run Engine.builtins Sample.page
       [Sample.at_ InitMap;
        Sample.at_ (ReviewsLoaded
                      (Response 200
                         (Some [Sample.nearReview; Sample.farReview])));
        Sample.at_ (RouteSearched "A" "B" Sample.routeFound)]).
Proof.
  apply run_modeInvariant. cbn [allKeepMode keepsMode snd Sample.at_].
  repeat split.
  - left. discriminate.
  - intros _. eexists _, _. reflexivity.
Qed.

(** C9, the claim as stated fails: the submission with the empty description
    is answered 201, not 400, and the table holds a row with the empty
    description. *)
Lemma empty_description_is_stored :
  Backend.replyStatus
    (Backend.postReply Backend.tableInsert Sample.emptyTable
       Sample.emptyDescription) = 201%nat
  /\ exists row,
       In row (Backend.rows
                 (snd (fst (Backend.postReviews Backend.tableInsert
                              Sample.emptyTable Sample.emptyDescription))))
       /\ Backend.row_description row = ""%string.
Proof.
  split; [reflexivity |].
  eexists. split; [left; reflexivity | reflexivity].
Qed.

(** C9 as amended, on the same submission. *)
Lemma post_reviews_checks_types_only_witness :
  Backend.validPayload Sample.emptyDescription = true
  /\ Backend.replyStatus
       (Backend.postReply Backend.tableInsert Sample.emptyTable
          Sample.emptyDescription) <> 400%nat.
Proof.
  split; [reflexivity |].
  destruct (post_reviews_checks_types_only Backend.Table Backend.tableInsert
              Sample.emptyTable Sample.emptyDescription) as [[H _] _].
  intros E. apply H in E. discriminate E.
Defined.

(** ** More on the minimum distance to a polyline *)

Section PolylineDistance.

Variable cos : float -> float.
Variable buffer : float.

(** The running minimum after one more distance. *)
Lemma running_min_not_nan (d m : float) :
  is_nan m = false -> is_nan (if d <? m then d else m) = false.
Proof.
  intros Hm. destruct (d <? m) eqn:E; trivial.
  now destruct (FloatOrder.ltb_not_nan _ _ E).
Qed.

Lemma loop_verdict (p : LatLng.t) (path : list LatLng.t) :
  forall m, is_nan m = false -> (m <=? buffer) = false ->
    (minDistanceLoop cos buffer p path m <=? buffer)
    = existsb (fun d => d <=? buffer) (segmentDistances cos p path).
Proof.
  unfold segmentDistances.
  induction path as [|v rest IH]; intros m Hm Hout; simpl; trivial.
  destruct rest as [|w rest']; trivial.
  cbn [segments map existsb fst snd].
  set (d := distPointToSegmentMeters cos p v w).
  destruct (d <=? buffer) eqn:Ed.
  - destruct (FloatOrder.leb_not_nan _ _ Ed) as [Hd _].
    destruct (d <? m) eqn:Elt.
    + rewrite Ed. simpl. exact Ed.
    + pose proof (FloatOrder.not_ltb_leb _ _ Elt Hd Hm) as Hmd.
      rewrite (FloatOrder.leb_trans _ _ _ Hmd Ed) in Hout. discriminate.
  - simpl.
    assert (Hm' : is_nan (if d <? m then d else m) = false)
      by now apply running_min_not_nan.
    assert (Hout' : ((if d <? m then d else m) <=? buffer) = false)
      by now destruct (d <? m).
    rewrite Hout'. now apply IH.
Qed.

(** X1. With a buffer below infinity, the early-exiting routine classifies a
    point within the buffer exactly when the distance to one of the
    segments of the polyline is within the buffer. *)
Theorem within_buffer_iff_some_segment (p : LatLng.t) (path : list LatLng.t) :
  (infinity <=? buffer) = false ->
  (minDistanceToPolylineMeters cos buffer p path <=? buffer)
  = existsb (fun d => d <=? buffer) (segmentDistances cos p path).
Proof.
  intros H. unfold minDistanceToPolylineMeters.
  now apply loop_verdict.
Qed.

Lemma loop_value (p : LatLng.t) (path : list LatLng.t) :
  forall m, is_nan m = false ->
    is_nan (minDistanceLoop cos buffer p path m) = false
    /\ (minDistanceLoop cos buffer p path m = m
        \/ In (minDistanceLoop cos buffer p path m)
             (segmentDistances cos p path)).
Proof.
  unfold segmentDistances.
  induction path as [|v rest IH]; intros m Hm; simpl; auto.
  destruct rest as [|w rest']; auto.
  cbn [segments map fst snd].
  set (d := distPointToSegmentMeters cos p v w).
  assert (Hm' : is_nan (if d <? m then d else m) = false)
    by now apply running_min_not_nan.
  assert (Hstep : (if d <? m then d else m) = m
                  \/ (if d <? m then d else m) = d)
    by (destruct (d <? m); auto).
  destruct ((if d <? m then d else m) <=? buffer).
  - split; trivial. destruct Hstep as [-> | ->]; [now left | right; now left].
  - destruct (IH _ Hm') as [Hn [Hv | Hv]].
    + split; trivial. rewrite Hv.
      destruct Hstep as [-> | ->]; [now left | right; now left].
    + split; trivial. right. now right.
Qed.

(** X2. The minimum distance is never NaN, whatever the distances to the
    segments are: it is Infinity or the distance to one of the segments. *)
Theorem min_distance_is_infinity_or_segment_distance (p : LatLng.t)
    (path : list LatLng.t) :
  is_nan (minDistanceToPolylineMeters cos buffer p path) = false
  /\ (minDistanceToPolylineMeters cos buffer p path = infinity
      \/ In (minDistanceToPolylineMeters cos buffer p path)
           (segmentDistances cos p path)).
Proof. unfold minDistanceToPolylineMeters. now apply loop_value. Qed.

Lemma scanAll_not_nan (p : LatLng.t) (path : list LatLng.t) :
  forall m, is_nan m = false ->
    is_nan (minDistanceScanAll cos p path m) = false.
Proof.
  induction path as [|v rest IH]; intros m Hm; simpl; trivial.
  destruct rest as [|w rest']; trivial.
  now apply IH, running_min_not_nan.
Qed.

Lemma running_min_below (d m : float) :
  is_nan m = false -> ((if d <? m then d else m) <=? m) = true.
Proof.
  intros Hm. destruct (d <? m) eqn:E.
  - now apply FloatOrder.ltb_leb.
  - now apply FloatOrder.leb_refl.
Qed.

Lemma scanAll_below_start (p : LatLng.t) (path : list LatLng.t) :
  forall m, is_nan m = false ->
    (minDistanceScanAll cos p path m <=? m) = true.
Proof.
  induction path as [|v rest IH]; intros m Hm; simpl.
  - now apply FloatOrder.leb_refl.
  - destruct rest as [|w rest']; [now apply FloatOrder.leb_refl |].
    eapply FloatOrder.leb_trans.
    + apply IH. now apply running_min_not_nan.
    + now apply running_min_below.
Qed.

Lemma scanAll_below_loop (p : LatLng.t) (path : list LatLng.t) :
  forall m, is_nan m = false ->
    (minDistanceScanAll cos p path m <=? minDistanceLoop cos buffer p path m)
    = true.
Proof.
  induction path as [|v rest IH]; intros m Hm; simpl.
  - now apply FloatOrder.leb_refl.
  - destruct rest as [|w rest']; [now apply FloatOrder.leb_refl |].
    set (d := distPointToSegmentMeters cos p v w).
    assert (Hm' : is_nan (if d <? m then d else m) = false)
      by now apply running_min_not_nan.
    destruct ((if d <? m then d else m) <=? buffer).
    + now apply scanAll_below_start.
    + now apply IH.
Qed.

Lemma scanAll_lower_bound (p : LatLng.t) (path : list LatLng.t) :
  forall m d, is_nan m = false -> In d (segmentDistances cos p path) ->
    (d <? minDistanceScanAll cos p path m) = false.
Proof.
  unfold segmentDistances.
  induction path as [|v rest IH]; intros m d Hm Hin; simpl in *; [easy |].
  destruct rest as [|w rest']; [easy |].
  cbn [segments map fst snd] in Hin.
  set (d0 := distPointToSegmentMeters cos p v w) in *.
  assert (Hm' : is_nan (if d0 <? m then d0 else m) = false)
    by now apply running_min_not_nan.
  destruct Hin as [<- | Hin]; [| now apply IH].
  destruct (is_nan d0) eqn:Hd.
  - rewrite FloatAxioms.ltb_spec.
    rewrite FloatFacts.is_nan_spec in Hd.
    destruct (Prim2SF d0); try discriminate. reflexivity.
  - apply FloatOrder.leb_not_gtb.
    eapply FloatOrder.leb_trans; [now apply scanAll_below_start |].
    destruct (d0 <? m) eqn:E.
    + now apply FloatOrder.leb_refl.
    + now apply FloatOrder.not_ltb_leb.
Qed.

(** X3. The value the early exit returns is never below the minimum of the
    full scan, and no segment is closer than the minimum of the full scan. *)
Theorem early_exit_never_under_reports (p : LatLng.t) (path : list LatLng.t) :
  (minDistanceFullScan cos p path
   <=? minDistanceToPolylineMeters cos buffer p path) = true
  /\ forall d, In d (segmentDistances cos p path) ->
       (d <? minDistanceFullScan cos p path) = false.
Proof.
  unfold minDistanceFullScan, minDistanceToPolylineMeters. split.
  - now apply scanAll_below_loop.
  - intros d Hd. now apply scanAll_lower_bound.
Qed.

End PolylineDistance.

(** [Math.max(0, Math.min(1, t))] is NaN when [t] is NaN and lies between 0
    and 1 otherwise. *)
Lemma clamp_in_unit_interval (t : float) :
  (is_nan t = true -> is_nan (Js.Math_max 0 (Js.Math_min 1 t)) = true)
  /\ (is_nan t = false ->
      (0 <=? Js.Math_max 0 (Js.Math_min 1 t)) = true
      /\ (Js.Math_max 0 (Js.Math_min 1 t) <=? 1) = true).
Proof.
  split.
  - intros H. unfold Js.Math_min. rewrite H, orb_true_r. reflexivity.
  - intros H.
    assert (Hmin : is_nan (Js.Math_min 1 t) = false
                   /\ (Js.Math_min 1 t <=? 1) = true).
    { unfold Js.Math_min. rewrite H. change (is_nan 1) with false. simpl.
      destruct (1 <? t) eqn:E1; [split; reflexivity |].
      destruct (t <? 1) eqn:E2.
      - split; [exact H | now apply FloatOrder.ltb_leb].
      - change (get_sign 1) with false. simpl.
        split; [exact H |]. now apply FloatOrder.not_ltb_leb. }
    destruct Hmin as [Hn Hle]. revert Hn Hle.
    generalize (Js.Math_min 1 t). intros m Hn Hle.
    unfold Js.Math_max. rewrite Hn. change (is_nan 0) with false. simpl.
    destruct (0 <? m) eqn:E1.
    + split; [now apply FloatOrder.ltb_leb | exact Hle].
    + destruct (m <? 0) eqn:E2; [split; reflexivity |].
      change (get_sign 0) with false. simpl. split; reflexivity.
Qed.

(** X4. For a segment whose squared length is not zero, the distance that
    [distPointToSegmentMeters] returns is the length of the offset between
    P and the point of the line through V and W at the parameter
    [closestParameter]; that parameter is NaN or lies between 0 and 1, so
    the point is a point of the segment, and with a NaN parameter the
    distance is NaN. *)
Theorem closest_point_lies_on_segment (cos : float -> float)
    (p v w : LatLng.t) :
  (segmentLength2 cos v w =? 0) = false ->
  let t := closestParameter cos p v w in
  let px := fst (projectedOffset cos p v w) in
  let py := snd (projectedOffset cos p v w) in
  let vx := fst (segmentVector cos v w) in
  let vy := snd (segmentVector cos v w) in
  distPointToSegmentMeters cos p v w
  = sqrt ((px - vx * t) * (px - vx * t) + (py - vy * t) * (py - vy * t))
  /\ (is_nan t = true \/ ((0 <=? t) = true /\ (t <=? 1) = true))
  /\ (is_nan t = true -> is_nan (distPointToSegmentMeters cos p v w) = true).
Proof.
  intros Hseg t px py vx vy.
  assert (Hd : distPointToSegmentMeters cos p v w
               = sqrt ((px - vx * t) * (px - vx * t)
                       + (py - vy * t) * (py - vy * t))).
  { rewrite distance_of_offset. unfold closestOffset.
    subst t px py vx vy.
    destruct (projectedOffset cos p v w) as [px py].
    destruct (segmentVector cos v w) as [vx vy] eqn:Ev.
    rewrite Hseg. reflexivity. }
  split; [exact Hd |]. split.
  - subst t. unfold closestParameter.
    destruct (projectedOffset cos p v w) as [px' py'].
    destruct (segmentVector cos v w) as [vx' vy'].
    match goal with
    | |- context [Js.Math_min 1 ?raw] =>
        destruct (clamp_in_unit_interval raw) as [Hnan Hin];
        destruct (is_nan raw) eqn:Eraw
    end.
    + left. now apply Hnan.
    + right. now apply Hin.
  - intros Hnan. rewrite Hd.
    apply FloatNan.sqrt_nan, FloatNan.add_l, FloatNan.mul_l, FloatNan.sub_r,
      FloatNan.mul_r.
    exact Hnan.
Qed.

(** ** The handlers, one by one *)

Section HandlerProperties.

Variable engine : Js.Builtins.

(** *** Normal forms *)

Lemma updateDashboardOverall_eq (weekAgo : float) (s : App) :
  updateDashboardOverall engine weekAgo s
  = set_dashboardMode Overall
      (set_dashboard (statistics engine weekAgo (reviews s)) s).
Proof.
  destruct s as [? ? rs ? ? ? ? ? ? ? ? ? ? ? ?].
  unfold updateDashboardOverall, statistics. simpl reviews.
  destruct rs; reflexivity.
Qed.

Lemma updateDashboardRouteOnly_eq (weekAgo : float) (s : App) :
  updateDashboardRouteOnly engine weekAgo s
  = set_dashboardMode (routeModeOf (routeFiltered s))
      (set_routeCountBadge
         (badgeAfterRouteOnly (routeFiltered s) (routeCountBadge s))
         (set_dashboard (statistics engine weekAgo (routeFiltered s)) s)).
Proof.
  destruct s as [? ? ? ? ? ? ? ? ? ? badge cache ? ? ?].
  unfold updateDashboardRouteOnly, statistics. simpl routeFiltered.
  destruct cache; [destruct badge |]; reflexivity.
Qed.

Lemma countReviewsAlongRoute_eq (s : App) :
  countReviewsAlongRoute engine s
  = (set_routeOverlays (halosAlongRoute engine s)
       (set_routeFiltered (filteredAlongRoute engine s) s),
     List.length (filteredAlongRoute engine s)).
Proof.
  unfold countReviewsAlongRoute, halosAlongRoute, filteredAlongRoute.
  simpl. destruct (List.length (routePath s) <? 2)%nat.
  - now destruct s.
  - rewrite countLoop_spec. now destruct s.
Qed.

Lemma refreshDashboard_eq (weekAgo : float) (s : App) :
  refreshDashboard engine weekAgo s
  = if routeIsSet s then
      set_dashboardMode (routeModeOf (filteredAlongRoute engine s))
        (set_routeCountBadge
           (badgeAfterRouteOnly (filteredAlongRoute engine s)
              (routeCountBadge s))
           (set_dashboard
              (statistics engine weekAgo (filteredAlongRoute engine s))
              (set_routeOverlays (halosAlongRoute engine s)
                 (set_routeFiltered (filteredAlongRoute engine s) s))))
    else
      set_dashboardMode Overall
        (set_dashboard (statistics engine weekAgo (reviews s)) s).
Proof.
  unfold refreshDashboard. destruct (routeIsSet s).
  - rewrite countReviewsAlongRoute_eq. cbn [fst].
    rewrite updateDashboardRouteOnly_eq. reflexivity.
  - apply updateDashboardOverall_eq.
Qed.

(** *** The dashboard and the filters *)

(** X5. With a polyline of two points or more, the proximity filter keeps
    exactly the reviews whose minimum distance is within the buffer, in the
    order of the review list, draws one halo per kept review, returns their
    number, and leaves the review list as it is. *)
Theorem route_filter_keeps_reviews_within_buffer (s : App) :
  (2 <= List.length (routePath s))%nat ->
  let s' := fst (countReviewsAlongRoute engine s) in
  routeFiltered s' = filter (onRoute engine s) (reviews s)
  /\ (forall r, In r (routeFiltered s')
                <-> In r (reviews s) /\ onRoute engine s r = true)
  /\ routeOverlays s' = map (halo s) (routeFiltered s')
  /\ snd (countReviewsAlongRoute engine s) = List.length (routeFiltered s')
  /\ reviews s' = reviews s.
Proof.
  intros H s'. subst s'. rewrite (countReviewsAlongRoute_spec engine s H).
  cbn [fst snd].
  split; [reflexivity |]. split; [intros r; apply filter_In |].
  split; [reflexivity |]. split; reflexivity.
Qed.

Lemma refreshDashboard_dashboard (weekAgo : float) (s : App) :
  dashboard (refreshDashboard engine weekAgo s)
  = statistics engine weekAgo (activeSubset engine s).
Proof.
  rewrite refreshDashboard_eq. unfold activeSubset.
  now destruct (routeIsSet s).
Qed.

(** X6. Both renderers of the dashboard write the same aggregates of the
    subset they are given: all reviews for the overall dashboard, the cached
    on-route reviews for the route dashboard; after a refresh the tiles are
    the aggregates of the active subset. *)
Theorem dashboard_shows_statistics_of_subset (weekAgo : float) (s : App) :
  dashboard (updateDashboardOverall engine weekAgo s)
  = statistics engine weekAgo (reviews s)
  /\ dashboard (updateDashboardRouteOnly engine weekAgo s)
     = statistics engine weekAgo (routeFiltered s)
  /\ dashboard (refreshDashboard engine weekAgo s)
     = statistics engine weekAgo (activeSubset engine s).
Proof.
  rewrite updateDashboardOverall_eq, updateDashboardRouteOnly_eq.
  split; [reflexivity |]. split; [reflexivity |].
  apply refreshDashboard_dashboard.
Qed.

Lemma filter_filter (A : Type) (f g : A -> bool) (l : list A) :
  filter g (filter f l) = filter (fun x => f x && g x) l.
Proof.
  induction l as [|x l IH]; simpl; trivial.
  destruct (f x); simpl; [destruct (g x) |]; now rewrite IH.
Qed.

Lemma passesFilters_eq (safetyMin infraMin : float) (cutoff : option float)
    (l : list Review.t) :
  match cutoff with
  | Some c =>
      filter (fun r => c <? Js.Date_parse engine (Review.timestamp r))
        (filter (fun r => (safetyMin <=? Review.safetyRating r)
                          && (infraMin <=? Review.infrastructureRating r)) l)
  | None =>
      filter (fun r => (safetyMin <=? Review.safetyRating r)
                       && (infraMin <=? Review.infrastructureRating r)) l
  end
  = filter (passesFilters engine safetyMin infraMin cutoff) l.
Proof.
  unfold passesFilters. destruct cutoff.
  - apply filter_filter.
  - apply filter_ext. intros r. now rewrite andb_true_r.
Qed.

Lemma applyFilters_eq (weekAgo safetyMin infraMin : float)
    (cutoff : option float) (s : App) :
  applyFilters engine weekAgo safetyMin infraMin cutoff s
  = refreshDashboard engine weekAgo
      (set_notifications
         (notifications s
          ++ [mkNotification
                ("Applied filters. Showing "
                 ++ Js.String_of_nat
                      (List.length
                         (filter (passesFilters engine safetyMin infraMin cutoff)
                            (reviews s)))
                 ++ " reviews.")%string "info"])
         (set_reviewMarkers
            (filter (passesFilters engine safetyMin infraMin cutoff) (reviews s))
            s)).
Proof.
  unfold applyFilters. rewrite addMarkers_eq, passesFilters_eq.
  f_equal.
Qed.

(** The refresh of the dashboard reads neither the markers nor the
    notifications. *)
Lemma refreshDashboard_ignores_markers (weekAgo : float)
    (markers : list Review.t) (notes : list Notification) (s : App) :
  let s' := refreshDashboard engine weekAgo
              (set_notifications notes (set_reviewMarkers markers s)) in
  let r := refreshDashboard engine weekAgo s in
  reviews s' = reviews r /\ dashboard s' = dashboard r
  /\ routeFiltered s' = routeFiltered r /\ routeOverlays s' = routeOverlays r
  /\ dashboardMode s' = dashboardMode r
  /\ routeCountBadge s' = routeCountBadge r
  /\ reviewMarkers s' = markers /\ notifications s' = notes.
Proof.
  intros s' r. subst s' r. rewrite !refreshDashboard_eq.
  change (routeIsSet (set_notifications notes (set_reviewMarkers markers s)))
    with (routeIsSet s).
  destruct (routeIsSet s); repeat split.
Qed.

(** X7. Applying display filters changes which markers are drawn and nothing
    the dashboard is computed from: the markers become the reviews that pass
    the filters, in order, while the review list, the on-route cache, the
    mode and the four tiles are those of a plain refresh of the dashboard. *)
Theorem filters_change_markers_not_statistics (weekAgo safetyMin infraMin : float)
    (cutoff : option float) (s : App) :
  let s' := applyFilters engine weekAgo safetyMin infraMin cutoff s in
  reviewMarkers s'
  = filter (passesFilters engine safetyMin infraMin cutoff) (reviews s)
  /\ reviews s' = reviews s
  /\ dashboard s' = statistics engine weekAgo (activeSubset engine s)
  /\ routeFiltered s' = routeFiltered (refreshDashboard engine weekAgo s)
  /\ dashboardMode s' = dashboardMode (refreshDashboard engine weekAgo s).
Proof.
  intros s'. subst s'. rewrite applyFilters_eq.
  rewrite <- (refreshDashboard_dashboard weekAgo s).
  match goal with
  | |- context [refreshDashboard engine weekAgo
                  (set_notifications ?n (set_reviewMarkers ?m s))] =>
      destruct (refreshDashboard_ignores_markers weekAgo m n s)
        as (H1 & H2 & H3 & _ & H5 & _ & H7 & _)
  end.
  cbv zeta in H1, H2, H3, H5, H7.
  split; [exact H7 |].
  split; [| split; [exact H2 | split; [exact H3 | exact H5]]].
  rewrite H1, refreshDashboard_eq. now destruct (routeIsSet s).
Qed.

Lemma resetFilters_eq (weekAgo : float) (s : App) :
  resetFilters engine weekAgo s
  = refreshDashboard engine weekAgo
      (set_notifications
         (notifications s
          ++ [mkNotification "Filters reset. Showing all reviews." "info"])
         (set_reviewMarkers (reviews s) s)).
Proof. unfold resetFilters. rewrite loadMarkers_eq. reflexivity. Qed.

Lemma activeSubset_refreshDashboard (weekAgo : float) (s : App) :
  activeSubset engine (refreshDashboard engine weekAgo s)
  = activeSubset engine s.
Proof.
  rewrite refreshDashboard_eq. unfold activeSubset.
  destruct (routeIsSet s) eqn:E.
  - match goal with |- (if routeIsSet ?x then _ else _) = _ =>
      change (routeIsSet x) with (routeIsSet s) end.
    rewrite E. reflexivity.
  - match goal with |- (if routeIsSet ?x then _ else _) = _ =>
      change (routeIsSet x) with (routeIsSet s) end.
    rewrite E. reflexivity.
Qed.

(** X8. Resetting the filters after any filter brings back one marker per
    review, in the order of the list, and leaves the review list and the
    aggregates of the active subset as they were. *)
Theorem reset_after_filters_shows_all_reviews
    (weekAgo weekAgo' safetyMin infraMin : float) (cutoff : option float)
    (s : App) :
  let s' := resetFilters engine weekAgo'
              (applyFilters engine weekAgo safetyMin infraMin cutoff s) in
  reviewMarkers s' = reviews s
  /\ reviews s' = reviews s
  /\ dashboard s' = statistics engine weekAgo' (activeSubset engine s).
Proof.
  intros s'. subst s'. rewrite resetFilters_eq.
  set (a := applyFilters engine weekAgo safetyMin infraMin cutoff s).
  assert (Hrev : reviews a = reviews s).
  { subst a. rewrite applyFilters_eq, refreshDashboard_eq.
    now destruct (routeIsSet _). }
  assert (Hact : activeSubset engine a = activeSubset engine s).
  { subst a. rewrite applyFilters_eq, activeSubset_refreshDashboard.
    reflexivity. }
  clearbody a.
  match goal with
  | |- context [refreshDashboard engine weekAgo'
                  (set_notifications ?n (set_reviewMarkers ?m a))] =>
      destruct (refreshDashboard_ignores_markers weekAgo' m n a)
        as (H1 & H2 & _ & _ & _ & _ & H7 & _)
  end.
  cbv zeta in H1, H2, H7.
  split; [rewrite H7; exact Hrev |].
  split.
  - rewrite H1, refreshDashboard_eq, <- Hrev. now destruct (routeIsSet a).
  - rewrite H2, refreshDashboard_dashboard, Hact. reflexivity.
Qed.

(** *** Creating and deleting reviews *)

Lemma refreshDashboard_frame (weekAgo : float) (s : App) :
  let r := refreshDashboard engine weekAgo s in
  notifications r = notifications s /\ reviews r = reviews s
  /\ reviewMarkers r = reviewMarkers s
  /\ selectedLocation r = selectedLocation s
  /\ currentReviewId r = currentReviewId s
  /\ isReviewMode r = isReviewMode s
  /\ routeBufferMeters r = routeBufferMeters s
  /\ routePath r = routePath s /\ routeActive r = routeActive s
  /\ mapReady r = mapReady s.
Proof.
  cbv zeta. rewrite refreshDashboard_eq.
  destruct (routeIsSet s); repeat split.
Qed.

Lemma saveReview_eq (weekAgo : float) (res : FetchResult Review.t)
    (s : App) (loc : LatLng.t) (saved : Review.t) :
  selectedLocation s = Some loc -> fetched res = Some saved ->
  saveReview engine weekAgo res s
  = set_notifications
      (notifications s
       ++ [mkNotification "Review saved successfully!" "success"])
      (set_isReviewMode false
         (set_selectedLocation None
            (refreshDashboard engine weekAgo
               (set_reviewMarkers
                  (if mapReady s then reviewMarkers s ++ [saved]
                   else reviewMarkers s)
                  (set_reviews (saved :: reviews s) s))))).
Proof.
  intros Hloc Hres. unfold saveReview. rewrite Hloc, Hres.
  assert (HX : (if mapReady (set_reviews (saved :: reviews s) s)
                then addReviewMarker (set_reviews (saved :: reviews s) s) saved
                else set_reviews (saved :: reviews s) s)
               = set_reviewMarkers
                   (if mapReady s then reviewMarkers s ++ [saved]
                    else reviewMarkers s)
                   (set_reviews (saved :: reviews s) s)).
  { destruct s as [ready ? ? ? ? ? ? ? ? ? ? ? ? ? ?]. now destruct ready. }
  cbv zeta. rewrite HX. clear HX.
  unfold showNotification, closeReviewModal. f_equal.
  cbn [notifications set_isReviewMode set_selectedLocation].
  destruct (refreshDashboard_frame weekAgo
              (set_reviewMarkers
                 (if mapReady s then reviewMarkers s ++ [saved]
                  else reviewMarkers s)
                 (set_reviews (saved :: reviews s) s))) as (Hn & _).
  cbv zeta in Hn. rewrite Hn. reflexivity.
Qed.

(** X9. A review that the store accepted is put at the head of the review
    list and gets a marker when the map exists; the form is closed and the
    review mode is left; the tiles show the aggregates of the active subset
    of the new list, and with a route of two points or more the on-route
    cache is the proximity filter of the new list. *)
Theorem saved_review_joins_list_and_cache (weekAgo : float)
    (res : FetchResult Review.t) (s : App) (loc : LatLng.t)
    (saved : Review.t) :
  selectedLocation s = Some loc ->
  fetched res = Some saved ->
  let s' := saveReview engine weekAgo res s in
  reviews s' = saved :: reviews s
  /\ reviewMarkers s'
     = (if mapReady s then reviewMarkers s ++ [saved] else reviewMarkers s)
  /\ selectedLocation s' = None
  /\ isReviewMode s' = false
  /\ dashboard s'
     = statistics engine weekAgo
         (activeSubset engine (set_reviews (saved :: reviews s) s))
  /\ (routeIsSet s = true -> (2 <= List.length (routePath s))%nat ->
      routeFiltered s' = filter (onRoute engine s) (saved :: reviews s)).
Proof.
  intros Hloc Hres s'. subst s'.
  rewrite (saveReview_eq weekAgo res s loc saved Hloc Hres).
  set (m := if mapReady s then _ else _).
  destruct (refreshDashboard_ignores_markers weekAgo m
              (notifications (set_reviews (saved :: reviews s) s))
              (set_reviews (saved :: reviews s) s))
    as (H1 & H2 & H3 & _ & _ & _ & H7 & _).
  cbv zeta in H1, H2, H3, H7.
  assert (E : set_notifications
                (notifications (set_reviews (saved :: reviews s) s))
                (set_reviewMarkers m (set_reviews (saved :: reviews s) s))
              = set_reviewMarkers m (set_reviews (saved :: reviews s) s))
    by now destruct s.
  rewrite E in H1, H2, H3, H7. clear E.
  cbn [reviews reviewMarkers selectedLocation isReviewMode dashboard
       routeFiltered set_notifications set_isReviewMode set_selectedLocation].
  split.
  { rewrite H1, refreshDashboard_eq. now destruct (routeIsSet _). }
  split; [exact H7 |]. split; [reflexivity |]. split; [reflexivity |].
  split.
  { rewrite H2. apply refreshDashboard_dashboard. }
  intros Hset Hlen. rewrite H3, refreshDashboard_eq.
  change (routeIsSet (set_reviews (saved :: reviews s) s)) with (routeIsSet s).
  rewrite Hset. cbn [routeFiltered set_dashboardMode set_routeCountBadge
                     set_dashboard set_routeOverlays set_routeFiltered].
  unfold filteredAlongRoute. cbn [routePath set_reviews].
  destruct (Nat.ltb_spec (List.length (routePath s)) 2); [lia | reflexivity].
Qed.

(** The reviews that stay when the review with identifier [id] is deleted. *)
Lemma remaining_reviews (id : string) (l : list Review.t) (r : Review.t) :
  In r (filter (fun r => negb (String.eqb (Review.id r) id)) l)
  <-> In r l /\ Review.id r <> id.
Proof.
  rewrite filter_In, negb_true_iff.
  destruct (String.eqb_spec (Review.id r) id); intuition congruence.
Qed.

Lemma deleteReview_eq (weekAgo : float) (res : FetchResult unit) (s : App)
    (id : string) :
  currentReviewId s = Some id -> id <> ""%string -> deleted res = true ->
  let remaining :=
    filter (fun r => negb (String.eqb (Review.id r) id)) (reviews s) in
  deleteReview engine weekAgo true res s
  = set_notifications
      (notifications s
       ++ [mkNotification "Review deleted successfully" "info"])
      (refreshDashboard engine weekAgo
         (set_currentReviewId None
            (set_reviewMarkers remaining (set_reviews remaining s)))).
Proof.
  intros Hid Hne Hres remaining. unfold deleteReview. rewrite Hid, Hres.
  destruct (String.eqb_spec id ""); [contradiction |].
  cbv zeta. cbn [negb]. rewrite loadMarkers_eq.
  unfold showNotification, closeViewModal. f_equal.
  match goal with
  | |- notifications (refreshDashboard engine weekAgo ?x) ++ _ = _ =>
      destruct (refreshDashboard_frame weekAgo x) as (Hn & _)
  end.
  cbv zeta in Hn. rewrite Hn. reflexivity.
Qed.

(** X10. A deletion of the open review, whose identifier is not the empty
    string, that the store confirmed (status 204) removes from the review
    list exactly the reviews with that identifier, keeps the others in
    order, redraws one marker per remaining review and closes the view; the
    tiles show the aggregates of the active subset of the remaining list,
    and with a route of two points or more the on-route cache is the
    proximity filter of the remaining list. *)
Theorem deleted_review_leaves_list_and_cache (weekAgo : float)
    (res : FetchResult unit) (s : App) (id : string) :
  currentReviewId s = Some id ->
  id <> ""%string ->
  deleted res = true ->
  let remaining :=
    filter (fun r => negb (String.eqb (Review.id r) id)) (reviews s) in
  let s' := deleteReview engine weekAgo true res s in
  reviews s' = remaining
  /\ (forall r, In r (reviews s') <-> In r (reviews s) /\ Review.id r <> id)
  /\ reviewMarkers s' = remaining
  /\ currentReviewId s' = None
  /\ dashboard s'
     = statistics engine weekAgo (activeSubset engine (set_reviews remaining s))
  /\ (routeIsSet s = true -> (2 <= List.length (routePath s))%nat ->
      routeFiltered s' = filter (onRoute engine s) remaining).
Proof.
  intros Hid Hne Hres remaining s'. subst s'.
  rewrite (deleteReview_eq weekAgo res s id Hid Hne Hres). cbv zeta.
  fold remaining.
  set (x := set_currentReviewId None
              (set_reviewMarkers remaining (set_reviews remaining s))).
  destruct (refreshDashboard_frame weekAgo x)
    as (_ & Hr & Hm & _ & Hc & _).
  cbv zeta in Hr, Hm, Hc.
  cbn [reviews reviewMarkers currentReviewId dashboard routeFiltered
       set_notifications].
  assert (Hrev : reviews (refreshDashboard engine weekAgo x) = remaining)
    by (rewrite Hr; reflexivity).
  split; [exact Hrev |].
  split; [intros r; rewrite Hrev; apply remaining_reviews |].
  split; [rewrite Hm; reflexivity |].
  split; [rewrite Hc; reflexivity |].
  split; [rewrite refreshDashboard_dashboard; reflexivity |].
  intros Hset Hlen. rewrite refreshDashboard_eq.
  change (routeIsSet x) with (routeIsSet s). rewrite Hset.
  cbn [routeFiltered set_dashboardMode set_routeCountBadge set_dashboard
       set_routeOverlays set_routeFiltered].
  unfold filteredAlongRoute. subst x. cbn [routePath set_currentReviewId
    set_reviewMarkers set_reviews].
  destruct (Nat.ltb_spec (List.length (routePath s)) 2); [lia | reflexivity].
Qed.

(** *** Searching and clearing a route *)

Lemma set_notifications_same (s : App) :
  set_notifications (notifications s) s = s.
Proof. now destruct s. Qed.

Lemma findRoute_ok_eq (weekAgo : float) (origin destination : string)
    (reply : DirectionsReply) (s : App) :
  mapReady s = true -> origin <> ""%string -> destination <> ""%string ->
  status reply = "OK"%string ->
  let s0 := withRoute (replyPath reply) s in
  let cache := filteredAlongRoute engine s0 in
  findRoute engine weekAgo origin destination reply s
  = set_dashboardMode (routeModeOf cache)
      (set_routeCountBadge
         (match routeCountBadge s with
          | Some _ => Some (badgeText (List.length cache))
          | None => None
          end)
         (set_dashboard (statistics engine weekAgo cache)
            (set_routeOverlays (halosAlongRoute engine s0)
               (set_routeFiltered cache s0)))).
Proof.
  intros Hmap Ho Hd Hok s0 cache. unfold findRoute.
  rewrite Hmap, Hok.
  destruct (String.eqb_spec origin ""); [contradiction |].
  destruct (String.eqb_spec destination ""); [contradiction |].
  cbn [negb orb String.eqb Ascii.eqb Bool.eqb andb].
  fold (replyPath reply). fold (withRoute (replyPath reply) s). fold s0.
  rewrite countReviewsAlongRoute_eq. fold cache.
  rewrite updateDashboardRouteOnly_eq.
  generalize (halosAlongRoute engine s0). intros halos.
  subst s0. clearbody cache.
  destruct s as [? ? ? ? ? ? ? ? ? ? badge ? ? ? ?].
  unfold withRoute, badgeText.
  destruct badge, cache; reflexivity.
Qed.

Lemma clearRoute_eq (weekAgo : float) (s : App) :
  mapReady s = true ->
  clearRoute engine weekAgo s
  = set_dashboardMode Overall
      (set_dashboard (statistics engine weekAgo (reviews s))
         (set_routeOverlays []
            (set_routeCountBadge
               (match routeCountBadge s with
                | Some _ => Some (badgeText 0)
                | None => None
                end)
               (set_routeFiltered []
                  (set_routeActive false (set_routePath [] s)))))).
Proof.
  intros Hmap. unfold clearRoute. rewrite Hmap. cbn [negb].
  rewrite updateDashboardOverall_eq.
  destruct s as [? ? ? ? ? ? ? ? ? ? badge ? ? ? ?].
  destruct badge; reflexivity.
Qed.

(** X11. A route search that succeeds replaces the route wholesale: the
    polyline is the one of the reply, the on-route cache is the outcome of
    the proximity filter on it, the badge reads the number of cached
    reviews, the mode is RouteOnly or Empty by the cache and the tiles show
    its aggregates; the review list is left as it is. *)
Theorem route_search_installs_route (weekAgo : float)
    (origin destination : string) (reply : DirectionsReply) (s : App) :
  mapReady s = true -> origin <> ""%string -> destination <> ""%string ->
  status reply = "OK"%string ->
  let s' := findRoute engine weekAgo origin destination reply s in
  routePath s' = replyPath reply
  /\ routeActive s' = true
  /\ routeFiltered s'
     = filteredAlongRoute engine (withRoute (replyPath reply) s)
  /\ (routeCountBadge s <> None ->
      routeCountBadge s' = Some (badgeText (List.length (routeFiltered s'))))
  /\ dashboardMode s' = routeModeOf (routeFiltered s')
  /\ dashboard s' = statistics engine weekAgo (routeFiltered s')
  /\ reviews s' = reviews s.
Proof.
  intros Hmap Ho Hd Hok s'. subst s'.
  rewrite (findRoute_ok_eq weekAgo origin destination reply s Hmap Ho Hd Hok).
  cbv zeta. repeat split.
  intros Hb. cbn. destruct (routeCountBadge s); [reflexivity | contradiction].
Qed.

(** X12. A route search with a missing input or a status other than OK only
    shows a notification (a warning or an error): the previous route, its
    cache and halos, the dashboard and every other field stay as they
    were. *)
Theorem failed_route_search_keeps_route (weekAgo : float)
    (origin destination : string) (reply : DirectionsReply) (s : App) :
  origin = ""%string \/ destination = ""%string
  \/ status reply <> "OK"%string ->
  let s' := findRoute engine weekAgo origin destination reply s in
  set_notifications (notifications s) s' = s
  /\ (mapReady s = true ->
      exists note, notifications s' = notifications s ++ [note]
                   /\ (kind note = "warning"%string
                       \/ kind note = "error"%string)).
Proof.
  intros H s'. subst s'. unfold findRoute.
  destruct (mapReady s).
  2: { split; [apply set_notifications_same | discriminate]. }
  cbn [negb].
  destruct (String.eqb_spec origin ""), (String.eqb_spec destination "");
    cbn [orb];
    try (split; [now destruct s | intros _; eexists; split;
                                    [reflexivity | now left]]).
  destruct (String.eqb_spec (status reply) "OK") as [Hok | Hno].
  - exfalso. destruct H as [H | [H | H]]; contradiction.
  - cbn [negb]. split; [now destruct s |].
    intros _. eexists. split; [reflexivity | now right].
Qed.

(** X13. Clearing undoes a route search: whatever the search did (install
    a route, or fail with a notification), clearing the route afterwards
    gives the state that clearing gives without the search, up to the
    notifications shown. *)
Theorem clear_undoes_route_search (weekAgo weekAgo' : float)
    (origin destination : string) (reply : DirectionsReply) (s : App) :
  set_notifications (notifications s)
    (clearRoute engine weekAgo'
       (findRoute engine weekAgo origin destination reply s))
  = clearRoute engine weekAgo' s.
Proof.
  destruct (mapReady s) eqn:Hmap.
  2: { unfold findRoute, clearRoute. rewrite Hmap. cbn [negb].
       rewrite Hmap. cbn [negb]. apply set_notifications_same. }
  rewrite (clearRoute_eq weekAgo' s Hmap).
  destruct (String.eqb_spec origin "") as [Ho | Ho].
  { unfold findRoute. rewrite Hmap. cbn [negb]. subst origin. cbn [String.eqb orb].
    rewrite clearRoute_eq by exact Hmap.
    destruct s as [? ? ? ? ? ? ? ? ? ? badge ? ? ? ?]. reflexivity. }
  destruct (String.eqb_spec destination "") as [Hd | Hd].
  { unfold findRoute. rewrite Hmap. cbn [negb]. subst destination.
    rewrite orb_true_r.
    rewrite clearRoute_eq by exact Hmap.
    destruct s as [? ? ? ? ? ? ? ? ? ? badge ? ? ? ?]. reflexivity. }
  destruct (String.eqb_spec (status reply) "OK") as [Hok | Hno].
  - rewrite (findRoute_ok_eq weekAgo origin destination reply s Hmap Ho Hd Hok).
    cbv zeta. rewrite clearRoute_eq by exact Hmap.
    generalize (filteredAlongRoute engine (withRoute (replyPath reply) s)).
    generalize (halosAlongRoute engine (withRoute (replyPath reply) s)).
    intros halos cache.
    destruct s as [? ? ? ? ? ? ? ? ? ? badge ? ? ? ?].
    destruct badge; reflexivity.
  - unfold findRoute. rewrite Hmap. cbn [negb].
    destruct (String.eqb_spec origin ""); [contradiction |].
    destruct (String.eqb_spec destination ""); [contradiction |].
    destruct (String.eqb_spec (status reply) "OK"); [contradiction |].
    cbn [orb negb].
    rewrite clearRoute_eq by exact Hmap.
    destruct s as [? ? ? ? ? ? ? ? ? ? badge ? ? ? ?]. reflexivity.
Qed.

(** *** Loading the reviews *)

Lemma loadReviews_ok_eq (weekAgo : float) (res : FetchResult (list Review.t))
    (s : App) (body : list Review.t) :
  fetched res = Some body -> mapReady s = true ->
  loadReviews engine weekAgo res s
  = refreshDashboard engine weekAgo
      (set_reviewMarkers body (set_reviews body s)).
Proof.
  intros Hres Hmap. unfold loadReviews. rewrite Hres. cbv zeta.
  rewrite updateDashboardOverall_eq, loadMarkers_eq.
  rewrite refreshDashboard_eq, countReviewsAlongRoute_eq,
    updateDashboardRouteOnly_eq.
  destruct s as [ready ? ? ? ? ? path active ? ? ? ? ? ? ?].
  cbn [mapReady] in Hmap. subst ready.
  unfold routeIsSet.
  cbn [mapReady routeActive routePath set_dashboardMode set_dashboard
       set_reviews set_reviewMarkers].
  destruct (active && negb (List.length path =? 0)%nat); reflexivity.
Qed.

Lemma loadReviews_no_map_eq (weekAgo : float)
    (res : FetchResult (list Review.t)) (s : App) (body : list Review.t) :
  fetched res = Some body -> mapReady s = false ->
  loadReviews engine weekAgo res s
  = set_dashboardMode Overall
      (set_dashboard (statistics engine weekAgo body) (set_reviews body s)).
Proof.
  intros Hres Hmap. unfold loadReviews. rewrite Hres. cbv zeta.
  rewrite updateDashboardOverall_eq.
  destruct s as [ready ? ? ? ? ? ? ? ? ? ? ? ? ? ?].
  cbn [mapReady] in Hmap. subst ready. reflexivity.
Qed.

Lemma loadReviews_failed_eq (weekAgo : float)
    (res : FetchResult (list Review.t)) (s : App) :
  fetched res = None ->
  loadReviews engine weekAgo res s
  = set_notifications
      (notifications s
       ++ [mkNotification "Failed to load reviews from server." "error"])
      (set_dashboardMode Overall (set_dashboard blank (set_reviews [] s))).
Proof.
  intros Hres. unfold loadReviews. rewrite Hres. cbv zeta.
  rewrite updateDashboardOverall_eq.
  destruct s as [? ? ? ? ? ? ? ? ? ? ? ? ? ? ?]. reflexivity.
Qed.

(** X14. A successful load replaces the review list by the body of the
    answer.  On a page with a map the markers are redrawn from it and the
    dashboard is refreshed: the cache and the tiles follow the new list
    when a route is set.  Without a map the tiles show the aggregates of
    the whole list and neither markers nor cache are touched. *)
Theorem loaded_reviews_replace_list (weekAgo : float)
    (res : FetchResult (list Review.t)) (s : App) (body : list Review.t) :
  fetched res = Some body ->
  let s' := loadReviews engine weekAgo res s in
  reviews s' = body
  /\ (mapReady s = true ->
      reviewMarkers s' = body
      /\ dashboard s'
         = statistics engine weekAgo (activeSubset engine (set_reviews body s))
      /\ routeFiltered s'
         = if routeIsSet s then filteredAlongRoute engine (set_reviews body s)
           else routeFiltered s)
  /\ (mapReady s = false ->
      reviewMarkers s' = reviewMarkers s
      /\ dashboard s' = statistics engine weekAgo body
      /\ routeFiltered s' = routeFiltered s).
Proof.
  intros Hres s'. subst s'.
  destruct (mapReady s) eqn:Hmap.
  - rewrite (loadReviews_ok_eq weekAgo res s body Hres Hmap).
    destruct (refreshDashboard_frame weekAgo
                (set_reviewMarkers body (set_reviews body s)))
      as (_ & Hr & Hk & _).
    cbv zeta in Hr, Hk.
    split; [exact Hr |]. split; [| discriminate].
    intros _. split; [exact Hk |]. split.
    + exact (refreshDashboard_dashboard weekAgo
               (set_reviewMarkers body (set_reviews body s))).
    + rewrite refreshDashboard_eq.
      change (routeIsSet (set_reviewMarkers body (set_reviews body s)))
        with (routeIsSet s).
      destruct (routeIsSet s); reflexivity.
  - rewrite (loadReviews_no_map_eq weekAgo res s body Hres Hmap).
    split; [reflexivity |]. split; [discriminate |].
    intros _. repeat split.
Qed.

(** X20. A load that fails empties the review list and blanks the tiles,
    but leaves the markers of the previous list on the map; the cache and
    the halos are not touched either. *)
Theorem failed_load_empties_list_keeps_markers (weekAgo : float)
    (res : FetchResult (list Review.t)) (s : App) :
  fetched res = None ->
  let s' := loadReviews engine weekAgo res s in
  reviews s' = []
  /\ dashboard s' = blank
  /\ reviewMarkers s' = reviewMarkers s
  /\ notifications s'
     = notifications s
       ++ [mkNotification "Failed to load reviews from server." "error"].
Proof.
  intros Hres s'. subst s'.
  rewrite (loadReviews_failed_eq weekAgo res s Hres). repeat split.
Qed.

End HandlerProperties.

(** ** Invariants of the reachable states *)

Section RunProperties.

Variable engine : Js.Builtins.

Lemma routeIsSet_ext (s s' : App) :
  routeActive s' = routeActive s -> routePath s' = routePath s ->
  routeIsSet s' = routeIsSet s.
Proof. intros Ha Hp. unfold routeIsSet. now rewrite Ha, Hp. Qed.

Lemma onRoute_ext (s s' : App) :
  routePath s' = routePath s -> routeBufferMeters s' = routeBufferMeters s ->
  onRoute engine s' = onRoute engine s.
Proof. intros Hp Hb. unfold onRoute. now rewrite Hp, Hb. Qed.

Lemma halo_ext (s s' : App) :
  routeBufferMeters s' = routeBufferMeters s -> halo s' = halo s.
Proof. intros Hb. unfold halo. now rewrite Hb. Qed.

Lemma onRoute_short (s : App) (r : Review.t) :
  routeBufferMeters s = 1000 ->
  (List.length (routePath s) <? 2)%nat = true ->
  onRoute engine s r = false.
Proof.
  intros Hb Hlen. unfold onRoute. rewrite Hb.
  destruct (routePath s) as [|v [|w rest]];
    [reflexivity | reflexivity | discriminate].
Qed.

Lemma filteredAlongRoute_filter (s : App) :
  routeBufferMeters s = 1000 ->
  filteredAlongRoute engine s = filter (onRoute engine s) (reviews s).
Proof.
  intros Hb. unfold filteredAlongRoute.
  destruct (List.length (routePath s) <? 2)%nat eqn:Hlen; [| reflexivity].
  symmetry. induction (reviews s) as [|r l IH]; [reflexivity |].
  cbn [filter]. rewrite (onRoute_short s r Hb Hlen). exact IH.
Qed.

Lemma halosAlongRoute_map (s : App) :
  ((List.length (routePath s) <? 2)%nat = true -> routeOverlays s = []) ->
  halosAlongRoute engine s = map (halo s) (filteredAlongRoute engine s).
Proof.
  intros Hshort. unfold halosAlongRoute, filteredAlongRoute.
  destruct (List.length (routePath s) <? 2)%nat; [| reflexivity].
  now apply Hshort.
Qed.

Lemma refreshDashboard_cache (weekAgo : float) (s : App) :
  routeFiltered (refreshDashboard engine weekAgo s)
  = (if routeIsSet s then filteredAlongRoute engine s else routeFiltered s)
  /\ routeOverlays (refreshDashboard engine weekAgo s)
     = (if routeIsSet s then halosAlongRoute engine s else routeOverlays s).
Proof.
  rewrite refreshDashboard_eq. destruct (routeIsSet s); split; reflexivity.
Qed.

Lemma refreshDashboard_buffer (weekAgo : float) (s : App) :
  routeBufferMeters (refreshDashboard engine weekAgo s) = routeBufferMeters s.
Proof. apply (refreshDashboard_frame engine weekAgo s). Qed.

Lemma cache_empty_without_route (s : App) :
  cacheCoherent engine s -> routeIsSet s = false -> routeFiltered s = [].
Proof. unfold cacheCoherent. intros Hc Hset. now rewrite Hset in Hc. Qed.

Lemma no_route_without_map (s : App) :
  (routeActive s = true -> mapReady s = true) -> mapReady s = false ->
  routeIsSet s = false.
Proof.
  intros Hm Hmap. unfold routeIsSet.
  destruct (routeActive s); [| reflexivity].
  rewrite Hm in Hmap by reflexivity. discriminate.
Qed.

(** *** The cache invariant, handler by handler *)

Lemma cacheInv_transfer (s s' : App) :
  routeBufferMeters s' = routeBufferMeters s ->
  routeActive s' = routeActive s -> routePath s' = routePath s ->
  reviews s' = reviews s -> routeFiltered s' = routeFiltered s ->
  (mapReady s = true -> mapReady s' = true) ->
  cacheInv engine s -> cacheInv engine s'.
Proof.
  intros Hb Ha Hp Hr Hf Hm (Ib & Im & Ic).
  unfold cacheInv, cacheCoherent.
  rewrite (routeIsSet_ext s s' Ha Hp), (onRoute_ext s s' Hp Hb), Hb, Ha, Hr, Hf.
  auto.
Qed.

Lemma cacheInv_refresh (weekAgo : float) (s : App) :
  routeBufferMeters s = 1000 ->
  (routeActive s = true -> mapReady s = true) ->
  (routeIsSet s = false -> routeFiltered s = []) ->
  cacheInv engine (refreshDashboard engine weekAgo s).
Proof.
  intros Hb Hm Hc.
  destruct (refreshDashboard_frame engine weekAgo s)
    as (_ & Hr & _ & _ & _ & _ & Hb' & Hp & Ha & Hm').
  destruct (refreshDashboard_cache weekAgo s) as (Hf & _).
  cbv zeta in Hr, Hb', Hp, Ha, Hm'.
  unfold cacheInv, cacheCoherent.
  rewrite (routeIsSet_ext _ _ Ha Hp), (onRoute_ext _ _ Hp Hb'), Hb', Ha, Hm',
    Hr, Hf.
  split; [exact Hb |]. split; [exact Hm |].
  destruct (routeIsSet s).
  - now apply filteredAlongRoute_filter.
  - now apply Hc.
Qed.

Lemma cacheInv_intro (s' s : App) :
  routeBufferMeters s' = routeBufferMeters s ->
  routeActive s' = routeActive s -> routePath s' = routePath s ->
  reviews s' = reviews s ->
  routeBufferMeters s = 1000 ->
  (routeActive s = true -> mapReady s' = true) ->
  routeFiltered s'
  = (if routeIsSet s then filter (onRoute engine s) (reviews s) else []) ->
  cacheInv engine s'.
Proof.
  intros Hb Ha Hp Hr Ib Im Hf. unfold cacheInv, cacheCoherent.
  rewrite (routeIsSet_ext s s' Ha Hp), (onRoute_ext s s' Hp Hb), Hb, Ha, Hr.
  auto.
Qed.

Lemma cacheInv_no_route (s s' : App) :
  routeBufferMeters s' = routeBufferMeters s ->
  routeActive s' = routeActive s -> routePath s' = routePath s ->
  routeFiltered s' = routeFiltered s ->
  (mapReady s = true -> mapReady s' = true) ->
  routeIsSet s = false ->
  cacheInv engine s -> cacheInv engine s'.
Proof.
  intros Hb Ha Hp Hf Hm Hset (Ib & Im & Ic).
  unfold cacheInv, cacheCoherent.
  rewrite (routeIsSet_ext s s' Ha Hp), Hb, Ha, Hf, Hset.
  split; [exact Ib |]. split; [auto |].
  now apply cache_empty_without_route.
Qed.

Lemma filteredAlongRoute_coherent (s : App) :
  routeBufferMeters s = 1000 -> routeActive s = true ->
  filteredAlongRoute engine s
  = if routeIsSet s then filter (onRoute engine s) (reviews s) else [].
Proof.
  intros Hb Ha. unfold routeIsSet. rewrite Ha. cbn [andb].
  destruct (Nat.eqb_spec (List.length (routePath s)) 0) as [H0 | _];
    cbn [negb].
  - unfold filteredAlongRoute. now rewrite H0.
  - now apply filteredAlongRoute_filter.
Qed.

Lemma initMap_cacheInv (s : App) :
  cacheInv engine s -> cacheInv engine (initMap s).
Proof.
  unfold initMap. rewrite loadMarkers_eq.
  apply cacheInv_transfer; try reflexivity.
Qed.

Lemma loadReviews_cacheInv (weekAgo : float)
    (res : FetchResult (list Review.t)) (s : App) :
  cacheInv engine s -> keepsCache s (ReviewsLoaded res) = true ->
  cacheInv engine (loadReviews engine weekAgo res s).
Proof.
  intros Hinv Hkeeps.
  cbn [keepsCache] in Hkeeps.
  destruct (fetched res) as [body |] eqn:Hres.
  - destruct (mapReady s) eqn:Hmap; pose proof Hinv as (Ib & Im & Ic).
    + rewrite (loadReviews_ok_eq engine weekAgo res s body Hres Hmap).
      apply cacheInv_refresh; [exact Ib | exact Im |].
      exact (cache_empty_without_route s Ic).
    + rewrite (loadReviews_no_map_eq engine weekAgo res s body Hres Hmap).
      apply (cacheInv_no_route s); try reflexivity; [auto | | exact Hinv].
      apply no_route_without_map; [exact Im | exact Hmap].
  - rewrite (loadReviews_failed_eq engine weekAgo res s Hres).
    apply (cacheInv_no_route s); try reflexivity; [auto | | exact Hinv].
    now destruct (routeIsSet s).
Qed.

Lemma saveReview_cacheInv (weekAgo : float) (res : FetchResult Review.t)
    (s : App) :
  cacheInv engine s -> cacheInv engine (saveReview engine weekAgo res s).
Proof.
  intros Hinv. pose proof Hinv as (Ib & Im & Ic).
  destruct (selectedLocation s) as [loc |] eqn:Hloc.
  2: { unfold saveReview. now rewrite Hloc. }
  destruct (fetched res) as [saved |] eqn:Hres.
  - rewrite (saveReview_eq engine weekAgo res s loc saved Hloc Hres).
    match goal with
    | |- cacheInv engine
           (set_notifications _
              (set_isReviewMode _ (set_selectedLocation _ ?x))) =>
        apply (cacheInv_transfer x); try reflexivity; [auto |]
    end.
    apply cacheInv_refresh; [exact Ib | exact Im |].
    exact (cache_empty_without_route s Ic).
  - unfold saveReview. rewrite Hloc, Hres.
    revert Hinv. apply cacheInv_transfer; try reflexivity. auto.
Qed.

Lemma deleteReview_cacheInv (weekAgo : float) (confirmed : bool)
    (res : FetchResult unit) (s : App) :
  cacheInv engine s ->
  cacheInv engine (deleteReview engine weekAgo confirmed res s).
Proof.
  intros Hinv. pose proof Hinv as (Ib & Im & Ic).
  destruct (currentReviewId s) as [id |] eqn:Hid.
  2: { unfold deleteReview. now rewrite Hid. }
  destruct (String.eqb_spec id "") as [He | Hne].
  { unfold deleteReview. rewrite Hid, He. exact Hinv. }
  destruct confirmed.
  2: { unfold deleteReview. rewrite Hid.
       destruct (String.eqb_spec id ""); [contradiction | exact Hinv]. }
  destruct (deleted res) eqn:Hres.
  - rewrite (deleteReview_eq engine weekAgo res s id Hid Hne Hres). cbv zeta.
    match goal with
    | |- cacheInv engine (set_notifications _ ?x) =>
        apply (cacheInv_transfer x); try reflexivity; [auto |]
    end.
    apply cacheInv_refresh; [exact Ib | exact Im |].
    exact (cache_empty_without_route s Ic).
  - unfold deleteReview. rewrite Hid, Hres.
    destruct (String.eqb_spec id ""); [contradiction |]. cbn [negb].
    revert Hinv. apply cacheInv_transfer; try reflexivity. auto.
Qed.

Lemma findRoute_cacheInv (weekAgo : float) (origin destination : string)
    (reply : DirectionsReply) (s : App) :
  cacheInv engine s ->
  cacheInv engine (findRoute engine weekAgo origin destination reply s).
Proof.
  intros Hinv. pose proof Hinv as (Ib & Im & Ic).
  destruct (mapReady s) eqn:Hmap.
  2: { unfold findRoute. now rewrite Hmap. }
  destruct (String.eqb_spec origin "") as [Ho | Ho].
  { unfold findRoute. rewrite Hmap. subst origin. cbn [negb String.eqb orb].
    revert Hinv. apply cacheInv_transfer; try reflexivity. auto. }
  destruct (String.eqb_spec destination "") as [Hd | Hd].
  { unfold findRoute. rewrite Hmap. subst destination. rewrite orb_true_r.
    cbn [negb].
    revert Hinv. apply cacheInv_transfer; try reflexivity. auto. }
  destruct (String.eqb_spec (status reply) "OK") as [Hok | Hno].
  - rewrite (findRoute_ok_eq engine weekAgo origin destination reply s
               Hmap Ho Hd Hok).
    cbv zeta.
    apply (cacheInv_intro _ (withRoute (replyPath reply) s));
      try reflexivity; [exact Ib | intros _; exact Hmap |].
    apply filteredAlongRoute_coherent; [exact Ib | reflexivity].
  - unfold findRoute. rewrite Hmap.
    destruct (String.eqb_spec origin ""); [contradiction |].
    destruct (String.eqb_spec destination ""); [contradiction |].
    destruct (String.eqb_spec (status reply) "OK"); [contradiction |].
    cbn [negb orb].
    revert Hinv. apply cacheInv_transfer; try reflexivity. auto.
Qed.

Lemma clearRoute_cacheInv (weekAgo : float) (s : App) :
  cacheInv engine s -> cacheInv engine (clearRoute engine weekAgo s).
Proof.
  intros Hinv. pose proof Hinv as (Ib & Im & Ic).
  destruct (mapReady s) eqn:Hmap.
  2: { unfold clearRoute. now rewrite Hmap. }
  rewrite (clearRoute_eq engine weekAgo s Hmap).
  apply (cacheInv_intro _ (set_routeActive false (set_routePath [] s)));
    try reflexivity; [exact Ib | discriminate].
Qed.

Lemma applyFilters_cacheInv (weekAgo safetyMin infraMin : float)
    (cutoff : option float) (s : App) :
  cacheInv engine s ->
  cacheInv engine (applyFilters engine weekAgo safetyMin infraMin cutoff s).
Proof.
  intros (Ib & Im & Ic). rewrite applyFilters_eq.
  apply cacheInv_refresh; [exact Ib | exact Im |].
  exact (cache_empty_without_route s Ic).
Qed.

Lemma resetFilters_cacheInv (weekAgo : float) (s : App) :
  cacheInv engine s -> cacheInv engine (resetFilters engine weekAgo s).
Proof.
  intros (Ib & Im & Ic). rewrite resetFilters_eq.
  apply cacheInv_refresh; [exact Ib | exact Im |].
  exact (cache_empty_without_route s Ic).
Qed.

Lemma handle_cacheInv (s : App) (weekAgo : float) (e : Event) :
  cacheInv engine s -> keepsCache s e = true ->
  cacheInv engine (handle engine s (weekAgo, e)).
Proof.
  intros Hinv Hkeeps. destruct e; cbn [handle].
  - now apply initMap_cacheInv.
  - now apply loadReviews_cacheInv.
  - revert Hinv. apply cacheInv_transfer; try reflexivity. auto.
  - now apply saveReview_cacheInv.
  - revert Hinv. apply cacheInv_transfer; try reflexivity. auto.
  - now apply deleteReview_cacheInv.
  - now apply findRoute_cacheInv.
  - now apply clearRoute_cacheInv.
  - now apply applyFilters_cacheInv.
  - now apply resetFilters_cacheInv.
Qed.

Lemma run_cacheInv (keeps : App -> Event -> bool)
    (events : list (float * Event)) :
  (forall s e, keeps s e = true -> keepsCache s e = true) ->
  forall s,
    cacheInv engine s -> allEvents engine keeps s events = true ->
    cacheInv engine (fold_left (handle engine) events s).
Proof.
  intros Hkeeps.
  induction events as [|[w e] rest IH]; intros s Hinv Hall; cbn [fold_left].
  - exact Hinv.
  - cbn [allEvents snd] in Hall. apply andb_prop in Hall as [Hk Hrest].
    apply IH; [| exact Hrest].
    apply handle_cacheInv; [exact Hinv | now apply Hkeeps].
Qed.

Lemma constructor_cacheInv (page : Dashboard) :
  cacheInv engine (constructor page).
Proof. split; [reflexivity |]. split; [discriminate | reflexivity]. Qed.

(** X15. The cache is the proximity filter of the review list: in every
    state reached from the fresh page by events none of which is a failed
    load of the reviews while a route is set, the cached on-route reviews
    are exactly the reviews within the buffer of the route when a route is
    set, and there is none otherwise. *)
Theorem reachable_cache_is_filter_of_reviews (page : Dashboard)
    (events : list (float * Event)) :
  allEvents engine keepsCache (constructor page) events = true ->
  cacheCoherent engine (run engine page events).
Proof.
  intros Hall. unfold run.
  apply (run_cacheInv keepsCache events (fun _ _ H => H));
    [apply constructor_cacheInv | exact Hall].
Qed.

(** X16. The buffer never changes: whatever the events, the proximity
    filter of a reachable state works with 1000 meters. *)
Theorem route_buffer_is_constant (page : Dashboard)
    (events : list (float * Event)) :
  routeBufferMeters (run engine page events) = 1000.
Proof.
  unfold run.
  assert (H : routeBufferMeters (constructor page) = 1000) by reflexivity.
  revert H. generalize (constructor page).
  induction events as [|[w e] rest IH]; intros s Hb; cbn [fold_left].
  - exact Hb.
  - apply IH. rewrite <- Hb. clear.
    destruct e; cbn [handle].
    + unfold initMap. rewrite loadMarkers_eq. reflexivity.
    + destruct (fetched res) as [body |] eqn:Hres.
      * destruct (mapReady s) eqn:Hmap.
        -- rewrite (loadReviews_ok_eq engine w res s body Hres Hmap).
           now rewrite refreshDashboard_buffer.
        -- now rewrite (loadReviews_no_map_eq engine w res s body Hres Hmap).
      * now rewrite (loadReviews_failed_eq engine w res s Hres).
    + reflexivity.
    + unfold saveReview.
      destruct (selectedLocation s); [| reflexivity].
      destruct (fetched res); [| reflexivity].
      cbv zeta. unfold showNotification, closeReviewModal.
      match goal with
      | |- context [refreshDashboard engine w ?x] =>
          transitivity (routeBufferMeters (refreshDashboard engine w x));
            [reflexivity | rewrite refreshDashboard_buffer]
      end.
      now destruct (mapReady _).
    + reflexivity.
    + unfold deleteReview.
      destruct (currentReviewId s) as [id |]; [| reflexivity].
      destruct (String.eqb id ""); [reflexivity |].
      destruct confirmed; [| reflexivity].
      destruct (deleted res); [| reflexivity].
      cbn [negb]. cbv zeta. unfold showNotification.
      match goal with
      | |- context [refreshDashboard engine w ?x] =>
          transitivity (routeBufferMeters (refreshDashboard engine w x));
            [reflexivity | rewrite refreshDashboard_buffer]
      end.
      rewrite loadMarkers_eq. reflexivity.
    + destruct (mapReady s) eqn:Hmap.
      2: { unfold findRoute. now rewrite Hmap. }
      destruct (String.eqb_spec origin "") as [Ho | Ho].
      { unfold findRoute. rewrite Hmap. subst origin. reflexivity. }
      destruct (String.eqb_spec destination "") as [Hd | Hd].
      { unfold findRoute. rewrite Hmap. subst destination.
        rewrite orb_true_r. reflexivity. }
      destruct (String.eqb_spec (status reply) "OK") as [Hok | Hno].
      * now rewrite (findRoute_ok_eq engine w origin destination reply s
                       Hmap Ho Hd Hok).
      * unfold findRoute. rewrite Hmap.
        destruct (String.eqb_spec origin ""); [contradiction |].
        destruct (String.eqb_spec destination ""); [contradiction |].
        destruct (String.eqb_spec (status reply) "OK"); [contradiction |].
        reflexivity.
    + destruct (mapReady s) eqn:Hmap.
      * now rewrite (clearRoute_eq engine w s Hmap).
      * unfold clearRoute. now rewrite Hmap.
    + rewrite applyFilters_eq. now rewrite refreshDashboard_buffer.
    + rewrite resetFilters_eq. now rewrite refreshDashboard_buffer.
Qed.

(** *** The halo invariant, handler by handler *)

Lemma halosInv_transfer (s s' : App) :
  routeBufferMeters s' = routeBufferMeters s ->
  routePath s' = routePath s -> routeFiltered s' = routeFiltered s ->
  routeOverlays s' = routeOverlays s ->
  halosInv s -> halosInv s'.
Proof.
  intros Hb Hp Hf Ho Hinv. unfold halosInv, halosCoherent.
  rewrite (halo_ext s s' Hb), Hp, Hf, Ho. exact Hinv.
Qed.

Lemma halosInv_intro (s' s : App) :
  routeBufferMeters s' = routeBufferMeters s ->
  routePath s' = routePath s ->
  routeFiltered s' = filteredAlongRoute engine s ->
  routeOverlays s' = halosAlongRoute engine s ->
  ((List.length (routePath s) <? 2)%nat = true -> routeOverlays s = []) ->
  halosInv s'.
Proof.
  intros Hb Hp Hf Ho Hshort. unfold halosInv, halosCoherent.
  rewrite (halo_ext s s' Hb), Hp, Hf, Ho. split.
  - now apply halosAlongRoute_map.
  - intros Hlen. unfold halosAlongRoute. rewrite Hlen. now apply Hshort.
Qed.

Lemma halosInv_refresh (weekAgo : float) (s : App) :
  halosInv s -> halosInv (refreshDashboard engine weekAgo s).
Proof.
  intros Hinv.
  destruct (refreshDashboard_frame engine weekAgo s)
    as (_ & _ & _ & _ & _ & _ & Hb & Hp & _ & _).
  destruct (refreshDashboard_cache weekAgo s) as (Hf & Ho).
  cbv zeta in Hb, Hp.
  destruct (routeIsSet s).
  - apply (halosInv_intro _ s Hb Hp Hf Ho). exact (proj2 Hinv).
  - revert Hinv. now apply halosInv_transfer.
Qed.

Lemma handle_halosInv (s : App) (weekAgo : float) (e : Event) :
  halosInv s -> keepsHalos s e = true ->
  halosInv (handle engine s (weekAgo, e)).
Proof.
  intros Hinv Hkeeps. destruct e; cbn [handle].
  - unfold initMap. rewrite loadMarkers_eq.
    revert Hinv. now apply halosInv_transfer.
  - destruct (fetched res) as [body |] eqn:Hres.
    + destruct (mapReady s) eqn:Hmap.
      * rewrite (loadReviews_ok_eq engine weekAgo res s body Hres Hmap).
        apply halosInv_refresh. revert Hinv. now apply halosInv_transfer.
      * rewrite (loadReviews_no_map_eq engine weekAgo res s body Hres Hmap).
        revert Hinv. now apply halosInv_transfer.
    + rewrite (loadReviews_failed_eq engine weekAgo res s Hres).
      revert Hinv. now apply halosInv_transfer.
  - revert Hinv. now apply halosInv_transfer.
  - destruct (selectedLocation s) as [loc |] eqn:Hloc.
    2: { unfold saveReview. now rewrite Hloc. }
    destruct (fetched res) as [saved |] eqn:Hres.
    + rewrite (saveReview_eq engine weekAgo res s loc saved Hloc Hres).
      match goal with
      | |- halosInv
             (set_notifications _
                (set_isReviewMode _ (set_selectedLocation _ ?x))) =>
          apply (halosInv_transfer x); try reflexivity
      end.
      apply halosInv_refresh. revert Hinv. now apply halosInv_transfer.
    + unfold saveReview. rewrite Hloc, Hres.
      revert Hinv. now apply halosInv_transfer.
  - revert Hinv. now apply halosInv_transfer.
  - destruct (currentReviewId s) as [id |] eqn:Hid.
    2: { unfold deleteReview. now rewrite Hid. }
    destruct (String.eqb_spec id "") as [He | Hne].
    { unfold deleteReview. rewrite Hid, He. exact Hinv. }
    destruct confirmed.
    2: { unfold deleteReview. rewrite Hid.
         destruct (String.eqb_spec id ""); [contradiction | exact Hinv]. }
    destruct (deleted res) eqn:Hres.
    + rewrite (deleteReview_eq engine weekAgo res s id Hid Hne Hres). cbv zeta.
      match goal with
      | |- halosInv (set_notifications _ ?x) =>
          apply (halosInv_transfer x); try reflexivity
      end.
      apply halosInv_refresh. revert Hinv. now apply halosInv_transfer.
    + unfold deleteReview. rewrite Hid, Hres.
      destruct (String.eqb_spec id ""); [contradiction |]. cbn [negb].
      revert Hinv. now apply halosInv_transfer.
  - destruct (mapReady s) eqn:Hmap.
    2: { unfold findRoute. now rewrite Hmap. }
    destruct (String.eqb_spec origin "") as [Ho | Ho].
    { unfold findRoute. rewrite Hmap. subst origin.
      cbn [negb String.eqb orb].
      revert Hinv. now apply halosInv_transfer. }
    destruct (String.eqb_spec destination "") as [Hd | Hd].
    { unfold findRoute. rewrite Hmap. subst destination. rewrite orb_true_r.
      cbn [negb].
      revert Hinv. now apply halosInv_transfer. }
    destruct (String.eqb_spec (status reply) "OK") as [Hok | Hno].
    + rewrite (findRoute_ok_eq engine weekAgo origin destination reply s
                 Hmap Ho Hd Hok).
      cbv zeta.
      apply (halosInv_intro _ (withRoute (replyPath reply) s));
        try reflexivity.
      cbn [keepsHalos] in Hkeeps. rewrite Hok in Hkeeps.
      change (routePath (withRoute (replyPath reply) s))
        with (replyPath reply).
      change (routeOverlays (withRoute (replyPath reply) s))
        with (routeOverlays s).
      intros Hlen. apply Nat.ltb_lt in Hlen.
      cbn [String.eqb Ascii.eqb Bool.eqb negb orb andb] in Hkeeps.
      destruct (Nat.leb_spec 2 (List.length (replyPath reply))) as [Hge | _];
        [lia |].
      cbn [orb] in Hkeeps.
      destruct (routeOverlays s); [reflexivity | discriminate].
    + unfold findRoute. rewrite Hmap.
      destruct (String.eqb_spec origin ""); [contradiction |].
      destruct (String.eqb_spec destination ""); [contradiction |].
      destruct (String.eqb_spec (status reply) "OK"); [contradiction |].
      cbn [negb orb].
      revert Hinv. now apply halosInv_transfer.
  - destruct (mapReady s) eqn:Hmap.
    2: { unfold clearRoute. now rewrite Hmap. }
    rewrite (clearRoute_eq engine weekAgo s Hmap).
    split; [reflexivity | intros _; reflexivity].
  - rewrite applyFilters_eq. apply halosInv_refresh.
    revert Hinv. now apply halosInv_transfer.
  - rewrite resetFilters_eq. apply halosInv_refresh.
    revert Hinv. now apply halosInv_transfer.
Qed.

(** X17. The halos are those of the cache: in every state reached from the
    fresh page by events in which no successful route search yields fewer
    than two points while halos are on the map, the map carries one halo
    for each cached on-route review, in the order of the cache, and no
    other. *)
Theorem reachable_halos_match_cache (page : Dashboard)
    (events : list (float * Event)) :
  allEvents engine keepsHalos (constructor page) events = true ->
  halosCoherent (run engine page events).
Proof.
  intros Hall. unfold run.
  assert (Hinv : halosInv (constructor page))
    by (split; [reflexivity | intros _; reflexivity]).
  revert Hinv Hall. generalize (constructor page).
  induction events as [|[w e] rest IH]; intros s Hinv Hall; cbn [fold_left].
  - exact (proj1 Hinv).
  - cbn [allEvents snd] in Hall. apply andb_prop in Hall as [Hk Hrest].
    apply IH; [| exact Hrest].
    now apply handle_halosInv.
Qed.

(** *** The mode of the dashboard over a run *)

(** X18. The mode invariant holds in every state reached from the fresh
    page by events none of which is a failed load of the reviews while a
    route is set, or a successful route search that yields no point; and in
    such a state a route is only active on a page whose map exists. *)
Theorem reachable_states_keep_mode_invariant (page : Dashboard)
    (events : list (float * Event)) :
  allKeepMode engine (constructor page) events ->
  modeInvariant (run engine page events)
  /\ (routeActive (run engine page events) = true ->
      mapReady (run engine page events) = true).
Proof.
  intros Hall. unfold run.
  assert (Hinv : stateInv (constructor page))
    by (split; [reflexivity | discriminate]).
  revert Hinv Hall. generalize (constructor page).
  induction events as [|[w e] rest IH]; intros s Hinv Hall; cbn [fold_left].
  - split; [apply modeInvariant_expected; exact (proj1 Hinv) |].
    exact (proj2 Hinv).
  - destruct Hall as [Hk Hrest]. apply IH; [| exact Hrest].
    now apply handle_stateInv.
Qed.

(** *** Notifications *)

Lemma failed_search_cases (weekAgo : float) (origin destination : string)
    (reply : DirectionsReply) (s : App) :
  findRoute engine weekAgo origin destination reply s = s
  \/ (exists note,
        findRoute engine weekAgo origin destination reply s
        = set_notifications (notifications s ++ [note]) s)
  \/ notifications (findRoute engine weekAgo origin destination reply s)
     = notifications s.
Proof.
  destruct (mapReady s) eqn:Hmap.
  2: { left. unfold findRoute. now rewrite Hmap. }
  right.
  destruct (String.eqb_spec origin "") as [Ho | Ho].
  { left. unfold findRoute. rewrite Hmap. subst origin.
    cbn [negb String.eqb orb]. eexists. reflexivity. }
  destruct (String.eqb_spec destination "") as [Hd | Hd].
  { left. unfold findRoute. rewrite Hmap. subst destination.
    rewrite orb_true_r. cbn [negb]. eexists. reflexivity. }
  destruct (String.eqb_spec (status reply) "OK") as [Hok | Hno].
  - right.
    now rewrite (findRoute_ok_eq engine weekAgo origin destination reply s
                   Hmap Ho Hd Hok).
  - left. unfold findRoute. rewrite Hmap.
    destruct (String.eqb_spec origin ""); [contradiction |].
    destruct (String.eqb_spec destination ""); [contradiction |].
    destruct (String.eqb_spec (status reply) "OK"); [contradiction |].
    cbn [negb orb]. eexists. reflexivity.
Qed.

Lemma refreshDashboard_notifications (weekAgo : float) (s : App) :
  notifications (refreshDashboard engine weekAgo s) = notifications s.
Proof. apply (refreshDashboard_frame engine weekAgo s). Qed.

(** X19. No handler removes a notification and none shows more than one:
    the notifications after an event are those before, followed by at most
    one new notification. *)
Theorem each_event_shows_at_most_one_notification (s : App)
    (weekAgo : float) (e : Event) :
  exists added,
    notifications (handle engine s (weekAgo, e)) = notifications s ++ added
    /\ (List.length added <= 1)%nat.
Proof.
  assert (Hnone : forall s', notifications s' = notifications s ->
            exists added, notifications s' = notifications s ++ added
                          /\ (List.length added <= 1)%nat).
  { intros s' H. exists []. rewrite app_nil_r. split; [exact H | cbn; lia]. }
  assert (Hone : forall s' note,
            notifications s' = notifications s ++ [note] ->
            exists added, notifications s' = notifications s ++ added
                          /\ (List.length added <= 1)%nat).
  { intros s' note H. exists [note]. split; [exact H | cbn; lia]. }
  destruct e; cbn [handle].
  - apply Hnone. unfold initMap. now rewrite loadMarkers_eq.
  - destruct (fetched res) as [body |] eqn:Hres.
    + apply Hnone. destruct (mapReady s) eqn:Hmap.
      * rewrite (loadReviews_ok_eq engine weekAgo res s body Hres Hmap).
        now rewrite refreshDashboard_notifications.
      * now rewrite (loadReviews_no_map_eq engine weekAgo res s body Hres Hmap).
    + rewrite (loadReviews_failed_eq engine weekAgo res s Hres).
      eapply Hone. reflexivity.
  - now apply Hnone.
  - destruct (selectedLocation s) as [loc |] eqn:Hloc.
    2: { apply Hnone. unfold saveReview. now rewrite Hloc. }
    destruct (fetched res) as [saved |] eqn:Hres.
    + rewrite (saveReview_eq engine weekAgo res s loc saved Hloc Hres).
      eapply Hone. reflexivity.
    + unfold saveReview. rewrite Hloc, Hres. eapply Hone. reflexivity.
  - now apply Hnone.
  - destruct (currentReviewId s) as [id |] eqn:Hid.
    2: { apply Hnone. unfold deleteReview. now rewrite Hid. }
    destruct (String.eqb_spec id "") as [He | Hne].
    { apply Hnone. unfold deleteReview. now rewrite Hid, He. }
    destruct confirmed.
    2: { apply Hnone. unfold deleteReview. rewrite Hid.
         now destruct (String.eqb_spec id ""). }
    destruct (deleted res) eqn:Hres.
    + rewrite (deleteReview_eq engine weekAgo res s id Hid Hne Hres). cbv zeta.
      eapply Hone. reflexivity.
    + unfold deleteReview. rewrite Hid, Hres.
      destruct (String.eqb_spec id ""); [contradiction |]. cbn [negb].
      eapply Hone. reflexivity.
  - destruct (failed_search_cases weekAgo origin destination reply s)
      as [H | [(note & H) | H]].
    + apply Hnone. now rewrite H.
    + apply (Hone _ note). now rewrite H.
    + apply Hnone. exact H.
  - apply Hnone. destruct (mapReady s) eqn:Hmap.
    + now rewrite (clearRoute_eq engine weekAgo s Hmap).
    + unfold clearRoute. now rewrite Hmap.
  - rewrite applyFilters_eq, refreshDashboard_notifications.
    eapply Hone. reflexivity.
  - rewrite resetFilters_eq, refreshDashboard_notifications.
    eapply Hone. reflexivity.
Qed.

End RunProperties.

(** ** Ratings on the map and in the details *)

Section RatingProperties.

Lemma nan_shape (x : float) : is_nan x = true -> Prim2SF x = S754_nan.
Proof. rewrite FloatFacts.is_nan_spec. now destruct (Prim2SF x). Qed.

Lemma leb_nan_l (x y : float) : is_nan x = true -> (x <=? y) = false.
Proof.
  intros H. rewrite FloatAxioms.leb_spec, (nan_shape x H). reflexivity.
Qed.

Lemma leb_nan_r (x y : float) : is_nan y = true -> (x <=? y) = false.
Proof.
  intros H. rewrite FloatAxioms.leb_spec, (nan_shape y H).
  now destruct (Prim2SF x).
Qed.

Lemma add_nan (x y : float) :
  is_nan x = true \/ is_nan y = true -> is_nan (x + y) = true.
Proof.
  intros H. rewrite FloatFacts.is_nan_spec, FloatAxioms.add_spec.
  destruct H as [H | H]; rewrite (nan_shape _ H).
  - reflexivity.
  - now destruct (Prim2SF x).
Qed.

Lemma div_nan_l (x y : float) : is_nan x = true -> is_nan (x / y) = true.
Proof.
  intros H. rewrite FloatFacts.is_nan_spec, FloatAxioms.div_spec.
  now rewrite (nan_shape _ H).
Qed.

(** X21. The class of a rating follows the order of the ratings: below a
    rating shown as danger every rating is shown as danger, and above a
    rating shown as success every rating is shown as success. *)
Theorem rating_class_follows_rating_order (r1 r2 : float) :
  (r1 <=? r2) = true ->
  (getRatingClass r2 = "danger"%string -> getRatingClass r1 = "danger"%string)
  /\ (getRatingClass r1 = "success"%string ->
      getRatingClass r2 = "success"%string).
Proof.
  intros Hle. unfold getRatingClass. split.
  - destruct (r2 <=? 2) eqn:E2.
    + intros _. now rewrite (FloatOrder.leb_trans r1 r2 2 Hle E2).
    + destruct (r2 <=? 3); discriminate.
  - destruct (r1 <=? 2) eqn:E1; [discriminate |].
    destruct (r1 <=? 3) eqn:E3; [discriminate |]. intros _.
    destruct (r2 <=? 3) eqn:F3.
    + rewrite (FloatOrder.leb_trans r1 r2 3 Hle F3) in E3. discriminate.
    + destruct (r2 <=? 2) eqn:F2; [| reflexivity].
      assert (H23 : (2 <=? 3) = true) by reflexivity.
      rewrite (FloatOrder.leb_trans r2 2 3 F2 H23) in F3. discriminate.
Qed.

(** X22. A rating that is not a number is treated in two opposite ways:
    the details show it with the class of the best ratings, and the marker
    of its review has the colour of the worst. *)
Theorem undefined_rating_best_class_worst_colour (review : Review.t) :
  is_nan (Review.safetyRating review) = true
  \/ is_nan (Review.infrastructureRating review) = true ->
  markerColor review = "#F44336"%string
  /\ forall rating, is_nan rating = true ->
       getRatingClass rating = "success"%string.
Proof.
  intros H. split.
  - unfold markerColor. cbv zeta.
    pose proof (div_nan_l _ 2 (add_nan _ _ H)) as Hnan.
    now rewrite !(leb_nan_r _ _ Hnan).
  - intros rating Hr. unfold getRatingClass.
    now rewrite !(leb_nan_l _ _ Hr).
Qed.

(** X23. For ratings from 1 to 5 the colour of the marker goes by the sum
    of the two ratings: green from 8, orange from 6, amber from 4, red
    below. *)
Theorem marker_colour_by_rating_sum (review : Review.t) (a b : nat) :
  (1 <= a <= 5)%nat -> (1 <= b <= 5)%nat ->
  Review.safetyRating review = Js.of_nat a ->
  Review.infrastructureRating review = Js.of_nat b ->
  markerColor review
  = (if (8 <=? a + b)%nat then "#4CAF50"
     else if (6 <=? a + b)%nat then "#FF9800"
     else if (4 <=? a + b)%nat then "#FFC107"
     else "#F44336")%string.
Proof.
  intros Ha Hb Hs Hi. unfold markerColor. rewrite Hs, Hi. clear Hs Hi.
  assert (Ea : (a = 1 \/ a = 2 \/ a = 3 \/ a = 4 \/ a = 5)%nat) by lia.
  assert (Eb : (b = 1 \/ b = 2 \/ b = 3 \/ b = 4 \/ b = 5)%nat) by lia.
  clear Ha Hb.
  destruct Ea as [-> | [-> | [-> | [-> | ->]]]];
    destruct Eb as [-> | [-> | [-> | [-> | ->]]]];
    vm_compute; reflexivity.
Qed.

End RatingProperties.

(** ** The review API and the page *)

Section ApiProperties.

Variable engine : Js.Builtins.
Variable DB : Type.
Variable insertReview : DB -> Backend.InsertParams -> option (DB * Backend.Row).
Variable selectReviews : DB -> option (list Backend.Row).
Variable deleteById : DB -> string -> option (DB * nat).

Lemma postReviews_cases (db : DB) (body : Backend.Body) :
  (exists db' row,
     Backend.postReviews insertReview db body
     = (Backend.ReplyReview 201 (Backend.toReviewDTO row), db',
        Some (Backend.row_lat row, Backend.row_lng row,
              Backend.row_address row, Backend.row_description row)))
  \/ (exists st msg,
        Backend.postReviews insertReview db body
        = (Backend.ReplyError st msg, db, None)
        /\ (st = 400 \/ st = 500)%nat).
Proof.
  unfold Backend.postReviews.
  destruct body as [lat lng sr ir descr addr ts].
  cbn [Backend.lat Backend.lng Backend.safetyRating
       Backend.infrastructureRating Backend.description Backend.address
       Backend.timestamp].
  destruct lat; try (right; eexists _, _; split; [reflexivity | now left]).
  destruct lng; try (right; eexists _, _; split; [reflexivity | now left]).
  destruct sr; try (right; eexists _, _; split; [reflexivity | now left]).
  destruct ir; try (right; eexists _, _; split; [reflexivity | now left]).
  destruct descr; try (right; eexists _, _; split; [reflexivity | now left]).
  destruct (insertReview db _) as [[db' row] |].
  - left. exists db', row. reflexivity.
  - right. eexists _, _. split; [reflexivity | now right].
Qed.

Lemma postReviews_eq (db : DB) (body : Backend.Body) :
  Backend.postReviews insertReview db body
  = match Routes.insertParams body with
    | Some q =>
        match insertReview db q with
        | Some (db', row) =>
            (Backend.ReplyReview 201 (Backend.toReviewDTO row), db',
             Some (Backend.row_lat row, Backend.row_lng row,
                   Backend.row_address row, Backend.row_description row))
        | None => (Backend.ReplyError 500 "Server error", db, None)
        end
    | None => (Backend.ReplyError 400 "Invalid payload", db, None)
    end.
Proof.
  unfold Backend.postReviews, Routes.insertParams.
  destruct body as [lat lng sr ir descr addr ts].
  cbn [Backend.lat Backend.lng Backend.safetyRating
       Backend.infrastructureRating Backend.description Backend.address
       Backend.timestamp].
  destruct lat; try reflexivity.
  destruct lng; try reflexivity.
  destruct sr; try reflexivity.
  destruct ir; try reflexivity.
  destruct descr; reflexivity.
Qed.

(** X24. [POST /reviews] answers 201, 400 or 500.  It answers 201 exactly
    when the body passes the check and the INSERT of its parameters
    returns: the database is then the one that the INSERT left, the reply
    is the returned row in the shape of the frontend, and the alerts
    service is pinged with the position, the address and the description
    of that row.  It answers 500 exactly when the body passes the check and
    the INSERT throws.  With any answer other than 201 the database is as
    before and nothing is sent. *)
Theorem post_reviews_writes_and_alerts_only_with_201 (db : DB)
    (body : Backend.Body) :
  let out := Backend.postReviews insertReview db body in
  let reply := fst (fst out) in
  (Backend.replyStatus reply = 201 \/ Backend.replyStatus reply = 400
   \/ Backend.replyStatus reply = 500)%nat
  /\ (Backend.replyStatus reply = 201%nat <-> snd out <> None)
  /\ (Backend.replyStatus reply <> 201%nat -> snd (fst out) = db)
  /\ (Backend.replyStatus reply = 201%nat <->
      exists q row,
        Routes.insertParams body = Some q
        /\ insertReview db q = Some (snd (fst out), row)
        /\ reply = Backend.ReplyReview 201 (Backend.toReviewDTO row)
        /\ snd out = Some (Backend.row_lat row, Backend.row_lng row,
                           Backend.row_address row,
                           Backend.row_description row))
  /\ (Backend.replyStatus reply = 500%nat <->
      exists q, Routes.insertParams body = Some q
                /\ insertReview db q = None).
Proof.
  cbv zeta. rewrite postReviews_eq.
  destruct (Routes.insertParams body) as [q |].
  - destruct (insertReview db q) as [[db' row] |] eqn:Hins;
      cbn [fst snd Backend.replyStatus].
    + split; [now left |]. split; [split; [discriminate | reflexivity] |].
      split; [intros H; now contradiction H |]. split.
      * split; [| reflexivity]. intros _. exists q, row.
        repeat split; trivial.
      * split; [discriminate |].
        intros (q' & Hq & Hnone). injection Hq as <-. congruence.
    + split; [now right; right |]. split.
      { split; [discriminate | intros H; now contradiction H]. }
      split; [reflexivity |]. split.
      * split; [discriminate |].
        intros (q' & row & Hq & Hsome & _). injection Hq as <-. congruence.
      * split; [| reflexivity]. intros _. now exists q.
  - cbn [fst snd Backend.replyStatus].
    split; [now right; left |]. split.
    { split; [discriminate | intros H; now contradiction H]. }
    split; [reflexivity |]. split.
    + split; [discriminate |]. intros (q & row & Hq & _). discriminate.
    + split; [discriminate |]. intros (q & Hq & _). discriminate.
Qed.

(** X25. Creation end to end: the page submits a review from a selected
    location and the answer of [POST /reviews] reaches it.  When the API
    answered 201 with a review whose numbers JSON carries unchanged, the
    list of the page gains that review at its head and the modal closes;
    when the API answered with an error, the page only shows the error
    notification and the database is as before. *)
Theorem created_review_reaches_page (weekAgo : float) (db : DB)
    (body : Backend.Body) (s : App) (loc : LatLng.t)
    (res : FetchResult Review.t) :
  selectedLocation s = Some loc ->
  let out := Backend.postReviews insertReview db body in
  Routes.delivers Routes.jsonExact (Backend.replyStatus (fst (fst out)))
    (Routes.replyBody (fst (fst out))) res ->
  let s' := saveReview engine weekAgo res s in
  match fst (fst out) with
  | Backend.ReplyReview _ saved =>
      Routes.jsonExact saved = true ->
      reviews s' = saved :: reviews s
      /\ selectedLocation s' = None
  | Backend.ReplyError _ _ =>
      s' = showNotification "Failed to save review." "error" s
      /\ snd (fst out) = db
  end.
Proof.
  intros Hloc. cbv zeta.
  destruct (postReviews_cases db body)
    as [(db' & row & ->) | (st & msg & -> & Hst)];
    cbn [fst snd Routes.replyBody Backend.replyStatus];
    intros (parsed & -> & Hparsed).
  - intros Hexact.
    rewrite (Hparsed (Backend.toReviewDTO row) eq_refl Hexact).
    rewrite (saveReview_eq engine weekAgo
               (Response 201 (Some (Backend.toReviewDTO row))) s loc
               (Backend.toReviewDTO row) Hloc eq_refl).
    split; [| reflexivity].
    match goal with
    | |- reviews
           (set_notifications _
              (set_isReviewMode _ (set_selectedLocation _
                 (refreshDashboard engine weekAgo ?x)))) = _ =>
        transitivity (reviews (refreshDashboard engine weekAgo x));
          [reflexivity |];
        transitivity (reviews x);
          [apply (refreshDashboard_frame engine weekAgo x) | reflexivity]
    end.
  - split; [| reflexivity].
    unfold saveReview. rewrite Hloc.
    destruct Hst as [-> | ->]; reflexivity.
Qed.

(** X26. Loading end to end: the answer of [GET /reviews] reaches the page.
    When the SELECT returned rows whose numbers JSON carries unchanged, the
    list of the page afterwards is the list of those rows, each in the
    shape of the frontend and in the order of the query; it is empty when
    the query threw. *)
Theorem page_list_mirrors_selected_rows (weekAgo : float) (db : DB)
    (s : App) (res : FetchResult (list Review.t)) :
  let answer := Routes.getReviews selectReviews db in
  Routes.delivers (forallb Routes.jsonExact) (fst answer) (snd answer) res ->
  (forall rows, selectReviews db = Some rows ->
     forallb Routes.jsonExact (map Backend.toReviewDTO rows) = true) ->
  reviews (loadReviews engine weekAgo res s)
  = match selectReviews db with
    | Some rows => map Backend.toReviewDTO rows
    | None => []
    end.
Proof.
  cbv zeta. unfold Routes.getReviews.
  destruct (selectReviews db) as [rows |]; cbn [fst snd];
    intros (parsed & -> & Hparsed) Hexact.
  - rewrite (Hparsed _ eq_refl (Hexact rows eq_refl)).
    destruct (mapReady s) eqn:Hmap.
    + rewrite (loadReviews_ok_eq engine weekAgo
                 (Response 200 (Some (map Backend.toReviewDTO rows))) s
                 (map Backend.toReviewDTO rows) eq_refl Hmap).
      match goal with
      | |- reviews (refreshDashboard engine weekAgo ?x) = _ =>
          transitivity (reviews x);
            [apply (refreshDashboard_frame engine weekAgo x) | reflexivity]
      end.
    + now rewrite (loadReviews_no_map_eq engine weekAgo
                     (Response 200 (Some (map Backend.toReviewDTO rows))) s
                     (map Backend.toReviewDTO rows) eq_refl Hmap).
  - now rewrite (loadReviews_failed_eq engine weekAgo (Response 500 parsed) s
                   eq_refl).
Qed.

Lemma plainId_not_empty (id : string) :
  Routes.plainId id = true -> id <> ""%string.
Proof.
  unfold Routes.plainId. intros H ->. discriminate H.
Qed.

(** X27. Deletion end to end, for an identifier made of decimal digits
    (which the path of the request carries unchanged): the page drops the
    reviews with the current identifier from its list exactly when the
    DELETE removed a row; when no row had the identifier (404) or the query
    threw (500) the page keeps its state and only shows the error
    notification. *)
Theorem page_drops_review_iff_row_deleted (weekAgo : float) (db : DB)
    (id : string) (s : App) :
  currentReviewId s = Some id ->
  Routes.plainId id = true ->
  let answer := Routes.deleteReviews deleteById db id in
  let s' := deleteReview engine weekAgo true
              (Response (fst answer) (@None unit)) s in
  match deleteById db id with
  | Some (_, S _) =>
      reviews s'
      = filter (fun r => negb (String.eqb (Review.id r) id)) (reviews s)
      /\ currentReviewId s' = None
  | _ => s' = showNotification "Failed to delete review." "error" s
  end.
Proof.
  intros Hid Hplain. pose proof (plainId_not_empty id Hplain) as Hne.
  cbv zeta. unfold Routes.deleteReviews.
  destruct (deleteById db id) as [[db' [| n]] |]; cbn [fst snd Nat.eqb].
  - unfold deleteReview. rewrite Hid.
    destruct (String.eqb_spec id ""); [contradiction | reflexivity].
  - rewrite (deleteReview_eq engine weekAgo (Response 204 None) s id Hid
               Hne eq_refl).
    cbv zeta.
    match goal with
    | |- context [refreshDashboard engine weekAgo ?x] =>
        destruct (refreshDashboard_frame engine weekAgo x)
          as (_ & Hr & _ & _ & Hc & _)
    end.
    cbv zeta in Hr, Hc. split.
    + etransitivity; [exact Hr | reflexivity].
    + etransitivity; [exact Hc | reflexivity].
  - unfold deleteReview. rewrite Hid.
    destruct (String.eqb_spec id ""); [contradiction | reflexivity].
Qed.

End ApiProperties.

(** ** Further instances on the reference engine *)

(** X1, on the first scenario. *)
Lemma within_buffer_iff_some_segment_witness :
  let p := LatLng.mk 0.0005 0.005 in
  (infinity <=? 1000) = false
  /\ (minDistanceToPolylineMeters Js.cos_taylor 1000 p Sample.route <=? 1000)
     = existsb (fun d => d <=? 1000)
         (segmentDistances Js.cos_taylor p Sample.route).
Proof.
  intros p. split; [reflexivity |].
  apply (within_buffer_iff_some_segment Js.cos_taylor 1000 p Sample.route).
  reflexivity.
Defined.

(** X5, on the page with both reviews and the route of the scenarios. *)
Lemma route_filter_keeps_reviews_within_buffer_witness :
  let s := Sample.routed in
  (2 <= List.length (routePath s))%nat
  /\ routeFiltered (fst (countReviewsAlongRoute Engine.builtins s))
     = [Sample.nearReview].
Proof.
  intros s.
  assert (H : (2 <= List.length (routePath s))%nat) by apply le_n.
  split; [exact H |].
  destruct (route_filter_keeps_reviews_within_buffer Engine.builtins s H)
    as (H1 & _).
  etransitivity; [exact H1 | vm_compute; reflexivity].
Defined.

(** X9, a review saved at the picked place. *)
Lemma saved_review_joins_list_and_cache_witness :
  let s := Sample.editing in
  let saved :=
    Review.mk "3" 0.001 0.002 5 5 "Well lit" None "2025-09-29T10:00:00.000Z" in
  let res := Response 201 (Some saved) in
  (selectedLocation s = Some (LatLng.mk 0.001 0.002)
   /\ fetched res = Some saved)
  /\ reviews (saveReview Engine.builtins Sample.weekAgo res s)
     = saved :: reviews s
  /\ selectedLocation (saveReview Engine.builtins Sample.weekAgo res s) = None.
Proof.
  intros s saved res. split; [split; reflexivity |].
  destruct (saved_review_joins_list_and_cache Engine.builtins Sample.weekAgo
              res s (LatLng.mk 0.001 0.002) saved eq_refl eq_refl)
    as (H1 & _ & H3 & _).
  split; [exact H1 | exact H3].
Defined.

(** X10, the open review is deleted. *)
Lemma deleted_review_leaves_list_and_cache_witness :
  let s := Sample.editing in
  let res : FetchResult unit := Response 204 None in
  (currentReviewId s = Some "1"%string /\ "1"%string <> ""%string
   /\ deleted res = true)
  /\ reviews (deleteReview Engine.builtins Sample.weekAgo true res s)
     = [Sample.farReview]
  /\ currentReviewId (deleteReview Engine.builtins Sample.weekAgo true res s)
     = None.
Proof.
  intros s res.
  assert (Hne : "1"%string <> ""%string) by discriminate.
  split; [repeat split; trivial |].
  destruct (deleted_review_leaves_list_and_cache Engine.builtins
              Sample.weekAgo res s "1" eq_refl Hne eq_refl)
    as (H1 & _ & _ & H4 & _).
  split; [| exact H4].
  etransitivity; [exact H1 | vm_compute; reflexivity].
Defined.

(** X11, the route search of the scenarios. *)
Lemma route_search_installs_route_witness :
  let s := Sample.loaded in
  let s' := findRoute Engine.builtins Sample.weekAgo "A" "B"
              Sample.routeFound s in
  (mapReady s = true /\ "A"%string <> ""%string /\ "B"%string <> ""%string
   /\ status Sample.routeFound = "OK"%string)
  /\ routePath s' = Sample.route
  /\ routeActive s' = true
  /\ dashboardMode s' = routeModeOf (routeFiltered s').
Proof.
  intros s s'.
  assert (HA : "A"%string <> ""%string) by discriminate.
  assert (HB : "B"%string <> ""%string) by discriminate.
  split; [repeat split; trivial |].
  destruct (route_search_installs_route Engine.builtins Sample.weekAgo
              "A" "B" Sample.routeFound s eq_refl HA HB eq_refl)
    as (H1 & H2 & _ & _ & H5 & _).
  split; [exact H1 |]. split; [exact H2 | exact H5].
Defined.

(** X12, a search without an origin on the page with a route. *)
Lemma failed_route_search_keeps_route_witness :
  let s := Sample.routed in
  let s' := findRoute Engine.builtins Sample.weekAgo "" "B"
              Sample.routeFound s in
  (""%string = ""%string \/ "B"%string = ""%string
   \/ status Sample.routeFound <> "OK"%string)
  /\ set_notifications (notifications s) s' = s.
Proof.
  intros s s'. split; [left; reflexivity |].
  exact (proj1 (failed_route_search_keeps_route Engine.builtins
                  Sample.weekAgo "" "B" Sample.routeFound s
                  (or_introl eq_refl))).
Defined.

(** X14, the first load of the page, before the map is there. *)
Lemma loaded_reviews_replace_list_witness :
  let s := constructor Sample.page in
  let body := [Sample.nearReview; Sample.farReview] in
  let res := Response 200 (Some body) in
  fetched res = Some body
  /\ reviews (loadReviews Engine.builtins Sample.weekAgo res s) = body.
Proof.
  intros s body res. split; [reflexivity |].
  exact (proj1 (loaded_reviews_replace_list Engine.builtins Sample.weekAgo
                  res s body eq_refl)).
Defined.

(** X15, X17 and X18, on the run that draws the map, loads both reviews,
    finds the route, deletes the on-route review and clears the route. *)
Lemma reachable_cache_is_filter_of_reviews_witness :
  let events :=
    [Sample.at_ InitMap;
     Sample.at_ (ReviewsLoaded
                   (Response 200 (Some [Sample.nearReview; Sample.farReview])));
     Sample.at_ (RouteSearched "A" "B" Sample.routeFound);
     Sample.at_ (MarkerClicked Sample.nearReview);
     Sample.at_ (DeleteClicked true (Response 204 None))] in
  allEvents Engine.builtins keepsCache (constructor Sample.page) events = true
  /\ cacheCoherent Engine.builtins (run Engine.builtins Sample.page events).
Proof.
  intros events.
  assert (H : allEvents Engine.builtins keepsCache (constructor Sample.page)
                events = true) by (vm_compute; reflexivity).
  split; [exact H |].
  exact (reachable_cache_is_filter_of_reviews Engine.builtins Sample.page
           events H).
Defined.

Lemma reachable_halos_match_cache_witness :
  let events :=
    [Sample.at_ InitMap;
     Sample.at_ (ReviewsLoaded
                   (Response 200 (Some [Sample.nearReview; Sample.farReview])));
     Sample.at_ (RouteSearched "A" "B" Sample.routeFound);
     Sample.at_ (ReviewsLoaded NetworkError);
     Sample.at_ RouteCleared;
     Sample.at_ (RouteSearched "A" "B" Sample.shortRouteFound)] in
  allEvents Engine.builtins keepsHalos (constructor Sample.page) events = true
  /\ halosCoherent (run Engine.builtins Sample.page events).
Proof.
  intros events.
  assert (H : allEvents Engine.builtins keepsHalos (constructor Sample.page)
                events = true) by (vm_compute; reflexivity).
  split; [exact H |].
  exact (reachable_halos_match_cache Engine.builtins Sample.page events H).
Defined.

Lemma reachable_states_keep_mode_invariant_witness :
  let events :=
    [Sample.at_ InitMap;
     Sample.at_ (ReviewsLoaded
                   (Response 200 (Some [Sample.nearReview; Sample.farReview])));
     Sample.at_ (RouteSearched "A" "B" Sample.routeFound);
     Sample.at_ RouteCleared] in
  allKeepMode Engine.builtins (constructor Sample.page) events
  /\ modeInvariant (run Engine.builtins Sample.page events).
Proof.
  intros events.
  assert (H : allKeepMode Engine.builtins (constructor Sample.page) events).
  { subst events. cbn [allKeepMode keepsMode snd Sample.at_].
    split; [exact I |]. split; [left; discriminate |].
    split; [intros _; eexists _, _; reflexivity |].
    split; exact I. }
  split; [exact H |].
  exact (proj1 (reachable_states_keep_mode_invariant Engine.builtins
                  Sample.page events H)).
Defined.

(** X20, the load fails on the page with both reviews on the map. *)
Lemma failed_load_empties_list_keeps_markers_witness :
  let s := Sample.loaded in
  let s' := loadReviews Engine.builtins Sample.weekAgo NetworkError s in
  fetched (@NetworkError (list Review.t)) = None
  /\ reviews s' = []
  /\ reviewMarkers s' = [Sample.nearReview; Sample.farReview].
Proof.
  intros s s'. split; [reflexivity |].
  destruct (failed_load_empties_list_keeps_markers Engine.builtins
              Sample.weekAgo NetworkError s eq_refl) as (H1 & _ & H3 & _).
  split; [exact H1 |].
  etransitivity; [exact H3 | vm_compute; reflexivity].
Defined.

(** X21, for the ratings 2 and 4. *)
Lemma rating_class_follows_rating_order_witness :
  (2 <=? 4) = true
  /\ (getRatingClass 2 = "danger"%string /\ getRatingClass 4 = "success"%string)
  /\ (getRatingClass 4 = "danger"%string -> getRatingClass 2 = "danger"%string).
Proof.
  split; [reflexivity |]. split; [split; reflexivity |].
  exact (proj1 (rating_class_follows_rating_order 2 4 eq_refl)).
Defined.

(** X22, a review whose safety rating is not a number. *)
Lemma undefined_rating_best_class_worst_colour_witness :
  let review :=
    Review.mk "4" 0.001 0.002 nan 5 "No rating" None
      "2025-09-29T10:00:00.000Z" in
  (is_nan (Review.safetyRating review) = true
   \/ is_nan (Review.infrastructureRating review) = true)
  /\ markerColor review = "#F44336"%string
  /\ getRatingClass (Review.safetyRating review) = "success"%string.
Proof.
  intros review.
  assert (H : is_nan (Review.safetyRating review) = true
              \/ is_nan (Review.infrastructureRating review) = true)
    by (left; reflexivity).
  split; [exact H |].
  destruct (undefined_rating_best_class_worst_colour review H) as (H1 & H2).
  split; [exact H1 | apply H2; reflexivity].
Defined.

(** X23, the review with the ratings 4 and 2. *)
Lemma marker_colour_by_rating_sum_witness :
  ((1 <= 4 <= 5)%nat /\ (1 <= 2 <= 5)%nat
   /\ Review.safetyRating Sample.nearReview = Js.of_nat 4
   /\ Review.infrastructureRating Sample.nearReview = Js.of_nat 2)
  /\ markerColor Sample.nearReview = "#FF9800"%string.
Proof.
  assert (Ha : (1 <= 4 <= 5)%nat) by lia.
  assert (Hb : (1 <= 2 <= 5)%nat) by lia.
  split; [repeat split; trivial; lia |].
  exact (marker_colour_by_rating_sum Sample.nearReview 4 2 Ha Hb
           eq_refl eq_refl).
Defined.

(** X25, the submission of the samples from the picked place, on the table
    of the samples. *)
Lemma created_review_reaches_page_witness :
  let s := Sample.editing in
  let reply :=
    Backend.postReply Backend.tableInsert Sample.emptyTable
      Sample.emptyDescription in
  exists saved,
    reply = Backend.ReplyReview 201 saved
    /\ (selectedLocation s = Some (LatLng.mk 0.001 0.002)
        /\ Routes.delivers Routes.jsonExact 201 (Some saved)
             (Response 201 (Some saved))
        /\ Routes.jsonExact saved = true)
    /\ reviews (saveReview Engine.builtins Sample.weekAgo
                  (Response 201 (Some saved)) s)
       = saved :: reviews s.
Proof.
  intros s reply. eexists. split; [reflexivity |].
  match goal with
  | |- (_ /\ Routes.delivers _ _ (Some ?saved) ?res /\ _) /\ _ =>
      assert (Hd : Routes.delivers Routes.jsonExact 201 (Some saved) res)
        by (eexists; split; [reflexivity | intros sent H _; exact H]);
      assert (He : Routes.jsonExact saved = true) by reflexivity
  end.
  split; [split; [reflexivity | split; [exact Hd | exact He]] |].
  pose proof (created_review_reaches_page Engine.builtins Backend.Table
                Backend.tableInsert Sample.weekAgo Sample.emptyTable
                Sample.emptyDescription s (LatLng.mk 0.001 0.002) _
                eq_refl Hd) as H.
  hnf in H. exact (proj1 (H He)).
Defined.

(** X26, a store that holds the row of the first review of the samples. *)
Lemma page_list_mirrors_selected_rows_witness :
  let row :=
    Backend.mkRow 1 0.0005 0.005 4 2 "Dim street lights"
      (Some "Main road"%string) "2025-09-27T12:34:56.789Z" in
  let selectReviews := fun db : list Backend.Row => Some db in
  let answer := Routes.getReviews selectReviews [row] in
  let res := Response 200 (Some [Backend.toReviewDTO row]) in
  (Routes.delivers (forallb Routes.jsonExact) (fst answer) (snd answer) res
   /\ forallb Routes.jsonExact (map Backend.toReviewDTO [row]) = true)
  /\ reviews (loadReviews Engine.builtins Sample.weekAgo res
                (constructor Sample.page))
     = [Sample.nearReview].
Proof.
  intros row selectReviews answer res.
  assert (Hd : Routes.delivers (forallb Routes.jsonExact) (fst answer)
                 (snd answer) res)
    by (eexists; split; [reflexivity | intros sent H _; exact H]).
  split; [split; [exact Hd | reflexivity] |].
  refine (page_list_mirrors_selected_rows Engine.builtins
            (list Backend.Row) selectReviews Sample.weekAgo [row]
            (constructor Sample.page) res Hd _).
  intros rows Hrows. injection Hrows as <-. reflexivity.
Defined.

(** X27, a store that deletes one row for every identifier. *)
Lemma page_drops_review_iff_row_deleted_witness :
  let s := Sample.editing in
  let deleteById := fun (db : unit) (_ : string) => Some (db, 1%nat) in
  let answer := Routes.deleteReviews deleteById tt "1" in
  (currentReviewId s = Some "1"%string /\ Routes.plainId "1" = true)
  /\ fst answer = 204%nat
  /\ currentReviewId
       (deleteReview Engine.builtins Sample.weekAgo true
          (Response (fst answer) None) s) = None.
Proof.
  intros s deleteById answer. split; [split; reflexivity |].
  split; [reflexivity |].
  pose proof (page_drops_review_iff_row_deleted Engine.builtins unit
                deleteById Sample.weekAgo tt "1" s eq_refl eq_refl) as H.
  hnf in H. exact (proj2 H).
Defined.

(** X4, on the first scenario: the closest point of the segment is its
    midpoint. *)
Lemma closest_point_lies_on_segment_witness :
  let p := LatLng.mk 0.0005 0.005 in
  let v := LatLng.mk 0 0 in
  let w := LatLng.mk 0 0.01 in
  (segmentLength2 Js.cos_taylor v w =? 0) = false
  /\ (0 <=? closestParameter Js.cos_taylor p v w) = true
  /\ (closestParameter Js.cos_taylor p v w <=? 1) = true.
Proof.
  intros p v w.
  assert (H : (segmentLength2 Js.cos_taylor v w =? 0) = false)
    by reflexivity.
  split; [exact H |].
  destruct (closest_point_lies_on_segment Js.cos_taylor p v w H)
    as (_ & [Hn | Hin] & _).
  - assert (E : is_nan (closestParameter Js.cos_taylor p v w) = false)
      by reflexivity.
    rewrite E in Hn. discriminate Hn.
  - exact Hin.
Defined.
